(** * PyNomaly 0.1.5: Local Outlier Probabilities (PyNomaly/loop.py)

    A shallow embedding of [LocalOutlierProbability] and of the NumPy
    operations it calls.

    Numbers.  The program computes on IEEE doubles.  The embedding keeps the
    special values (NaN, the two infinities) and their propagation rules as
    NumPy has them, and takes the finite values to be real numbers with
    exact arithmetic: rounding, overflow and the sign of zero are left out.
    Every zero divisor the pipeline can meet is an absolute value, a square
    root or a product of those, so the missing sign of zero never decides a
    result.  [math.erf], the order in which a Python set is iterated and the
    contents of a fresh [np.empty] array are parameters of the development.

    NumPy.  The library calls behave as in the NumPy 1.x releases the package
    was written for: [np.tril] on an array of more than two dimensions acts
    on the last two axes, [np.sort] puts NaN last, and building a float array
    from a list that holds a one-element array takes that element (and fails
    with ValueError on an empty one).

    Arguments.  The methods are typed: data is a matrix of floats, the
    labels are integers in a NumPy array or in a Python list, the two
    sequence types line 67 admits; line 120 compares an array element by
    element and a list as a whole.  A label is stored in the table as a
    double, rounded as NumPy rounds an integer.  The decorator [accepts],
    which checks the arguments of the constructor before any of this runs,
    is embedded apart, over the Python values a call can pass. *)

From Stdlib Require Import Reals Lra Lia ZArith.
From stdpp Require Import base decidable option list strings.

Open Scope R_scope.

(** ** Floating-point values *)

Inductive fl : Type :=
| NaN
| NInf
| PInf
| Fin (x : R).

#[global] Instance Req_decision : EqDecision R := Req_dec_T.
#[global] Instance Rlt_decision : RelDecision Rlt := Rlt_dec.
#[global] Instance Rle_decision : RelDecision Rle := Rle_dec.

#[global] Instance fl_eq_dec : EqDecision fl.
Proof. solve_decision. Defined.

(** An integer as a double: exact up to [2^53] in magnitude, beyond that
    the nearest value with a 53-bit significand, a tie going to the even
    one.  (The labels of an integer array are within [int64], where the
    conversion never overflows.) *)
Definition round_int (z : Z) : Z :=
  let a := Z.abs z in
  if (a <? 2 ^ 53)%Z then z
  else
    let e := (Z.log2 a - 52)%Z in
    let q := Z.shiftr a e in
    let r := (a - Z.shiftl q e)%Z in
    let half := (2 ^ (e - 1))%Z in
    let q' := if (half <? r)%Z || ((r =? half)%Z && Z.odd q)
              then (q + 1)%Z else q in
    (Z.sgn z * Z.shiftl q' e)%Z.

Definition fl_of_Z (z : Z) : fl := Fin (IZR (round_int z)).
Arguments round_int : simpl never.
Arguments fl_of_Z : simpl never.

(** [np.isnan] *)
Definition isnan (a : fl) : bool :=
  match a with NaN => true | _ => false end.

Definition fneg (a : fl) : fl :=
  match a with
  | NaN => NaN
  | NInf => PInf
  | PInf => NInf
  | Fin x => Fin (- x)
  end.

Definition fadd (a b : fl) : fl :=
  match a, b with
  | NaN, _ | _, NaN => NaN
  | PInf, NInf | NInf, PInf => NaN
  | PInf, _ | _, PInf => PInf
  | NInf, _ | _, NInf => NInf
  | Fin x, Fin y => Fin (x + y)
  end.

Definition fsub (a b : fl) : fl := fadd a (fneg b).

(** An infinity times (or over) a finite value: zero has no sign here and
    counts as positive when it only selects the sign of the result. *)
Definition inf_signed (positive : bool) : fl :=
  if positive then PInf else NInf.

Definition fmul (a b : fl) : fl :=
  match a, b with
  | NaN, _ | _, NaN => NaN
  | PInf, PInf | NInf, NInf => PInf
  | PInf, NInf | NInf, PInf => NInf
  | PInf, Fin y | Fin y, PInf =>
      if decide (y = 0) then NaN else inf_signed (bool_decide (0 < y))
  | NInf, Fin y | Fin y, NInf =>
      if decide (y = 0) then NaN else inf_signed (bool_decide (y < 0))
  | Fin x, Fin y => Fin (x * y)
  end.

Definition fdiv (a b : fl) : fl :=
  match a, b with
  | NaN, _ | _, NaN => NaN
  | (PInf | NInf), (PInf | NInf) => NaN
  | Fin _, (PInf | NInf) => Fin 0
  | PInf, Fin y => inf_signed (bool_decide (0 <= y))
  | NInf, Fin y => inf_signed (bool_decide (y < 0))
  | Fin x, Fin y =>
      if decide (y = 0) then
        if decide (x = 0) then NaN else inf_signed (bool_decide (0 < x))
      else Fin (x / y)
  end.

(** [np.sqrt] *)
Definition fsqrt (a : fl) : fl :=
  match a with
  | NaN | NInf => NaN
  | PInf => PInf
  | Fin x => if decide (x < 0) then NaN else Fin (sqrt x)
  end.

(** [np.fabs] *)
Definition fabs (a : fl) : fl :=
  match a with
  | NaN => NaN
  | NInf | PInf => PInf
  | Fin x => Fin (Rabs x)
  end.

(** [x ** 2], [np.power(x, 2)] *)
Definition fpow2 (a : fl) : fl := fmul a a.

(** [a == b] on floats: NaN equals nothing. *)
Definition feqb (a b : fl) : bool :=
  match a, b with
  | NInf, NInf | PInf, PInf => true
  | Fin x, Fin y => bool_decide (x = y)
  | _, _ => false
  end.

(** [a < b] and [a <= b] on floats: false as soon as one side is NaN. *)
Definition fltb (a b : fl) : bool :=
  match a, b with
  | NaN, _ | _, NaN => false
  | _, NInf | PInf, _ => false
  | NInf, _ | _, PInf => true
  | Fin x, Fin y => bool_decide (x < y)
  end.

Definition fleb (a b : fl) : bool := fltb a b || feqb a b.

(** Truth value of a float, as [ndarray.any] takes it: everything but zero. *)
Definition truthy (a : fl) : bool :=
  match a with
  | Fin x => bool_decide (x <> 0)
  | _ => true
  end.

(** [np.maximum(0, a)]: NaN propagates. *)
Definition fmax0 (a : fl) : fl :=
  match a with
  | NaN => NaN
  | NInf => Fin 0
  | PInf => PInf
  | Fin x => Fin (Rmax 0 x)
  end.

(** The order [np.sort] sorts by: NaN after everything else. *)
Definition sort_leb (a b : fl) : bool :=
  match a, b with
  | _, NaN => true
  | NaN, _ => false
  | _, _ => fleb a b
  end.

(** ** NumPy on lists *)

Abbreviation matrix := (list (list fl)).

Fixpoint sort_insert (a : fl) (l : list fl) : list fl :=
  match l with
  | [] => [a]
  | b :: l' => if sort_leb a b then a :: l else b :: sort_insert a l'
  end.

(** [np.sort] of a vector *)
Definition np_sort (l : list fl) : list fl := foldr sort_insert [] l.

(** [np.sum] and [np.mean] of a vector; the mean of nothing is 0/0 = NaN. *)
Definition np_sum (l : list fl) : fl := foldr fadd (Fin 0) l.

Definition np_mean (l : list fl) : fl :=
  fdiv (np_sum l) (Fin (INR (length l))).

(** [l[start:stop]] for [0 <= start]; a negative [stop] counts from the end. *)
Definition py_slice (start : nat) (stop : Z) (l : list fl) : list fl :=
  let len := Z.of_nat (length l) in
  let stop' := if decide (stop < 0)%Z then Z.max 0 (len + stop) else Z.min stop len in
  drop start (take (Z.to_nat stop') l).

(** [np.where(v == c)[0]]: the positions that hold [c], ascending. *)
Definition np_where {A} (eqb : A -> A -> bool) (v : list A) (c : A) : list nat :=
  filter (fun i => from_option (fun x => eqb x c) false (v !! i) = true)
         (seq 0 (length v)).

(** [a[:, k]] *)
Definition column (k : nat) (a : matrix) : list fl :=
  map (fun row => default NaN (row !! k)) a.

(** [np.hstack((a, np.array([c]).T))]: one more column. *)
Definition hstack (a : matrix) (c : list fl) : matrix :=
  zip_with (fun row x => row ++ [x]) a c.

(** ** The neighbour-distance stage on one cluster *)

(** [points_vector[:, np.newaxis] - points_vector]: entry [i][j][f] is
    [points[i][f] - points[j][f]]. *)
Definition pairwise_diff (points : matrix) : list matrix :=
  map (fun pi => map (fun pj => zip_with fsub pi pj) points) points.

(** [np.tril(a, k)] on a three-dimensional array: on every [a[i]], entry
    [j][f] is kept when [f <= j + k] and replaced by zero otherwise. *)
Definition np_tril (k : Z) (a : list matrix) : list matrix :=
  map (fun plane =>
         imap (fun j row =>
                 imap (fun f x =>
                         if decide (Z.of_nat f <= Z.of_nat j + k)%Z then x else Fin 0)
                      row)
              plane)
      a.

(** [d[:, vec]] *)
Definition plane_column (vec : nat) (d : list matrix) : matrix :=
  map (fun plane => default [] (plane !! vec)) d.

(** [np.sort(np.mean(np.sqrt(d[:, vec] ** 2), axis=1))[1:n_neighbors + 1]] *)
Definition neighborhood_distances (d : list matrix) (vec : nat) (n_neighbors : Z)
  : list fl :=
  py_slice 1 (n_neighbors + 1)
    (np_sort (map (fun row => np_mean (map (fun x => fsqrt (fpow2 x)) row))
                  (plane_column vec d))).

(** [d] of a cluster, as line 126 builds it. *)
Definition cluster_d (points : matrix) : list matrix :=
  np_tril (-1) (pairwise_diff points).

(** [neighborhood_dist] and [closest_neighbor_distance] of member [vec]. *)
Definition neighborhood_dist (points : matrix) (vec : nat) (n_neighbors : Z) : fl :=
  np_mean (neighborhood_distances (cluster_d points) vec n_neighbors).

Definition closest_neighbor_distance (points : matrix) (vec : nat) (n_neighbors : Z)
  : list fl :=
  py_slice 1 2 (neighborhood_distances (cluster_d points) vec n_neighbors).

(** ** The object and its methods *)

(** How a call ends: with a value, with [sys.exit()] after a warning, or with
    an exception out of NumPy or out of a dictionary lookup. *)
Inductive result (A : Type) : Type :=
| Ok (a : A)
| Exit
| Raise.
Arguments Ok {A} a.
Arguments Exit {A}.
Arguments Raise {A}.

(** The cluster labels a caller can pass: line 67 admits a NumPy array and
    a Python list, here of integers. *)
Inductive label_vector : Type :=
| LabelArray (l : list Z)
| LabelList (l : list Z).

(** The labels the vector holds, and the ones [==] compares one by one. *)
Definition label_values (labels : label_vector) : list Z :=
  match labels with
  | LabelArray l => l
  | LabelList l => l
  end.

Definition array_labels (labels : label_vector) : list Z :=
  match labels with
  | LabelArray l => l
  | LabelList _ => []
  end.

(** The attributes of a [LocalOutlierProbability] instance.
    [cluster_labels_u] does not exist until [_ssd] has run. *)
Record LocalOutlierProbability : Type := mkLoOP {
  data : matrix;
  extent : fl;
  n_neighbors : Z;
  cluster_labels : option label_vector;
  local_outlier_probabilities : option (list fl);
  cluster_labels_u : option (list fl)
}.

(** A method body: reads and writes [self], may halt. *)
Definition M (A : Type) : Type :=
  LocalOutlierProbability -> result (A * LocalOutlierProbability).

Definition ret {A} (a : A) : M A := fun self => Ok (a, self).

Definition bind {A B} (m : M A) (k : A -> M B) : M B :=
  fun self =>
    match m self with
    | Ok (a, self') => k a self'
    | Exit => Exit
    | Raise => Raise
    end.

Definition get_self : M LocalOutlierProbability := fun self => Ok (self, self).
Definition put_self (self' : LocalOutlierProbability) : M unit :=
  fun _ => Ok (tt, self').
Definition sys_exit {A} : M A := fun _ => Exit.
Definition raise {A} : M A := fun _ => Raise.

#[global] Instance M_ret : MRet M := @ret.
#[global] Instance M_bind : MBind M := fun A B k m => bind m k.

(** [self.cluster_labels_u = u] and [self.local_outlier_probabilities = v] *)
Definition with_u (self : LocalOutlierProbability) (u : list fl)
  : LocalOutlierProbability :=
  mkLoOP self.(data) self.(extent) self.(n_neighbors) self.(cluster_labels)
    self.(local_outlier_probabilities) (Some u).

Definition with_scores (self : LocalOutlierProbability) (v : list fl)
  : LocalOutlierProbability :=
  mkLoOP self.(data) self.(extent) self.(n_neighbors) self.(cluster_labels)
    (Some v) self.(cluster_labels_u).

(** Lines 68-81.  The decorator has already fixed the types of the
    arguments; the warning about missing values has no effect on the
    object. *)
Definition __init__ (data : matrix) (extent : fl) (n_neighbors : Z)
    (cluster_labels : option label_vector) : result LocalOutlierProbability :=
  let self := mkLoOP data extent n_neighbors cluster_labels None None in
  if negb (bool_decide (n_neighbors > 0)%Z) then Exit
  else if negb (fltb (Fin 0) extent && fleb extent (Fin 1)) then Exit
  else Ok self.

Definition _standard_distance (mean_distance sum_squared_distance : list fl)
  : list fl :=
  map fsqrt (zip_with fdiv sum_squared_distance (map fabs mean_distance)).

Definition _prob_set_distance (extent : fl) (standard_distance : list fl)
  : list fl :=
  map (fun sd => fdiv (Fin 1) (fmul extent sd)) standard_distance.

Definition _prob_outlier_factor (probabilistic_set_distance ev_prob_dist : list fl)
  : list fl :=
  map (fun q => fsub q (Fin 1)) (zip_with fdiv probabilistic_set_distance ev_prob_dist).

Definition _norm_prob_outlier_factor (extent : fl)
    (ev_probabilistic_outlier_factor : list fl) : list fl :=
  map (fun ev => fmul extent (fsqrt ev)) ev_probabilistic_outlier_factor.

Definition _n_observations : M nat :=
  self ← get_self; mret (length self.(data)).

Definition _cluster_labels : M label_vector :=
  self ← get_self;
  match self.(cluster_labels) with
  | None => mret (LabelArray (replicate (length self.(data)) 0%Z))
  | Some labels => mret labels
  end.

(** Line 120, [np.where(labels == cluster_id)[0]]: on an array the
    comparison is made element by element; on a list it is the one value
    [False], of which [np.where] selects no index. *)
Definition label_where (labels : label_vector) (cluster_id : Z) : list nat :=
  match labels with
  | LabelArray l => np_where Z.eqb l cluster_id
  | LabelList _ => []
  end.

(** Rows [indices] of [a]; an index past the end is an IndexError. *)
Definition np_take {A} (a : list A) (indices : list nat) : result (list A) :=
  match mapM (fun i => a !! i) indices with
  | Some rows => Ok rows
  | None => Raise
  end.

(** Lines 127-131: the rows of one cluster, member after member.  The third
    entry of the new row is the array [neighborhood_distances[1:2]]; the row
    is a float array only when that array has exactly one element. *)
Fixpoint fill_rows (cluster_id : Z) (d : list matrix) (n_neighbors : Z)
    (indices : list nat) (vec : nat) (data_store : matrix) : result matrix :=
  match indices with
  | [] => Ok data_store
  | i :: indices' =>
      let nd := neighborhood_distances d vec n_neighbors in
      match py_slice 1 2 nd with
      | [closest] =>
          if decide (i < length data_store)%nat then
            fill_rows cluster_id d n_neighbors indices' (S vec)
              (<[i := [fl_of_Z cluster_id; np_mean nd; closest]]> data_store)
          else Raise
      | _ => Raise
      end
  end.

(** Lines 119-134, for the clusters in the order the set yields them. *)
Fixpoint distances_loop (data : matrix) (n_neighbors : Z) (labels : label_vector)
    (ids : list Z) (data_store : matrix) : result matrix :=
  match ids with
  | [] => Ok data_store
  | cluster_id :: ids' =>
      let indices := label_where labels cluster_id in
      match np_take data indices with
      | Ok points_vector =>
          let d := np_tril (-1) (pairwise_diff points_vector) in
          match fill_rows cluster_id d n_neighbors indices 0 data_store with
          | Ok data_store' =>
              if negb (existsb truthy (column 1 data_store')) then Exit
              else distances_loop data n_neighbors labels ids' data_store'
          | Exit => Exit
          | Raise => Raise
          end
      | _ => Raise
      end
  end.

Definition lift {A} (r : result A) : M A :=
  fun self =>
    match r with
    | Ok a => Ok (a, self)
    | Exit => Exit
    | Raise => Raise
    end.

(** [np.unique]: sort, then drop every element equal to its predecessor. *)
Fixpoint drop_repeats (l : list fl) : list fl :=
  match l with
  | a :: (b :: _) as l' =>
      if feqb a b then drop_repeats l' else a :: drop_repeats l'
  | _ => l
  end.

Definition np_unique (l : list fl) : list fl := drop_repeats (np_sort l).

(** [a[np.logical_not(np.isnan(a))]] *)
Definition nonan (a : list fl) : list fl :=
  filter (fun x => isnan x = false) a.

(** The entries of column [k] on the rows of one cluster:
    [np.take(data_store[:, k], np.where(data_store[:, 0] == cluster_id))]. *)
Definition cluster_column (k : nat) (data_store : matrix) (cluster_id : fl)
  : list fl :=
  omap (fun i => column k data_store !! i)
       (np_where feqb (column 0 data_store) cluster_id).

(** A dictionary keyed by cluster id: [dict[k] = v], [dict[x]], and the list
    comprehension [[dict[x] for x in data_store[:, 0].tolist()]], which ends
    in KeyError on a miss. *)
Abbreviation dict := (list (fl * fl)).

Fixpoint dict_set (dct : dict) (k v : fl) : dict :=
  match dct with
  | [] => [(k, v)]
  | (k', v') :: dct' =>
      if feqb k' k then (k', v) :: dct' else (k', v') :: dict_set dct' k v
  end.

Fixpoint dict_get (dct : dict) (x : fl) : option fl :=
  match dct with
  | [] => None
  | (k, v) :: dct' => if feqb k x then Some v else dict_get dct' x
  end.

Definition dict_column (dct : dict) (data_store : matrix) : result (list fl) :=
  match mapM (dict_get dct) (column 0 data_store) with
  | Some c => Ok c
  | None => Raise
  end.

(** Lines 140-148: the loop that fills [ssd_dict], halting on a zero sum. *)
Fixpoint ssd_loop (data_store : matrix) (ids : list fl) (ssd_dict : dict)
  : result dict :=
  match ids with
  | [] => Ok ssd_dict
  | cluster_id :: ids' =>
      let cluster_distances_nonan := nonan (cluster_column 1 data_store cluster_id) in
      let ssd := np_sum (map fpow2 cluster_distances_nonan) in
      if feqb ssd (Fin 0) then Exit
      else ssd_loop data_store ids' (dict_set ssd_dict cluster_id ssd)
  end.

(** Lines 162-166 and 178-184: the loops that fill the other two
    dictionaries. *)
Definition prob_set_distance_ev_dict (data_store : matrix) (ids : list fl) : dict :=
  foldl (fun dct cluster_id =>
           let prob_set_distances_nonan := nonan (cluster_column 5 data_store cluster_id) in
           dict_set dct cluster_id (np_mean prob_set_distances_nonan))
        [] ids.

Definition prob_local_outlier_factor_ev_dict (data_store : matrix) (ids : list fl)
  : dict :=
  foldl (fun dct cluster_id =>
           let prob_local_outlier_factors_nonan :=
             nonan (cluster_column 7 data_store cluster_id) in
           dict_set dct cluster_id
             (fdiv (np_sum (map fpow2 prob_local_outlier_factors_nonan))
                   (Fin (INR (length prob_local_outlier_factors_nonan)))))
        [] ids.

Section Methods.

(** What the interpreter and the libraries supply: [math.erf] on finite
    arguments, the order in which [set(labels)] is iterated, and whatever
    [np.empty] finds in memory. *)
Variable erf : R -> R.
Variable set_order : list Z -> list Z.
Variable np_empty : nat -> nat -> matrix.

Definition ferf (a : fl) : fl :=
  match a with
  | NaN => NaN
  | NInf => Fin (-1)
  | PInf => Fin 1
  | Fin x => Fin (erf x)
  end.

(** Lines 102-104; [np.vectorize] refuses an input of size zero. *)
Definition _local_outlier_probability (plof_val nplof_val : list fl)
  : result (list fl) :=
  let arg := zip_with fdiv plof_val
               (map (fun x => fmul x (fsqrt (Fin 2))) nplof_val) in
  match arg with
  | [] => Raise
  | _ => Ok (map (fun a => fmax0 (ferf a)) arg)
  end.

Definition _store : M matrix :=
  n ← _n_observations; mret (np_empty n 3%nat).

Definition _distances (data_store : matrix) : M matrix :=
  labels ← _cluster_labels;
  self ← get_self;
  lift (distances_loop self.(data) self.(n_neighbors) labels
          (set_order (label_values labels)) data_store).

Definition _ssd (data_store : matrix) : M matrix :=
  self ← get_self;
  let u := np_unique (column 0 data_store) in
  put_self (with_u self u);;
  ssd_dict ← lift (ssd_loop data_store u []);
  c ← lift (dict_column ssd_dict data_store);
  mret (hstack data_store c).

Definition _standard_distances (data_store : matrix) : M matrix :=
  mret (hstack data_store
          (_standard_distance (column 1 data_store) (column 3 data_store))).

Definition _prob_set_distances (data_store : matrix) : M matrix :=
  self ← get_self;
  mret (hstack data_store
          (_prob_set_distance self.(extent) (column 4 data_store))).

Definition _prob_set_distances_ev (data_store : matrix) : M matrix :=
  self ← get_self;
  match self.(cluster_labels_u) with
  | None => raise
  | Some u =>
      c ← lift (dict_column (prob_set_distance_ev_dict data_store u) data_store);
      mret (hstack data_store c)
  end.

Definition _prob_local_outlier_factors (data_store : matrix) : M matrix :=
  mret (hstack data_store
          (_prob_outlier_factor (column 5 data_store) (column 6 data_store))).

Definition _prob_local_outlier_factors_ev (data_store : matrix) : M matrix :=
  self ← get_self;
  match self.(cluster_labels_u) with
  | None => raise
  | Some u =>
      c ← lift (dict_column (prob_local_outlier_factor_ev_dict data_store u)
                  data_store);
      mret (hstack data_store c)
  end.

Definition _norm_prob_local_outlier_factors (data_store : matrix) : M matrix :=
  self ← get_self;
  mret (hstack data_store
          (_norm_prob_outlier_factor self.(extent) (column 8 data_store))).

Definition _local_outlier_probabilities (data_store : matrix) : M matrix :=
  c ← lift (_local_outlier_probability (column 7 data_store) (column 9 data_store));
  mret (hstack data_store c).

(** Lines 198-199: the table after the neighbour-distance stage. *)
Definition distance_stage : M matrix :=
  store ← _store; _distances store.

(** Lines 200-207: the stages that extend the table by one column each. *)
Definition statistics_stages (store : matrix) : M matrix :=
  store ← _ssd store;
  store ← _standard_distances store;
  store ← _prob_set_distances store;
  store ← _prob_set_distances_ev store;
  store ← _prob_local_outlier_factors store;
  store ← _prob_local_outlier_factors_ev store;
  store ← _norm_prob_local_outlier_factors store;
  _local_outlier_probabilities store.

(** The nine stage calls of [fit], lines 198-207: the statistics table. *)
Definition pipeline : M matrix :=
  store ← _store;
  store ← _distances store;
  store ← _ssd store;
  store ← _standard_distances store;
  store ← _prob_set_distances store;
  store ← _prob_set_distances_ev store;
  store ← _prob_local_outlier_factors store;
  store ← _prob_local_outlier_factors_ev store;
  store ← _norm_prob_local_outlier_factors store;
  _local_outlier_probabilities store.

(** Lines 197-211. *)
Definition fit : M (list fl) :=
  store ← _store;
  store ← _distances store;
  store ← _ssd store;
  store ← _standard_distances store;
  store ← _prob_set_distances store;
  store ← _prob_set_distances_ev store;
  store ← _prob_local_outlier_factors store;
  store ← _prob_local_outlier_factors_ev store;
  store ← _norm_prob_local_outlier_factors store;
  store ← _local_outlier_probabilities store;
  self ← get_self;
  put_self (with_scores self (column 10 store));;
  self ← get_self;
  mret (default [] self.(local_outlier_probabilities)).

(** [LocalOutlierProbability(data, extent, n_neighbors, cluster_labels).fit()] *)
Definition loop (data : matrix) (extent : fl) (n_neighbors : Z)
    (cluster_labels : option label_vector) : result (list fl) :=
  match __init__ data extent n_neighbors cluster_labels with
  | Ok self =>
      match fit self with
      | Ok (scores, _) => Ok scores
      | Exit => Exit
      | Raise => Raise
      end
  | Exit => Exit
  | Raise => Raise
  end.

End Methods.

(** ** What the specification asks of the neighbour-distance stage *)

(** Euclidean distance between two observations. *)
Definition euclidean (p q : list fl) : fl :=
  fsqrt (np_sum (map fpow2 (zip_with fsub p q))).

(** The distances from member [vec] to all other members of its cluster,
    ascending. *)
Definition neighbor_distances_spec (points : matrix) (vec : nat) : list fl :=
  match points !! vec with
  | Some p => np_sort (map (euclidean p) (delete vec points))
  | None => []
  end.

(** Mean of the first [n_neighbors] of them. *)
Definition context_distance_spec (points : matrix) (vec : nat) (n_neighbors : Z)
  : fl :=
  np_mean (take (Z.to_nat n_neighbors) (neighbor_distances_spec points vec)).

(** The single smallest of them. *)
Definition closest_neighbor_distance_spec (points : matrix) (vec : nat) : option fl :=
  head (neighbor_distances_spec points vec).

(** Number of members of the smallest cluster. *)
Definition cluster_size (labels : list Z) (c : Z) : nat :=
  length (np_where Z.eqb labels c).

Definition smallest_cluster_size (labels : list Z) : nat :=
  foldr Nat.min (length labels) (map (cluster_size labels) labels).

(** ** A stand-in for [math.erf], a set order and an [np.empty]

    Used where a statement about the abstract runtime is applied to a
    concrete one. *)
Definition erf_model (x : R) : R := x / (1 + Rabs x).

Definition set_order_model (l : list Z) : list Z := remove_dups l.

Definition np_zeros (n m : nat) : matrix := replicate n (replicate m (Fin 0)).

(** ** Sample inputs and predicates used in the statements *)

Definition three_points : matrix :=
  [[Fin 0; Fin 0]; [Fin 3; Fin 4]; [Fin 6; Fin 8]].

Definition four_points : matrix := [[Fin 0]; [Fin 1]; [Fin 3]; [Fin 7]].

(** Three observations of one feature, and the default extent. *)
Definition sample_data : matrix := [[Fin 0]; [Fin 1]; [Fin 3]].

Definition sample_extent : fl := Fin (997 / 1000).

Definition sample_self : LocalOutlierProbability :=
  mkLoOP sample_data sample_extent 2 None None None.

(** Two clusters of three observations; the second one is a single point
    three times.  [two_cluster_table] is the table the distance stage
    builds for them. *)
Definition two_cluster_data : matrix :=
  [[Fin 0]; [Fin 1]; [Fin 3]; [Fin 5]; [Fin 5]; [Fin 5]].

Definition two_cluster_labels : list Z := [0; 0; 0; 1; 1; 1]%Z.

Definition two_cluster_self : LocalOutlierProbability :=
  mkLoOP two_cluster_data sample_extent 2 (Some (LabelArray two_cluster_labels))
    None None.

Definition two_cluster_table : matrix :=
  [[Fin 0; Fin 0; Fin 0]; [Fin 0; Fin (3 / 2); Fin 2]; [Fin 0; Fin (5 / 2); Fin 3];
   [Fin 1; Fin 0; Fin 0]; [Fin 1; Fin 0; Fin 0]; [Fin 1; Fin 0; Fin 0]].

(** The three observations with one label for all, in a Python list. *)
Definition list_label_self : LocalOutlierProbability :=
  mkLoOP sample_data sample_extent 2 (Some (LabelList [0; 0; 0]%Z)) None None.

(** The same two clusters under labels of 54 bits, which the table holds as
    one and the same double. *)
Definition wide_labels : list Z :=
  [2 ^ 53; 2 ^ 53; 2 ^ 53; 2 ^ 53 + 1; 2 ^ 53 + 1; 2 ^ 53 + 1]%Z.

Definition wide_label_self : LocalOutlierProbability :=
  mkLoOP two_cluster_data sample_extent 2 (Some (LabelArray wide_labels))
    None None.

(** The configuration [__init__] accepts. *)
Definition valid_configuration (extent : fl) (n_neighbors : Z) : Prop :=
  (0 < n_neighbors)%Z /\ exists e, extent = Fin e /\ 0 < e <= 1.

(** A table of [n] rows and [w] columns. *)
Definition shape (n w : nat) (st : matrix) : Prop :=
  length st = n /\ Forall (fun row => length row = w) st.

(** [st'] has the first [w] columns of [st]. *)
Definition prefix_of (w : nat) (st st' : matrix) : Prop :=
  forall j, (j < w)%nat -> column j st' = column j st.

(** The row of member [vec] of cluster [cluster_id], as lines 128-131
    compute it. *)
Definition member_row (cluster_id : Z) (d : list matrix) (n_neighbors : Z)
    (vec : nat) (row : list fl) : Prop :=
  exists closest,
    py_slice 1 2 (neighborhood_distances d vec n_neighbors) = [closest] /\
    row = [fl_of_Z cluster_id;
           np_mean (neighborhood_distances d vec n_neighbors); closest].

(** The label vector [_cluster_labels] returns, and the labels of it that
    line 120 compares with a cluster id: all of an array, none of a list. *)
Definition label_vector_of (self : LocalOutlierProbability) : label_vector :=
  default (LabelArray (replicate (length self.(data)) 0%Z)) self.(cluster_labels).

Definition labels_of (self : LocalOutlierProbability) : list Z :=
  array_labels (label_vector_of self).

(** The labels the set of line 119 is made of. *)
Definition labels_given (self : LocalOutlierProbability) : list Z :=
  label_values (label_vector_of self).

(** Labels that stay apart as cluster ids of the table. *)
Definition distinct_ids (labels : list Z) : Prop :=
  forall c c', c ∈ labels -> c' ∈ labels -> fl_of_Z c = fl_of_Z c' -> c = c'.

(** A label the table holds as it is. *)
Definition exact_label (z : Z) : Prop := (Z.abs z <= 2 ^ 53)%Z.

(** [set(labels)] yields every label once, in some order. *)
Definition is_set_order (set_order : list Z -> list Z) : Prop :=
  forall l, NoDup (set_order l) /\ forall x, x ∈ set_order l <-> x ∈ l.

(** [np.empty([n, w])] has [n] rows and [w] columns, whatever they hold. *)
Definition is_np_empty (np_empty : nat -> nat -> matrix) : Prop :=
  forall n w, shape n w (np_empty n w).

(** A finite value in [0,1], or NaN. *)
Definition probability_or_nan (a : fl) : Prop :=
  a = NaN \/ exists r, a = Fin r /\ 0 <= r <= 1.

(** The columns of the finished table, each in terms of the ones before
    it. *)
Definition statistics_table (erf : R -> R) (self : LocalOutlierProbability)
    (st : matrix) : Prop :=
  let u := np_unique (column 0 st) in
  shape (length self.(data)) 11 st /\
  (exists ssd_dict,
      ssd_loop st u [] = Ok ssd_dict /\ dict_column ssd_dict st = Ok (column 3 st)) /\
  column 4 st = _standard_distance (column 1 st) (column 3 st) /\
  column 5 st = _prob_set_distance self.(extent) (column 4 st) /\
  dict_column (prob_set_distance_ev_dict st u) st = Ok (column 6 st) /\
  column 7 st = _prob_outlier_factor (column 5 st) (column 6 st) /\
  dict_column (prob_local_outlier_factor_ev_dict st u) st = Ok (column 8 st) /\
  column 9 st = _norm_prob_outlier_factor self.(extent) (column 8 st) /\
  _local_outlier_probability erf (column 7 st) (column 9 st) = Ok (column 10 st).

(** Every value of the dictionary is [f] of its key. *)
Definition dict_of (f : fl -> fl) (dct : dict) : Prop :=
  Forall (fun kv => kv.2 = f kv.1) dct.

(** Signs of extended values. *)
Definition nonneg (a : fl) : Prop :=
  match a with Fin x => 0 <= x | PInf => True | _ => False end.

Definition positive (a : fl) : Prop :=
  match a with Fin x => 0 < x | PInf => True | _ => False end.

(** The sum of squares of a cluster's context distances. *)
Definition cluster_ssd (st : matrix) (cluster_id : fl) : fl :=
  np_sum (map fpow2 (nonan (cluster_column 1 st cluster_id))).

(** The outcome of a run, without the table and the object. *)
Definition scores_of (r : result (matrix * LocalOutlierProbability))
  : result (list fl) :=
  match r with
  | Ok (st, _) => Ok (column 10 st)
  | Exit => Exit
  | Raise => Raise
  end.

(** ** A dataset that is one cluster, in closed form *)

(** The ids [np.unique] finds in a table of [n] rows with the one id [x]. *)
Definition one_cluster_ids (n : nat) (x : fl) : list fl :=
  match n with O => [] | S _ => [x] end.

(** The table row of member [vec] when the whole dataset is the cluster;
    [None] when line 131 cannot build the row. *)
Definition single_cluster_row (cluster_id : Z) (d : list matrix) (n_neighbors : Z)
    (vec : nat) : option (list fl) :=
  let nd := neighborhood_distances d vec n_neighbors in
  match py_slice 1 2 nd with
  | [closest] => Some [fl_of_Z cluster_id; np_mean nd; closest]
  | _ => None
  end.

(** The context distances of all members. *)
Definition single_cluster_context (data : matrix) (n_neighbors : Z)
  : option (list fl) :=
  mapM (fun vec => row ← single_cluster_row 0 (cluster_d data) n_neighbors vec;
                   row !! 1%nat)
       (seq 0 (length data)).

(** Stages 2 to 9 on the column [cd] of context distances. *)
Definition single_cluster_scores (erf : R -> R) (extent : fl) (cd : list fl)
  : result (list fl) :=
  let n := length cd in
  let ssd := np_sum (map fpow2 (nonan cd)) in
  if negb (n =? 0)%nat && feqb ssd (Fin 0) then Exit
  else
    let sd := _standard_distance cd (replicate n ssd) in
    let psd := _prob_set_distance extent sd in
    let ev := np_mean (nonan psd) in
    let plof := _prob_outlier_factor psd (replicate n ev) in
    let plof_nonan := nonan plof in
    let evsq := fdiv (np_sum (map fpow2 plof_nonan)) (Fin (INR (length plof_nonan))) in
    let nplof := _norm_prob_outlier_factor extent (replicate n evsq) in
    _local_outlier_probability erf plof nplof.

(** The whole call; an empty dataset ends in the ValueError that
    [np.vectorize] raises on an input of size zero. *)
Definition single_cluster_loop (erf : R -> R) (data : matrix) (extent : fl)
    (n_neighbors : Z) : result (list fl) :=
  match __init__ data extent n_neighbors None with
  | Ok _ =>
      match data with
      | [] => Raise
      | _ =>
          match single_cluster_context data n_neighbors with
          | Some cd =>
              if existsb truthy cd then single_cluster_scores erf extent cd
              else Exit
          | None => Raise
          end
      end
  | Exit => Exit
  | Raise => Raise
  end.

(** ** Comparing two runs, and the signs of the statistics *)

(** Two tables with the same columns other than column 2. *)
Definition agree (n w : nat) (st st' : matrix) : Prop :=
  shape n w st /\ shape n w st' /\
  forall j, (j < w)%nat -> j <> 2%nat -> column j st = column j st'.

(** Two outcomes of a stage that agree in the same sense. *)
Definition outcomes_agree (n w : nat)
    (r r' : result (matrix * LocalOutlierProbability)) : Prop :=
  match r, r' with
  | Ok (st, s), Ok (st', s') =>
      agree n w st st' /\ s.(extent) = s'.(extent) /\
      s.(cluster_labels_u) = s'.(cluster_labels_u)
  | Exit, Exit | Raise, Raise => True
  | _, _ => False
  end.

(** NaN, or a value that is not negative. *)
Definition nonneg_or_nan (a : fl) : Prop := a = NaN \/ nonneg a.

(** NaN, or a value of at least -1. *)
Definition at_least_minus_one_or_nan (a : fl) : Prop :=
  match a with NaN | PInf => True | NInf => False | Fin x => -1 <= x end.

(** ** The argument check of the constructor (lines 31-67) *)

(** The Python values a call can pass, as far as [isinstance] and
    [type(a).__name__] tell them apart. *)
#[warnings="-register-all"]
Inductive pyval : Type :=
  | PNone
  | PBool (b : bool)
  | PInt (z : Z)
  | PFloat (x : fl)
  | PStr (s : string)
  | PList (l : list pyval)
  | PNdarray (a : matrix)
  | PDataFrame (a : matrix)
  | PObject.

(** The classes the decorator of line 67 names; a tuple of classes is
    the union of them. *)
#[warnings="-register-all"]
Inductive pytype : Type :=
  | Tobject
  | Tndarray
  | Tfloat
  | Tint
  | Tlist
  | Ttuple (ts : list pytype).

(** [isinstance(a, t)]; [bool] is a subclass of [int]. *)
Fixpoint isinstance (a : pyval) (t : pytype) : bool :=
  match t with
  | Tobject => true
  | Tndarray => match a with PNdarray _ => true | _ => false end
  | Tfloat => match a with PFloat _ => true | _ => false end
  | Tint => match a with PInt _ | PBool _ => true | _ => false end
  | Tlist => match a with PList _ => true | _ => false end
  | Ttuple ts => existsb (isinstance a) ts
  end.

(** Lines 37-38: a DataFrame is checked as the array [np.array] makes of
    it. *)
Definition as_array (a : pyval) : pyval :=
  match a with
  | PDataFrame m => PNdarray m
  | _ => a
  end.

(** Lines 36-41: the positional arguments against the types, pair by pair
    as far as the shorter of the two goes. *)
Fixpoint check_positional (args : list pyval) (types : list pytype) : result unit :=
  match args, types with
  | a :: args', t :: types' =>
      if negb (isinstance (as_array a) t) then Exit
      else check_positional args' types'
  | _, _ => Ok tt
  end.

(** [opt_types]: for every option its type and, once line 54 has stored
    it, its value. *)
Abbreviation options := (list (string * (pytype * option pyval))).

(** Lines 42-52; [types[2]] and the like are an IndexError when missing. *)
Definition opt_types (types : list pytype) : result options :=
  match types !! 2%nat, types !! 3%nat, types !! 4%nat with
  | Some t2, Some t3, Some t4 =>
      Ok [("extent"%string, (t2, None));
          ("n_neighbors"%string, (t3, None));
          ("cluster_labels"%string, (t4, None))]
  | _, _, _ => Raise
  end.

(** [opt_types[x]['value'] = v]; [None] is the KeyError of a missing
    [x]. *)
Fixpoint set_value (opts : options) (x : string) (v : pyval) : option options :=
  match opts with
  | [] => None
  | (k, (t, old)) :: opts' =>
      if decide (k = x) then Some ((k, (t, Some v)) :: opts')
      else match set_value opts' x v with
           | Some r => Some ((k, (t, old)) :: r)
           | None => None
           end
  end.

(** Lines 53-54, over the keyword arguments in the order of the call. *)
Fixpoint set_values (kwds : list (string * pyval)) (opts : options) : result options :=
  match kwds with
  | [] => Ok opts
  | (x, v) :: kwds' =>
      match set_value opts x v with
      | Some opts' => set_values kwds' opts'
      | None => Raise
      end
  end.

(** Lines 55-61: an option without a value is the KeyError the loop
    passes over. *)
Fixpoint check_options (opts : options) : result unit :=
  match opts with
  | [] => Ok tt
  | (k, (t, value)) :: opts' =>
      match value with
      | Some v => if negb (isinstance v t) then Exit else check_options opts'
      | None => check_options opts'
      end
  end.

(** Lines 35-62: the function that takes the place of [f]. *)
Definition new_f {A} (types : list pytype)
    (f : list pyval -> list (string * pyval) -> result A)
    (args : list pyval) (kwds : list (string * pyval)) : result A :=
  match check_positional args types with
  | Ok _ =>
      match opt_types types with
      | Ok opts =>
          match set_values kwds opts with
          | Ok opts' =>
              match check_options opts' with
              | Ok _ => f args kwds
              | Exit => Exit
              | Raise => Raise
              end
          | Exit => Exit
          | Raise => Raise
          end
      | Exit => Exit
      | Raise => Raise
      end
  | Exit => Exit
  | Raise => Raise
  end.

(** Lines 31-34 and 63-65: decorating [f], a function of [co_argcount]
    parameters; the assertion fails when the counts differ. *)
Definition accepts {A} (types : list pytype) (co_argcount : nat)
    (f : list pyval -> list (string * pyval) -> result A)
  : result (list pyval -> list (string * pyval) -> result A) :=
  if decide (length types = co_argcount) then Ok (new_f types f) else Raise.

(** Line 67. *)
Definition init_types : list pytype :=
  [Tobject; Tndarray; Tfloat; Tint; Ttuple [Tlist; Tndarray]].

(** Every positional argument that has a type is an instance of it. *)
Definition positional_ok (args : list pyval) (types : list pytype) : Prop :=
  forall i a t, args !! i = Some a -> types !! i = Some t ->
    isinstance (as_array a) t = true.

(** The type the decorator holds a keyword argument to. *)
Definition option_type (types : list pytype) (x : string) : option pytype :=
  if decide (x = "extent"%string) then types !! 2%nat
  else if decide (x = "n_neighbors"%string) then types !! 3%nat
  else if decide (x = "cluster_labels"%string) then types !! 4%nat
  else None.

(** The options and their types, without the values. *)
Definition signature (opts : options) : list (string * pytype) :=
  map (fun e => (e.1, e.2.1)) opts.

(** Four observations, the first three of them labelled. *)
Definition partly_labelled_self : LocalOutlierProbability :=
  mkLoOP four_points sample_extent 2 (Some (LabelArray [0; 0; 0]%Z)) None None.

(** What lines 120-134 need of cluster [c] to get past it, on a table of
    [n] rows: the rows of its members exist, line 131 can build the row of
    every member, and the context distance of some member is not zero. *)
Definition cluster_ready (dat : matrix) (k : Z) (labels : list Z) (n : nat) (c : Z)
  : Prop :=
  exists points,
    np_take dat (np_where Z.eqb labels c) = Ok points /\
    (forall j i, np_where Z.eqb labels c !! j = Some i ->
       (exists closest,
           py_slice 1 2 (neighborhood_distances (cluster_d points) j k) = [closest]) /\
       (i < n)%nat) /\
    exists j i, np_where Z.eqb labels c !! j = Some i /\
      truthy (np_mean (neighborhood_distances (cluster_d points) j k)) = true.

(** Another set order and another memory, to compare runs with. *)
Definition set_order_reversed (l : list Z) : list Z := reverse (remove_dups l).

Definition np_ones (n m : nat) : matrix := replicate n (replicate m (Fin 1)).

(** Both NaN, or both finite and in this order. *)
Definition le_or_nan (a b : fl) : Prop :=
  (a = NaN /\ b = NaN) \/ exists x y, a = Fin x /\ b = Fin y /\ x <= y.

(** The observations of cluster [c], in the order of the data. *)
Definition cluster_points (dat : matrix) (labels : list Z) (c : Z) : matrix :=
  omap (fun i => dat !! i) (np_where Z.eqb labels c).

(** A cluster that can be scored: three members or more, one of them with
    a context distance that is neither zero nor NaN. *)
Definition scorable (dat : matrix) (k : Z) (labels : list Z) (c : Z) : Prop :=
  (3 <= cluster_size labels c)%nat /\
  exists vec, (vec < cluster_size labels c)%nat /\
    isnan (neighborhood_dist (cluster_points dat labels c) vec k) = false /\
    neighborhood_dist (cluster_points dat labels c) vec k <> Fin 0.

(** Two clusters of three observations, the second one [offset] away. *)
Definition split_data (offset : R) : matrix :=
  [[Fin 0]; [Fin 1]; [Fin 3];
   [Fin offset]; [Fin (offset + 1)]; [Fin (offset + 3)]].

Definition split_self (offset : R) : LocalOutlierProbability :=
  mkLoOP (split_data offset) sample_extent 2 (Some (LabelArray two_cluster_labels)) None None.

(** * Properties *)

(** ** Evaluation on concrete inputs

    The finite values are reals, so a concrete run is evaluated by deciding
    every comparison it meets with [lra]. *)

Ltac Rsolve := first [ lra | lia | done ].

Ltac Rdecide_step :=
  match goal with
  | |- context [Rabs ?x] =>
      first [ rewrite (Rabs_pos_eq x) by Rsolve | rewrite (Rabs_left1 x) by Rsolve ]
  | |- context [@decide ?P ?d] =>
      first [ rewrite (@decide_True _ P d) by Rsolve
            | rewrite (@decide_False _ P d) by Rsolve ]
  | |- context [@bool_decide ?P ?d] =>
      first [ rewrite (@bool_decide_eq_true_2 P d) by Rsolve
            | rewrite (@bool_decide_eq_false_2 P d) by Rsolve ]
  end.

Ltac Zcompute_step :=
  match goal with
  | |- context [Z.to_nat ?z] =>
      let v := eval vm_compute in (Z.to_nat z) in change (Z.to_nat z) with v
  end.

Ltac Reval :=
  repeat first [ Rdecide_step | progress cbn
               | progress unfold fleb, np_mean, py_slice | Zcompute_step ].

Ltac fin_eq :=
  repeat first [ reflexivity | apply (f_equal Fin); lra
               | apply (f_equal (@Some fl)) | apply (f_equal (@Some (list fl)))
               | apply (f_equal2 cons) ].

Lemma sqrt_of_square x y : 0 <= y -> x = y * y -> sqrt x = y.
Proof. intros Hy ->. apply sqrt_square, Hy. Qed.

(** [np.sqrt(x ** 2)] is [np.fabs(x)]. *)
Lemma fsqrt_fpow2 a : fsqrt (fpow2 a) = fabs a.
Proof.
  destruct a as [| | |x]; simpl; try reflexivity.
  rewrite decide_False by nra.
  f_equal. rewrite <- sqrt_Rsqr_abs. reflexivity.
Qed.

(** ** The neighbour-distance stage on small clusters *)

(** C1, on the cluster (0,0), (3,4), (6,8) with two neighbours: line 126
    zeroes feature [f] of every difference to member [j] unless [f < j], and
    line 128 averages absolute differences over the features.  The first
    member gets context distance 0 and the others 3/2 and 21/4, where the
    Euclidean distances 5, 10 and 5 give 15/2, 5 and 15/2. *)
Theorem distances_not_euclidean :
  map (fun vec => neighborhood_dist three_points vec 2) [0; 1; 2]%nat
    = [Fin 0; Fin (3 / 2); Fin (21 / 4)]
  /\ map (fun vec => context_distance_spec three_points vec 2) [0; 1; 2]%nat
    = [Fin (15 / 2); Fin 5; Fin (15 / 2)].
Proof.
  split.
  - unfold neighborhood_dist, neighborhood_distances, cluster_d, three_points.
    cbn -[fsqrt fpow2]. rewrite !fsqrt_fpow2. Reval. fin_eq.
  - unfold context_distance_spec, neighbor_distances_spec, euclidean, three_points.
    cbn -[np_sort np_mean]. repeat Rdecide_step.
    repeat match goal with
           | |- context [sqrt ?x] =>
               first [ rewrite (sqrt_of_square x 5) by lra
                     | rewrite (sqrt_of_square x 10) by lra ]
           end.
    Reval. fin_eq.
Qed.

(** C4, on the one-feature cluster 0, 1, 3, 7 with two neighbours: the
    member at 1 has the sorted neighbour distances 1, 2 (and 6); line 130
    slices [1:2] out of the already sliced list and stores 2, the distance
    to the second nearest neighbour, where the nearest is at distance 1. *)
Theorem closest_is_second_nearest :
  neighborhood_distances (cluster_d four_points) 1 2 = [Fin 1; Fin 2]
  /\ closest_neighbor_distance four_points 1 2 = [Fin 2]
  /\ closest_neighbor_distance_spec four_points 1 = Some (Fin 1).
Proof.
  assert (Hnd : neighborhood_distances (cluster_d four_points) 1 2 = [Fin 1; Fin 2]).
  { unfold neighborhood_distances, cluster_d, four_points.
    cbn -[fsqrt fpow2]. rewrite !fsqrt_fpow2. Reval. fin_eq. }
  split; [exact Hnd|]. split.
  - unfold closest_neighbor_distance. rewrite Hnd. reflexivity.
  - unfold closest_neighbor_distance_spec, neighbor_distances_spec, euclidean,
      four_points.
    cbn -[np_sort fsqrt fpow2].
    repeat match goal with
           | |- context [fadd ?a (Fin 0)] =>
               replace (fadd a (Fin 0)) with a
                 by (unfold fpow2; cbn; f_equal; lra)
           end.
    rewrite !fsqrt_fpow2. Reval. fin_eq.
Qed.

(** ** Configuration *)

Lemma extent_check (extent : fl) :
  fltb (Fin 0) extent && fleb extent (Fin 1) = true
  <-> exists e, extent = Fin e /\ 0 < e <= 1.
Proof.
  unfold fleb. split.
  - destruct extent as [| | |e]; cbn; try discriminate.
    rewrite andb_true_iff, orb_true_iff, !bool_decide_eq_true.
    intros [H1 H2]. exists e. split; [reflexivity|]. lra.
  - intros (e & -> & H1 & H2). cbn.
    rewrite andb_true_iff, orb_true_iff, !bool_decide_eq_true.
    split; [lra|]. destruct H2 as [H2|H2]; [left|right]; done.
Qed.

Lemma init_Ok data extent n_neighbors cluster_labels :
  valid_configuration extent n_neighbors ->
  __init__ data extent n_neighbors cluster_labels
    = Ok (mkLoOP data extent n_neighbors cluster_labels None None).
Proof.
  intros [Hn He]. unfold __init__.
  rewrite bool_decide_eq_true_2 by lia.
  apply extent_check in He. rewrite He. reflexivity.
Qed.

Lemma init_Exit data extent n_neighbors cluster_labels :
  ~ valid_configuration extent n_neighbors ->
  __init__ data extent n_neighbors cluster_labels = Exit.
Proof.
  intros Hv. unfold __init__.
  destruct (decide (n_neighbors > 0)%Z) as [Hn|Hn].
  - rewrite bool_decide_eq_true_2 by done. cbn [negb].
    destruct (fltb (Fin 0) extent && fleb extent (Fin 1)) eqn:He; [|reflexivity].
    apply extent_check in He. exfalso. apply Hv. split; [lia|done].
  - rewrite bool_decide_eq_false_2 by done. reflexivity.
Qed.

(** ** The monad *)

Lemma bind_Ok {A B} (m : M A) (k : A -> M B) self r :
  (m ≫= k) self = Ok r <->
  exists a self1, m self = Ok (a, self1) /\ k a self1 = Ok r.
Proof.
  unfold mbind, M_bind, bind. split.
  - destruct (m self) as [[a self1]| |]; try discriminate. eauto.
  - intros (a & self1 & -> & H). exact H.
Qed.

Lemma lift_Ok {A} (r : result A) self a self' :
  lift r self = Ok (a, self') <-> r = Ok a /\ self' = self.
Proof.
  unfold lift. destruct r; split; try discriminate; try (intros [? _]; discriminate).
  - intros [= -> ->]. done.
  - intros [[= ->] ->]. done.
Qed.

Lemma ret_Ok {A} (a : A) self b self' :
  (mret a : M A) self = Ok (b, self') <-> b = a /\ self' = self.
Proof.
  unfold mret, M_ret, ret. split; [intros [= -> ->]; done | intros [-> ->]; done].
Qed.

(** ** Tables *)

Lemma length_column k st : length (column k st) = length st.
Proof. unfold column. apply length_map. Qed.

Lemma length_hstack st c :
  length c = length st -> length (hstack st c) = length st.
Proof. intros H. unfold hstack. rewrite length_zip_with. lia. Qed.

Lemma shape_hstack n w st c :
  shape n w st -> length c = n -> shape n (S w) (hstack st c).
Proof.
  intros [Hn Hw] Hc. split.
  - rewrite length_hstack; lia.
  - clear Hn Hc. revert c. induction Hw as [|row st Hrow Hw IH]; intros [|x c]; cbn;
      constructor; auto.
    rewrite length_app. cbn. lia.
Qed.

Lemma column_hstack_old n w st c k :
  shape n w st -> length c = n -> (k < w)%nat ->
  column k (hstack st c) = column k st.
Proof.
  intros [Hn Hw] Hc Hk. subst n. revert c Hc.
  induction Hw as [|row st Hrow Hw IH]; intros [|x c] Hc; cbn in *; try lia; [done|].
  f_equal; [|apply IH; lia].
  rewrite lookup_app_l by lia. done.
Qed.

Lemma column_hstack_new n w st c :
  shape n w st -> length c = n -> column w (hstack st c) = c.
Proof.
  intros [Hn Hw] Hc. subst n. revert c Hc.
  induction Hw as [|row st Hrow Hw IH]; intros [|x c] Hc; cbn in *; try lia; [done|].
  f_equal; [|apply IH; lia].
  rewrite lookup_app_r by lia. rewrite Hrow, Nat.sub_diag. done.
Qed.

Lemma mapM_result_length {A B} (f : A -> option B) l k :
  mapM f l = Some k -> length k = length l.
Proof. intros H. symmetry. eapply length_mapM, H. Qed.

Lemma dict_column_length dct st c :
  dict_column dct st = Ok c -> length c = length st.
Proof.
  unfold dict_column. destruct (mapM _ _) as [c'|] eqn:H; [|discriminate].
  intros [= <-]. apply mapM_result_length in H. rewrite length_column in H. done.
Qed.

Lemma cluster_column_ext k st st' c :
  column 0 st = column 0 st' -> column k st = column k st' ->
  cluster_column k st c = cluster_column k st' c.
Proof. unfold cluster_column. intros -> ->. reflexivity. Qed.

Lemma ssd_loop_ext st st' ids dct :
  column 0 st = column 0 st' -> column 1 st = column 1 st' ->
  ssd_loop st ids dct = ssd_loop st' ids dct.
Proof.
  intros H0 H1. revert dct. induction ids as [|c ids IH]; intros dct; cbn; [done|].
  rewrite (cluster_column_ext 1 st st') by done.
  destruct (feqb _ _); [done|]. apply IH.
Qed.

Lemma prob_set_distance_ev_dict_ext st st' ids :
  column 0 st = column 0 st' -> column 5 st = column 5 st' ->
  prob_set_distance_ev_dict st ids = prob_set_distance_ev_dict st' ids.
Proof.
  intros H0 H5. unfold prob_set_distance_ev_dict.
  generalize ([] : dict). induction ids as [|c ids IH]; intros dct; cbn; [done|].
  rewrite (cluster_column_ext 5 st st') by done. apply IH.
Qed.

Lemma prob_local_outlier_factor_ev_dict_ext st st' ids :
  column 0 st = column 0 st' -> column 7 st = column 7 st' ->
  prob_local_outlier_factor_ev_dict st ids = prob_local_outlier_factor_ev_dict st' ids.
Proof.
  intros H0 H7. unfold prob_local_outlier_factor_ev_dict.
  generalize ([] : dict). induction ids as [|c ids IH]; intros dct; cbn; [done|].
  rewrite (cluster_column_ext 7 st st') by done. apply IH.
Qed.

Lemma dict_column_ext dct st st' :
  column 0 st = column 0 st' -> dict_column dct st = dict_column dct st'.
Proof. unfold dict_column. intros ->. reflexivity. Qed.

(** ** The distance stage keeps the shape of the table *)

Lemma fill_rows_shape n c d k idx vec st st' :
  fill_rows c d k idx vec st = Ok st' -> shape n 3 st -> shape n 3 st'.
Proof.
  revert vec st. induction idx as [|i idx IH]; intros vec st; cbn.
  - intros [= <-]. done.
  - destruct (py_slice 1 2 _) as [|closest [|]]; try discriminate.
    destruct (decide _) as [Hi|]; [|discriminate].
    intros H [Hn Hw]. eapply IH; [exact H|]. split.
    + rewrite length_insert. done.
    + apply Forall_insert; [done|]. reflexivity.
Qed.

(** ** Labels as cluster ids of the table *)

(** An integer of at most 53 bits is a double as it is. *)
Lemma round_int_exact z : exact_label z -> round_int z = z.
Proof.
  unfold exact_label, round_int. intros Hz.
  destruct (Z.abs z <? 2 ^ 53)%Z eqn:Hlt; [done|].
  apply Z.ltb_ge in Hlt.
  assert (Ha : Z.abs z = (2 ^ 53)%Z) by lia.
  rewrite Ha.
  assert (z = 2 ^ 53 \/ z = - 2 ^ 53)%Z as [->| ->] by lia;
    vm_compute; reflexivity.
Qed.

Lemma fl_of_Z_exact z : exact_label z -> fl_of_Z z = Fin (IZR z).
Proof. intros Hz. unfold fl_of_Z. rewrite round_int_exact by done. done. Qed.

Lemma fl_of_Z_0 : fl_of_Z 0 = Fin 0.
Proof. apply fl_of_Z_exact. unfold exact_label. cbn. lia. Qed.

Lemma fl_of_Z_1 : fl_of_Z 1 = Fin 1.
Proof. apply fl_of_Z_exact. unfold exact_label. cbn. lia. Qed.

(** Such labels stay apart in the table. *)
Lemma exact_distinct_ids labels : Forall exact_label labels -> distinct_ids labels.
Proof.
  intros Hall c c' Hc Hc' Heq.
  rewrite Forall_forall in Hall.
  rewrite !fl_of_Z_exact in Heq by (apply Hall; done).
  apply eq_IZR. congruence.
Qed.

(** Beyond 53 bits two labels can share an id. *)
Lemma round_int_collision : round_int (2 ^ 53 + 1) = round_int (2 ^ 53).
Proof. vm_compute. reflexivity. Qed.

Lemma fl_of_Z_wide : fl_of_Z (2 ^ 53 + 1) = fl_of_Z (2 ^ 53).
Proof. unfold fl_of_Z. rewrite round_int_collision. done. Qed.

(** Line 120 selects among the labels of an array, and nothing of a
    list. *)
Lemma label_where_array labels c :
  label_where labels c = np_where Z.eqb (array_labels labels) c.
Proof. destruct labels; reflexivity. Qed.

Lemma distances_loop_array dat k labels ids st :
  distances_loop dat k labels ids st
  = distances_loop dat k (LabelArray (array_labels labels)) ids st.
Proof.
  revert st. induction ids as [|c ids IH]; intros st; [done|].
  cbn [distances_loop]. rewrite label_where_array. cbn [label_where].
  destruct (np_take _ _) as [points| |]; try done.
  destruct (fill_rows _ _ _ _ _ _) as [st1| |]; try done.
  destruct (negb _); [done|]. apply IH.
Qed.

(** With the labels in a list no row is written: the loop comes to the
    check of line 132 with the table as it was. *)
Lemma distances_loop_list dat k l ids st :
  distances_loop dat k (LabelList l) ids st
  = match ids with
    | [] => Ok st
    | _ => if existsb truthy (column 1 st) then Ok st else Exit
    end.
Proof.
  induction ids as [|c ids IH]; [done|].
  change (distances_loop dat k (LabelList l) (c :: ids) st)
    with (if negb (existsb truthy (column 1 st)) then Exit
          else distances_loop dat k (LabelList l) ids st).
  rewrite IH. destruct (existsb truthy (column 1 st)), ids; done.
Qed.

Lemma array_labels_default r (labels : option (list Z)) :
  array_labels (default (LabelArray r) (LabelArray <$> labels)) = default r labels.
Proof. destruct labels; reflexivity. Qed.

Lemma labels_of_given self c : c ∈ labels_of self -> c ∈ labels_given self.
Proof.
  unfold labels_of, labels_given. destruct (label_vector_of self); [done|].
  intros H. apply elem_of_nil in H. done.
Qed.

Lemma labels_given_of self : labels_of self <> [] -> labels_given self = labels_of self.
Proof.
  unfold labels_of, labels_given. destruct (label_vector_of self); done.
Qed.

Lemma distances_loop_shape n dat k labels ids st st' :
  distances_loop dat k labels ids st = Ok st' -> shape n 3 st -> shape n 3 st'.
Proof.
  revert st. induction ids as [|c ids IH]; intros st; cbn.
  - intros [= <-]. done.
  - destruct (np_take _ _) as [points| |]; try discriminate.
    destruct (fill_rows _ _ _ _ _ _) as [st1| |] eqn:Hfill; try discriminate.
    destruct (negb _); [discriminate|].
    intros H Hs. eapply IH; [exact H|]. eapply fill_rows_shape; eauto.
Qed.


Ltac inv_M :=
  repeat match goal with
    | H : (_ ≫= _) _ = Ok _ |- _ =>
        let a := fresh "a" in let s := fresh "self" in let H' := fresh "H" in
        apply bind_Ok in H as (a & s & H' & H)
    | H : get_self _ = Ok _ |- _ => unfold get_self in H; simplify_eq
    | H : put_self _ _ = Ok _ |- _ => unfold put_self in H; simplify_eq
    | H : mret _ _ = Ok _ |- _ => apply ret_Ok in H as [? ?]; simplify_eq
    | H : lift _ _ = Ok _ |- _ => apply lift_Ok in H as [H ?]; simplify_eq
    | H : raise _ = Ok _ |- _ => discriminate H
    | H : sys_exit _ = Ok _ |- _ => discriminate H
    end.

Lemma prefix_hstack n w st c :
  shape n w st -> length c = n -> prefix_of w st (hstack st c).
Proof. intros Hs Hc j Hj. eapply column_hstack_old; eauto. Qed.

Lemma prefix_trans w w' st st' st'' :
  prefix_of w st st' -> prefix_of w' st' st'' -> (w <= w')%nat ->
  prefix_of w st st''.
Proof. intros H1 H2 Hw j Hj. rewrite H2 by lia. apply H1, Hj. Qed.

Section Stage_facts.
Variable erf : R -> R.
Variable set_order : list Z -> list Z.
Variable np_empty : nat -> nat -> matrix.

Lemma cluster_labels_Ok self labels self' :
  _cluster_labels self = Ok (labels, self') ->
  self' = self /\
  labels = label_vector_of self.
Proof.
  unfold _cluster_labels, label_vector_of. intros H. inv_M.
  destruct (cluster_labels _); inv_M; done.
Qed.

Lemma store_Ok self st self' :
  _store np_empty self = Ok (st, self') ->
  self' = self /\ st = np_empty (length self.(data)) 3.
Proof. unfold _store, _n_observations. intros H. inv_M. done. Qed.

Lemma distances_Ok st self st' self' :
  _distances set_order st self = Ok (st', self') ->
  self' = self /\
  distances_loop self.(data) self.(n_neighbors) (LabelArray (labels_of self))
    (set_order (labels_given self)) st = Ok st'.
Proof.
  unfold _distances. intros H. inv_M.
  apply cluster_labels_Ok in H0 as [-> ->].
  rewrite distances_loop_array in H. done.
Qed.

Lemma ssd_Ok st self st' self' :
  _ssd st self = Ok (st', self') ->
  let u := np_unique (column 0 st) in
  self' = with_u self u /\
  exists ssd_dict c,
    ssd_loop st u [] = Ok ssd_dict /\ dict_column ssd_dict st = Ok c /\
    st' = hstack st c.
Proof. unfold _ssd. intros H. inv_M. split; [done|]. eauto. Qed.

Lemma standard_distances_Ok st self st' self' :
  _standard_distances st self = Ok (st', self') ->
  self' = self /\
  st' = hstack st (_standard_distance (column 1 st) (column 3 st)).
Proof. unfold _standard_distances. intros H. inv_M. done. Qed.

Lemma prob_set_distances_Ok st self st' self' :
  _prob_set_distances st self = Ok (st', self') ->
  self' = self /\
  st' = hstack st (_prob_set_distance self.(extent) (column 4 st)).
Proof. unfold _prob_set_distances. intros H. inv_M. done. Qed.

Lemma prob_set_distances_ev_Ok st self st' self' :
  _prob_set_distances_ev st self = Ok (st', self') ->
  self' = self /\
  exists u c, self.(cluster_labels_u) = Some u /\
    dict_column (prob_set_distance_ev_dict st u) st = Ok c /\ st' = hstack st c.
Proof.
  unfold _prob_set_distances_ev. intros H. inv_M.
  destruct (cluster_labels_u _) as [u|] eqn:Hu; inv_M. eauto 6.
Qed.

Lemma prob_local_outlier_factors_Ok st self st' self' :
  _prob_local_outlier_factors st self = Ok (st', self') ->
  self' = self /\
  st' = hstack st (_prob_outlier_factor (column 5 st) (column 6 st)).
Proof. unfold _prob_local_outlier_factors. intros H. inv_M. done. Qed.

Lemma prob_local_outlier_factors_ev_Ok st self st' self' :
  _prob_local_outlier_factors_ev st self = Ok (st', self') ->
  self' = self /\
  exists u c, self.(cluster_labels_u) = Some u /\
    dict_column (prob_local_outlier_factor_ev_dict st u) st = Ok c /\
    st' = hstack st c.
Proof.
  unfold _prob_local_outlier_factors_ev. intros H. inv_M.
  destruct (cluster_labels_u _) as [u|] eqn:Hu; inv_M. eauto 6.
Qed.

Lemma norm_prob_local_outlier_factors_Ok st self st' self' :
  _norm_prob_local_outlier_factors st self = Ok (st', self') ->
  self' = self /\
  st' = hstack st (_norm_prob_outlier_factor self.(extent) (column 8 st)).
Proof. unfold _norm_prob_local_outlier_factors. intros H. inv_M. done. Qed.

Lemma local_outlier_probabilities_Ok st self st' self' :
  _local_outlier_probabilities erf st self = Ok (st', self') ->
  self' = self /\
  exists c, _local_outlier_probability erf (column 7 st) (column 9 st) = Ok c /\
            st' = hstack st c.
Proof. unfold _local_outlier_probabilities. intros H. inv_M. eauto. Qed.
End Stage_facts.

Section Pipeline_facts.
Variable erf : R -> R.
Variable set_order : list Z -> list Z.
Variable np_empty : nat -> nat -> matrix.

Hypothesis np_empty_shape : is_np_empty np_empty.

Lemma distance_stage_Ok self st self' :
  distance_stage set_order np_empty self = Ok (st, self') ->
  self' = self /\ shape (length self.(data)) 3 st.
Proof.
  unfold distance_stage. intros H.
  apply bind_Ok in H as (st0 & self0 & H0 & H).
  unfold _store, _n_observations in H0.
  apply bind_Ok in H0 as (n & self1 & Hn & H0).
  apply bind_Ok in Hn as (s & self2 & Hs & Hn).
  unfold get_self in Hs. injection Hs as <- <-.
  apply ret_Ok in Hn as [-> ->]. apply ret_Ok in H0 as [-> ->].
  unfold _distances, _cluster_labels in H.
  apply bind_Ok in H as (labels & self1 & Hl & H).
  apply bind_Ok in H as (s & self2 & Hs & H).
  unfold get_self in Hs. injection Hs as <- <-.
  apply lift_Ok in H as [H ->].
  apply bind_Ok in Hl as (s & self2 & Hs & Hl).
  unfold get_self in Hs. injection Hs as <- <-.
  assert (self1 = self) as ->.
  { destruct (cluster_labels self); apply ret_Ok in Hl as [_ ->]; done. }
  split; [done|].
  eapply distances_loop_shape; [exact H|]. apply np_empty_shape.
Qed.

Lemma length_standard_distance a b :
  length a = length b -> length (_standard_distance a b) = length a.
Proof.
  intros H. unfold _standard_distance.
  rewrite length_map, length_zip_with, length_map. lia.
Qed.

Lemma length_prob_outlier_factor a b :
  length a = length b -> length (_prob_outlier_factor a b) = length a.
Proof.
  intros H. unfold _prob_outlier_factor. rewrite length_map, length_zip_with. lia.
Qed.

Lemma local_outlier_probability_length a b c :
  _local_outlier_probability erf a b = Ok c -> length a = length b ->
  length c = length a.
Proof.
  unfold _local_outlier_probability. cbv zeta. intros H Hl.
  assert (length (zip_with fdiv a (map (fun x => fmul x (fsqrt (Fin 2))) b))
          = length a) as Hz by (rewrite length_zip_with, length_map; lia).
  destruct (zip_with _ _ _); [discriminate|].
  injection H as <-. cbn in *. rewrite length_map. exact Hz.
Qed.

Lemma pipeline_Ok self st self' :
  pipeline erf set_order np_empty self = Ok (st, self') ->
  self' = with_u self (np_unique (column 0 st)) /\
  statistics_table erf self st /\
  exists st3, distance_stage set_order np_empty self = Ok (st3, self) /\ prefix_of 3 st3 st.
Proof.
  unfold pipeline. intros H.
  apply bind_Ok in H as (st0 & s0 & H0 & H).
  apply bind_Ok in H as (st3 & s3 & H3 & H).
  assert (Hds : distance_stage set_order np_empty self = Ok (st3, s3)).
  { unfold distance_stage. apply bind_Ok. eauto. }
  clear H0 H3. pose proof (distance_stage_Ok _ _ _ Hds) as [-> S3].
  set (n := length (data self)) in *.
  apply bind_Ok in H as (st4 & s4 & H4 & H).
  apply ssd_Ok in H4 as (-> & ssd_dict & c3 & Hssd & Hc3 & ->).
  set (u := np_unique (column 0 st3)) in *.
  assert (L3 : length c3 = n).
  { apply dict_column_length in Hc3. destruct S3. lia. }
  pose proof (shape_hstack _ _ _ _ S3 L3) as S4.
  pose proof (prefix_hstack _ _ _ _ S3 L3) as P3.
  pose proof (column_hstack_new _ _ _ _ S3 L3) as N3.
  set (st4 := hstack st3 c3) in *.
  apply bind_Ok in H as (st5 & s5 & H5 & H).
  apply standard_distances_Ok in H5 as (-> & ->).
  set (c4 := _standard_distance _ _) in *.
  assert (L4 : length c4 = n).
  { unfold c4. rewrite length_standard_distance; rewrite !length_column;
      destruct S4; lia. }
  pose proof (shape_hstack _ _ _ _ S4 L4) as S5.
  pose proof (prefix_hstack _ _ _ _ S4 L4) as P4.
  pose proof (column_hstack_new _ _ _ _ S4 L4) as N4.
  set (st5 := hstack st4 c4) in *.
  apply bind_Ok in H as (st6 & s6 & H6 & H).
  apply prob_set_distances_Ok in H6 as (-> & ->). cbn [extent with_u] in *.
  set (c5 := _prob_set_distance _ _) in *.
  assert (L5 : length c5 = n).
  { unfold c5, _prob_set_distance. rewrite length_map, length_column.
    destruct S5; lia. }
  pose proof (shape_hstack _ _ _ _ S5 L5) as S6.
  pose proof (prefix_hstack _ _ _ _ S5 L5) as P5.
  pose proof (column_hstack_new _ _ _ _ S5 L5) as N5.
  set (st6 := hstack st5 c5) in *.
  apply bind_Ok in H as (st7 & s7 & H7 & H).
  apply prob_set_distances_ev_Ok in H7 as (-> & u' & c6 & [= <-] & Hc6 & ->).
  assert (L6 : length c6 = n).
  { apply dict_column_length in Hc6. destruct S6. lia. }
  pose proof (shape_hstack _ _ _ _ S6 L6) as S7.
  pose proof (prefix_hstack _ _ _ _ S6 L6) as P6.
  pose proof (column_hstack_new _ _ _ _ S6 L6) as N6.
  set (st7 := hstack st6 c6) in *.
  apply bind_Ok in H as (st8 & s8 & H8 & H).
  apply prob_local_outlier_factors_Ok in H8 as (-> & ->).
  set (c7 := _prob_outlier_factor _ _) in *.
  assert (L7 : length c7 = n).
  { unfold c7. rewrite length_prob_outlier_factor; rewrite !length_column;
      destruct S7; lia. }
  pose proof (shape_hstack _ _ _ _ S7 L7) as S8.
  pose proof (prefix_hstack _ _ _ _ S7 L7) as P7.
  pose proof (column_hstack_new _ _ _ _ S7 L7) as N7.
  set (st8 := hstack st7 c7) in *.
  apply bind_Ok in H as (st9 & s9 & H9 & H).
  apply prob_local_outlier_factors_ev_Ok in H9 as (-> & u' & c8 & [= <-] & Hc8 & ->).
  assert (L8 : length c8 = n).
  { apply dict_column_length in Hc8. destruct S8. lia. }
  pose proof (shape_hstack _ _ _ _ S8 L8) as S9.
  pose proof (prefix_hstack _ _ _ _ S8 L8) as P8.
  pose proof (column_hstack_new _ _ _ _ S8 L8) as N8.
  set (st9 := hstack st8 c8) in *.
  apply bind_Ok in H as (st10 & s10 & H10 & H).
  apply norm_prob_local_outlier_factors_Ok in H10 as (-> & ->).
  cbn [extent with_u] in *.
  set (c9 := _norm_prob_outlier_factor _ _) in *.
  assert (L9 : length c9 = n).
  { unfold c9, _norm_prob_outlier_factor. rewrite length_map, length_column.
    destruct S9; lia. }
  pose proof (shape_hstack _ _ _ _ S9 L9) as S10.
  pose proof (prefix_hstack _ _ _ _ S9 L9) as P9.
  pose proof (column_hstack_new _ _ _ _ S9 L9) as N9.
  set (st10 := hstack st9 c9) in *.
  apply local_outlier_probabilities_Ok in H as (-> & c10 & Hc10 & ->).
  assert (L10 : length c10 = n).
  { apply local_outlier_probability_length in Hc10;
      rewrite ?length_column in *; destruct S10; lia. }
  pose proof (shape_hstack _ _ _ _ S10 L10) as S11.
  pose proof (prefix_hstack _ _ _ _ S10 L10) as P10.
  pose proof (column_hstack_new _ _ _ _ S10 L10) as N10.
  set (st := hstack st10 c10) in *.
  (* every earlier table is a prefix of the last one *)
  pose proof (prefix_trans _ _ _ _ _ P9 P10 ltac:(lia)) as Q9.
  pose proof (prefix_trans _ _ _ _ _ P8 Q9 ltac:(lia)) as Q8.
  pose proof (prefix_trans _ _ _ _ _ P7 Q8 ltac:(lia)) as Q7.
  pose proof (prefix_trans _ _ _ _ _ P6 Q7 ltac:(lia)) as Q6.
  pose proof (prefix_trans _ _ _ _ _ P5 Q6 ltac:(lia)) as Q5.
  pose proof (prefix_trans _ _ _ _ _ P4 Q5 ltac:(lia)) as Q4.
  pose proof (prefix_trans _ _ _ _ _ P3 Q4 ltac:(lia)) as Q3.
  assert (Hu : np_unique (column 0 st) = u).
  { unfold u. rewrite (Q3 0%nat) by lia. done. }
  split; [rewrite Hu; done|]. split; [|exists st3; split; [done|exact Q3]].
  unfold statistics_table. rewrite Hu.
  split; [exact S11|].
  split.
  { exists ssd_dict. split.
    - rewrite <- Hssd. apply ssd_loop_ext; apply Q3; lia.
    - rewrite (dict_column_ext _ st st3) by (apply Q3; lia).
      rewrite (Q4 3%nat), N3 by lia. exact Hc3. }
  split.
  { rewrite (Q5 4%nat), N4 by lia. unfold c4.
    rewrite <- (Q4 1%nat), <- (Q4 3%nat) by lia. done. }
  split.
  { rewrite (Q6 5%nat), N5 by lia. unfold c5.
    rewrite <- (Q5 4%nat) by lia. done. }
  split.
  { rewrite (Q7 6%nat), N6 by lia. rewrite <- Hc6.
    rewrite (dict_column_ext _ st st6) by (rewrite (Q6 0%nat); [done|lia]).
    f_equal. apply prob_set_distance_ev_dict_ext; apply Q6; lia. }
  split.
  { rewrite (Q8 7%nat), N7 by lia. unfold c7.
    rewrite <- (Q7 5%nat), <- (Q7 6%nat) by lia. done. }
  split.
  { rewrite (Q9 8%nat), N8 by lia. rewrite <- Hc8.
    rewrite (dict_column_ext _ st st8) by (rewrite (Q8 0%nat); [done|lia]).
    f_equal. apply prob_local_outlier_factor_ev_dict_ext; apply Q8; lia. }
  split.
  { rewrite (P10 9%nat), N9 by lia. unfold c9.
    rewrite <- (Q9 8%nat) by lia. done. }
  rewrite N10, (P10 7%nat), (P10 9%nat) by lia. exact Hc10.
Qed.

Lemma fit_pipeline self :
  fit erf set_order np_empty self =
  match pipeline erf set_order np_empty self with
  | Ok (st, self1) => Ok (column 10 st, with_scores self1 (column 10 st))
  | Exit => Exit
  | Raise => Raise
  end.
Proof.
  unfold fit, pipeline, mbind, M_bind, bind.
  repeat match goal with
         | |- context [match ?m ?s with Ok _ => _ | Exit => _ | Raise => _ end] =>
             lazymatch m with
             | context [match _ with _ => _ end] => fail
             | _ => destruct (m s) as [[? ?]| |]; try reflexivity
             end
         end.
Qed.
End Pipeline_facts.

(** ** [np.where] *)

Lemma elem_of_np_where {A} (eqb : A -> A -> bool) v c i :
  i ∈ np_where eqb v c <-> exists x, v !! i = Some x /\ eqb x c = true.
Proof.
  unfold np_where. rewrite list_elem_of_filter, elem_of_seq. split.
  - intros [H _]. destruct (v !! i) as [x|]; [|discriminate]. eauto.
  - intros (x & Hx & Hc). rewrite Hx. split; [exact Hc|].
    apply lookup_lt_Some in Hx. lia.
Qed.

Lemma NoDup_np_where {A} (eqb : A -> A -> bool) v c : NoDup (np_where eqb v c).
Proof. apply NoDup_filter, NoDup_seq. Qed.

(** ** The rows the distance stage writes *)

Lemma fill_rows_spec c d k idx vec st st' :
  fill_rows c d k idx vec st = Ok st' -> NoDup idx ->
  length st' = length st /\
  (forall i, i ∉ idx -> st' !! i = st !! i) /\
  (forall j i, idx !! j = Some i ->
     exists row, st' !! i = Some row /\ member_row c d k (vec + j) row).
Proof.
  revert vec st. induction idx as [|i idx IH]; intros vec st; cbn.
  - intros [= <-] _. split; [done|]. split; [done|]. intros j i. rewrite lookup_nil. done.
  - destruct (py_slice 1 2 _) as [|closest [|]] eqn:Hcl; try discriminate.
    destruct (decide _) as [Hi|]; [|discriminate].
    intros H Hnd. apply NoDup_cons in Hnd as [Hni Hnd].
    destruct (IH _ _ H Hnd) as (Hlen & Hout & Hin).
    rewrite length_insert in Hlen. split; [done|]. split.
    + intros i' Hi'. apply not_elem_of_cons in Hi' as [Hne Hi'].
      rewrite Hout by done. apply list_lookup_insert_ne. done.
    + intros [|j] i'; cbn.
      * intros [= <-]. rewrite Hout by done.
        rewrite list_lookup_insert_eq by done. eexists. split; [done|].
        exists closest. rewrite Nat.add_0_r. done.
      * intros Hj. destruct (Hin _ _ Hj) as (row & Hrow & Hm).
        exists row. split; [done|]. rewrite <- Nat.add_succ_comm. done.
Qed.

(** What [_distances] leaves in the table: the row of every observation
    whose cluster has been visited is the row of that member of its
    cluster; all other rows are as they were. *)
Lemma distances_loop_spec dat k labels ids st st' :
  distances_loop dat k (LabelArray labels) ids st = Ok st' ->
  length st' = length st /\
  (forall i c, labels !! i = Some c -> c ∉ ids -> st' !! i = st !! i) /\
  (forall i c, labels !! i = Some c -> c ∈ ids ->
     exists points j row,
       np_take dat (np_where Z.eqb labels c) = Ok points /\
       np_where Z.eqb labels c !! j = Some i /\
       st' !! i = Some row /\
       member_row c (cluster_d points) k j row).
Proof.
  revert st. induction ids as [|c0 ids IH]; intros st; cbn.
  - intros [= <-]. split; [done|]. split; [done|].
    intros i c _ Hc. apply elem_of_nil in Hc. done.
  - destruct (np_take _ _) as [points| |] eqn:Hpts; try discriminate.
    destruct (fill_rows _ _ _ _ _ _) as [st1| |] eqn:Hfill; try discriminate.
    destruct (negb _); [discriminate|]. intros H.
    destruct (IH _ H) as (Hlen & Hout & Hin).
    destruct (fill_rows_spec _ _ _ _ _ _ _ Hfill (NoDup_np_where _ _ _))
      as (Hlen1 & Hout1 & Hin1).
    split; [congruence|]. split.
    + intros i c Hi Hc. apply not_elem_of_cons in Hc as [Hne Hc].
      rewrite (Hout _ _ Hi Hc). apply Hout1.
      rewrite elem_of_np_where. intros (x & Hx & Heq).
      apply Z.eqb_eq in Heq. congruence.
    + intros i c Hi Hc.
      destruct (decide (c ∈ ids)) as [Hc'|Hc']; [eauto|].
      apply elem_of_cons in Hc as [->|Hc]; [|done].
      rewrite (Hout _ _ Hi Hc').
      assert (Hw : i ∈ np_where Z.eqb labels c0).
      { apply elem_of_np_where. exists c0. split; [done|]. apply Z.eqb_refl. }
      apply list_elem_of_lookup in Hw as [j Hj].
      destruct (Hin1 _ _ Hj) as (row & Hrow & Hm).
      exists points, j, row. done.
Qed.

(** ** Dictionaries keyed by cluster id *)

Lemma feqb_eq a b : feqb a b = true -> a = b.
Proof.
  destruct a, b; cbn; try discriminate; try reflexivity.
  intros H. apply bool_decide_eq_true in H. congruence.
Qed.

Lemma dict_of_set f dct k :
  dict_of f dct -> dict_of f (dict_set dct k (f k)).
Proof.
  unfold dict_of. induction 1 as [|[k' v'] dct Hkv Hd IH]; cbn.
  - repeat constructor.
  - destruct (feqb k' k) eqn:Hk.
    + apply feqb_eq in Hk as ->. constructor; [reflexivity|exact Hd].
    + constructor; [exact Hkv|exact IH].
Qed.

Lemma dict_of_get f dct x v :
  dict_of f dct -> dict_get dct x = Some v -> v = f x /\ feqb x x = true.
Proof.
  unfold dict_of. induction 1 as [|[k' v'] dct Hkv Hd IH]; cbn; [discriminate|].
  destruct (feqb k' x) eqn:Hk; [|exact IH].
  intros [= <-]. pose proof (feqb_eq _ _ Hk) as ->. cbn in Hkv. done.
Qed.

Lemma dict_of_foldl f (g : fl -> fl) ids dct :
  dict_of g dct -> (forall c, f c = g c) ->
  dict_of g (foldl (fun dct c => dict_set dct c (f c)) dct ids).
Proof.
  intros Hd Hf. revert dct Hd. induction ids as [|c ids IH]; intros dct Hd; cbn.
  - exact Hd.
  - apply IH. rewrite Hf. apply dict_of_set, Hd.
Qed.

Lemma ssd_loop_dict_of st ids dct dct' :
  ssd_loop st ids dct = Ok dct' ->
  dict_of (fun c => np_sum (map fpow2 (nonan (cluster_column 1 st c)))) dct ->
  dict_of (fun c => np_sum (map fpow2 (nonan (cluster_column 1 st c)))) dct'.
Proof.
  revert dct. induction ids as [|c ids IH]; intros dct; cbn.
  - intros [= <-]. done.
  - destruct (feqb _ _); [discriminate|]. intros H Hd.
    apply (IH _ H).
    apply (dict_of_set (fun c => np_sum (map fpow2 (nonan (cluster_column 1 st c))))), Hd.
Qed.

Lemma dict_column_lookup dct st c i cid :
  dict_column dct st = Ok c -> column 0 st !! i = Some cid ->
  exists v, c !! i = Some v /\ dict_get dct cid = Some v.
Proof.
  unfold dict_column. destruct (mapM _ _) as [c'|] eqn:H; [|discriminate].
  intros [= <-] Hi. apply mapM_Some in H.
  destruct (Forall2_lookup_l _ _ _ _ _ H Hi) as (v & Hv & Hg). eauto.
Qed.

(** A row of the table is among the rows of its own cluster. *)
Lemma elem_of_cluster_column k st i cid x :
  column 0 st !! i = Some cid -> feqb cid cid = true ->
  column k st !! i = Some x -> x ∈ cluster_column k st cid.
Proof.
  intros H0 Hc Hk. unfold cluster_column. apply list_elem_of_omap.
  exists i. split; [|exact Hk]. apply elem_of_np_where. eauto.
Qed.

(** ** Signs of the aggregates *)

Lemma positive_nonneg a : positive a -> nonneg a.
Proof. destruct a; cbn; try done. lra. Qed.

Lemma fpow2_nonneg a : isnan a = false -> nonneg (fpow2 a).
Proof. destruct a as [| | |x]; cbn; try done. nra. Qed.

Lemma fpow2_positive x : x <> 0 -> positive (fpow2 (Fin x)).
Proof. cbn. nra. Qed.

Lemma fadd_nonneg a b : nonneg a -> nonneg b -> nonneg (fadd a b).
Proof. destruct a, b; cbn; try done. lra. Qed.

Lemma fadd_positive_l a b : positive a -> nonneg b -> positive (fadd a b).
Proof. destruct a, b; cbn; try done. lra. Qed.

Lemma fadd_positive_r a b : nonneg a -> positive b -> positive (fadd a b).
Proof. destruct a, b; cbn; try done. lra. Qed.

Lemma np_sum_nonneg l : Forall nonneg l -> nonneg (np_sum l).
Proof.
  induction 1 as [|a l Ha Hl IH]; cbn; [lra|]. apply fadd_nonneg; done.
Qed.

Lemma np_sum_positive l a :
  Forall nonneg l -> a ∈ l -> positive a -> positive (np_sum l).
Proof.
  induction 1 as [|b l Hb Hl IH]; intros Ha Hp.
  - apply elem_of_nil in Ha. done.
  - cbn. apply elem_of_cons in Ha as [<-|Ha].
    + apply fadd_positive_l; [done|]. apply np_sum_nonneg, Hl.
    + apply fadd_positive_r; [done|]. apply IH; done.
Qed.

Lemma nonan_squares_nonneg l : Forall nonneg (map fpow2 (nonan l)).
Proof.
  apply Forall_forall. intros y Hy. apply list_elem_of_fmap in Hy as (x & -> & Hx).
  apply list_elem_of_filter in Hx as [Hx _]. apply fpow2_nonneg, Hx.
Qed.

Lemma fdiv_positive_count a (n : nat) :
  positive a -> (0 < n)%nat -> positive (fdiv a (Fin (INR n))).
Proof.
  intros Ha Hn. apply lt_0_INR in Hn.
  destruct a as [| | |x]; cbn in *; try done.
  - rewrite bool_decide_eq_true_2 by lra. done.
  - rewrite decide_False by lra. cbn. apply Rdiv_lt_0_compat; lra.
Qed.

Lemma fsqrt_positive a : positive a -> positive (fsqrt a).
Proof.
  destruct a as [| | |x]; cbn; try done. intros Hx.
  rewrite decide_False by lra. cbn. apply sqrt_lt_R0, Hx.
Qed.

Lemma fmul_positive a b : positive a -> positive b -> positive (fmul a b).
Proof.
  destruct a as [| | |x], b as [| | |y]; cbn; try done; intros Ha Hb.
  - rewrite decide_False by lra. rewrite bool_decide_eq_true_2 by lra. done.
  - rewrite decide_False by lra. rewrite bool_decide_eq_true_2 by lra. done.
  - nra.
Qed.

Lemma fsqrt_2_positive : positive (fsqrt (Fin 2)).
Proof. apply fsqrt_positive. cbn. lra. Qed.

(** A negative value over a positive one is a finite value that is not
    positive. *)
Lemma fdiv_neg_positive p b :
  p < 0 -> positive b -> exists z, fdiv (Fin p) b = Fin z /\ z <= 0.
Proof.
  intros Hp Hb. destruct b as [| | |y]; cbn in *; try done.
  - exists 0. split; [done|lra].
  - rewrite decide_False by lra. eexists. split; [done|].
    apply Rlt_le. unfold Rdiv. apply Rmult_neg_pos; [lra|].
    apply Rinv_0_lt_compat, Hb.
Qed.

(** ** The finished table and the result of [fit] *)

Section Fit_facts.
Variable erf : R -> R.
Variable set_order : list Z -> list Z.
Variable np_empty : nat -> nat -> matrix.

(** The stages leave the configuration alone: the only attribute a stage
    writes is [cluster_labels_u]. *)
Lemma pipeline_frame self st self' :
  pipeline erf set_order np_empty self = Ok (st, self') ->
  exists u, self' = with_u self u.
Proof.
  unfold pipeline. intros H.
  apply bind_Ok in H as (st0 & s0 & H0 & H). apply store_Ok in H0 as [-> _].
  apply bind_Ok in H as (st3 & s3 & H3 & H). apply distances_Ok in H3 as [-> _].
  apply bind_Ok in H as (st4 & s4 & H4 & H). apply ssd_Ok in H4 as [-> _].
  apply bind_Ok in H as (st5 & s5 & H5 & H).
  apply standard_distances_Ok in H5 as [-> _].
  apply bind_Ok in H as (st6 & s6 & H6 & H).
  apply prob_set_distances_Ok in H6 as [-> _].
  apply bind_Ok in H as (st7 & s7 & H7 & H).
  apply prob_set_distances_ev_Ok in H7 as [-> _].
  apply bind_Ok in H as (st8 & s8 & H8 & H).
  apply prob_local_outlier_factors_Ok in H8 as [-> _].
  apply bind_Ok in H as (st9 & s9 & H9 & H).
  apply prob_local_outlier_factors_ev_Ok in H9 as [-> _].
  apply bind_Ok in H as (st10 & s10 & H10 & H).
  apply norm_prob_local_outlier_factors_Ok in H10 as [-> _].
  apply local_outlier_probabilities_Ok in H as [-> _].
  eauto.
Qed.

Lemma fit_Ok self v self' :
  fit erf set_order np_empty self = Ok (v, self') ->
  exists st self1,
    pipeline erf set_order np_empty self = Ok (st, self1) /\
    v = column 10 st /\ self' = with_scores self1 v.
Proof.
  rewrite fit_pipeline.
  destruct (pipeline _ _ _ _) as [[st self1]| |]; try discriminate.
  intros [= <- <-]. eauto.
Qed.

(** C10: a successful [fit] leaves [data], [extent], [n_neighbors] and
    [cluster_labels] as they were; it stores the vector it returns in
    [local_outlier_probabilities] and the unique cluster ids in
    [cluster_labels_u], and writes nothing else. *)
Theorem fit_frame self v self' :
  fit erf set_order np_empty self = Ok (v, self') ->
  self'.(data) = self.(data) /\
  self'.(extent) = self.(extent) /\
  self'.(n_neighbors) = self.(n_neighbors) /\
  self'.(cluster_labels) = self.(cluster_labels) /\
  self'.(local_outlier_probabilities) = Some v /\
  exists u, self' = with_scores (with_u self u) v.
Proof.
  intros H. apply fit_Ok in H as (st & self1 & Hp & -> & ->).
  apply pipeline_frame in Hp as [u ->]. cbn. eauto 10.
Qed.

(** The rows of the table after the distance stage. *)
Lemma distance_stage_rows self st3 self1 i c :
  is_set_order set_order ->
  distance_stage set_order np_empty self = Ok (st3, self1) ->
  labels_of self !! i = Some c ->
  exists points j row,
    np_take self.(data) (np_where Z.eqb (labels_of self) c) = Ok points /\
    np_where Z.eqb (labels_of self) c !! j = Some i /\
    st3 !! i = Some row /\
    member_row c (cluster_d points) self.(n_neighbors) j row.
Proof.
  intros Hso H Hi. unfold distance_stage in H.
  apply bind_Ok in H as (st0 & s0 & H0 & H). apply store_Ok in H0 as [-> ->].
  apply distances_Ok in H as [-> H]. cbn in H.
  apply distances_loop_spec in H as (_ & _ & Hin).
  apply (Hin i c Hi). apply Hso, labels_of_given.
  eapply list_elem_of_lookup_2, Hi.
Qed.

Lemma np_take_lookup {A} (a : list A) indices rows j i :
  np_take a indices = Ok rows -> indices !! j = Some i -> rows !! j = a !! i.
Proof.
  unfold np_take. destruct (mapM _ _) as [rows'|] eqn:H; [|discriminate].
  intros [= <-] Hj. apply mapM_Some in H.
  destruct (Forall2_lookup_l _ _ _ _ _ H Hj) as (row & Hrow & Hi). congruence.
Qed.

Lemma column_lookup k (st : matrix) i row :
  st !! i = Some row -> column k st !! i = Some (default NaN (row !! k)).
Proof. intros H. unfold column. rewrite list_lookup_fmap, H. done. Qed.

Lemma local_outlier_probability_range a b c :
  (forall x, -1 <= erf x <= 1) ->
  _local_outlier_probability erf a b = Ok c -> Forall probability_or_nan c.
Proof.
  intros Herf. unfold _local_outlier_probability. cbv zeta.
  assert (Hx : forall x, probability_or_nan (fmax0 (ferf erf x))).
  { unfold probability_or_nan.
    intros [| | |r]; cbn; [left; done|right..].
    - exists 0. rewrite Rmax_left by lra. split; [done|lra].
    - exists 1. rewrite Rmax_right by lra. split; [done|lra].
    - exists (Rmax 0 (erf r)). split; [done|]. specialize (Herf r).
      split; [apply Rmax_l|apply Rmax_lub; lra]. }
  destruct (zip_with _ _ _) as [|q arg]; [discriminate|].
  generalize (q :: arg). intros l [= <-].
  apply Forall_forall. intros y Hy.
  apply list_elem_of_fmap in Hy as (x & -> & _). apply Hx.
Qed.
End Fit_facts.

(** ** The final score *)

Section Score_facts.
Variable erf : R -> R.
Variable set_order : list Z -> list Z.
Variable np_empty : nat -> nat -> matrix.

Hypothesis np_empty_shape : is_np_empty np_empty.
Hypothesis erf_nonpos : forall x, x <= 0 -> erf x <= 0.

Lemma prob_local_outlier_factor_ev_dict_of st ids :
  dict_of (fun c =>
             let l := nonan (cluster_column 7 st c) in
             fdiv (np_sum (map fpow2 l)) (Fin (INR (length l))))
          (prob_local_outlier_factor_ev_dict st ids).
Proof.
  unfold prob_local_outlier_factor_ev_dict.
  apply dict_of_foldl; [constructor|]. intros c. reflexivity.
Qed.

(** The cluster mean of squared PLOF is positive on a row whose own PLOF
    is a finite value other than zero. *)
Lemma ev_plof_sq_positive st i p evsq :
  dict_column (prob_local_outlier_factor_ev_dict st (np_unique (column 0 st))) st
    = Ok (column 8 st) ->
  (i < length st)%nat ->
  column 7 st !! i = Some (Fin p) -> p <> 0 ->
  column 8 st !! i = Some evsq ->
  positive evsq.
Proof.
  intros Hd Hi H7 Hp H8.
  assert (exists cid, column 0 st !! i = Some cid) as [cid H0].
  { apply lookup_lt_is_Some. rewrite length_column. exact Hi. }
  destruct (dict_column_lookup _ _ _ _ _ Hd H0) as (v & Hv & Hg).
  assert (v = evsq) as -> by congruence.
  apply (dict_of_get _ _ _ _ (prob_local_outlier_factor_ev_dict_of _ _)) in Hg
    as [-> Hc].
  cbv zeta.
  assert (Hin : Fin p ∈ nonan (cluster_column 7 st cid)).
  { apply list_elem_of_filter. split; [done|].
    eapply elem_of_cluster_column; eauto. }
  apply fdiv_positive_count.
  - apply (np_sum_positive _ (fpow2 (Fin p))).
    + apply nonan_squares_nonneg.
    + apply list_elem_of_fmap. eauto.
    + apply fpow2_positive, Hp.
  - destruct (nonan _); [apply elem_of_nil in Hin; done|cbn; lia].
Qed.
End Score_facts.

(** ** Degenerate clusters *)

Lemma elem_of_sort_insert a l x : x ∈ sort_insert a l <-> x = a \/ x ∈ l.
Proof.
  induction l as [|b l IH]; cbn.
  - rewrite list_elem_of_singleton, elem_of_nil. tauto.
  - destruct (sort_leb a b).
    + rewrite !elem_of_cons. tauto.
    + rewrite !elem_of_cons, IH. tauto.
Qed.

Lemma elem_of_np_sort l x : x ∈ np_sort l <-> x ∈ l.
Proof.
  unfold np_sort. induction l as [|a l IH]; cbn; [done|].
  rewrite elem_of_sort_insert, IH, elem_of_cons. done.
Qed.

Lemma elem_of_drop_repeats l x : x ∈ drop_repeats l <-> x ∈ l.
Proof.
  induction l as [|a [|b l] IH]; [done..|].
  change (drop_repeats (a :: b :: l))
    with (if feqb a b then drop_repeats (b :: l) else a :: drop_repeats (b :: l)).
  destruct (feqb a b) eqn:Hab.
  - apply feqb_eq in Hab as ->. rewrite IH, !elem_of_cons. tauto.
  - rewrite (elem_of_cons _ x a), IH, !elem_of_cons. tauto.
Qed.

Lemma elem_of_np_unique l x : x ∈ np_unique l <-> x ∈ l.
Proof. unfold np_unique. rewrite elem_of_drop_repeats. apply elem_of_np_sort. Qed.

Lemma ssd_loop_Exit st ids dct c :
  c ∈ ids -> cluster_ssd st c = Fin 0 -> ssd_loop st ids dct = Exit.
Proof.
  intros Hc Hssd. revert dct. induction ids as [|c0 ids IH]; intros dct.
  - apply elem_of_nil in Hc. done.
  - cbn. fold (cluster_ssd st c0).
    destruct (feqb (cluster_ssd st c0) (Fin 0)) eqn:H0; [done|].
    apply elem_of_cons in Hc as [->|Hc].
    + rewrite Hssd in H0. cbn in H0. rewrite bool_decide_eq_true_2 in H0; done.
    + apply IH, Hc.
Qed.

Lemma np_sum_zeros l : Forall (fun x => x = Fin 0) l -> np_sum l = Fin 0.
Proof.
  induction 1 as [|a l -> Hl IH]; cbn; [done|].
  fold (np_sum l). rewrite IH. cbn. f_equal. lra.
Qed.

Lemma cluster_ssd_zeros st c :
  Forall (fun x => x = Fin 0) (cluster_column 1 st c) -> cluster_ssd st c = Fin 0.
Proof.
  intros H. unfold cluster_ssd. apply np_sum_zeros.
  apply Forall_fmap, Forall_forall. intros x Hx. cbn.
  apply list_elem_of_filter in Hx as [_ Hx].
  rewrite Forall_forall in H. rewrite (H x Hx). cbn. f_equal. lra.
Qed.

Section Degenerate.
Variable erf : R -> R.
Variable set_order : list Z -> list Z.
Variable np_empty : nat -> nat -> matrix.

Lemma fit_distance_stage self :
  fit erf set_order np_empty self =
  match distance_stage set_order np_empty self with
  | Ok (st3, self1) =>
      match _ssd st3 self1 with
      | Ok _ => fit erf set_order np_empty self
      | Exit => Exit
      | Raise => Raise
      end
  | Exit => Exit
  | Raise => Raise
  end.
Proof.
  unfold fit, distance_stage, mbind, M_bind, bind.
  destruct (_store np_empty self) as [[st0 s0]| |]; try reflexivity.
  destruct (_distances set_order st0 s0) as [[st3 s3]| |]; try reflexivity.
  destruct (_ssd st3 s3) as [[st4 s4]| |]; reflexivity.
Qed.

(** [_ssd] halts the run on a cluster whose squared context distances sum
    to zero. *)
Lemma zero_ssd_halts self st3 self1 c :
  distance_stage set_order np_empty self = Ok (st3, self1) ->
  c ∈ column 0 st3 -> cluster_ssd st3 c = Fin 0 ->
  fit erf set_order np_empty self = Exit.
Proof.
  intros Hd Hc Hssd. rewrite fit_distance_stage, Hd.
  assert (_ssd st3 self1 = Exit) as ->; [|done].
  unfold _ssd, mbind, M_bind, bind, get_self, put_self. cbn.
  rewrite (ssd_loop_Exit _ _ _ c); [done| |exact Hssd].
  apply elem_of_np_unique, Hc.
Qed.

Lemma np_take_length {A} (a : list A) indices rows :
  np_take a indices = Ok rows -> length rows = length indices.
Proof.
  unfold np_take. destruct (mapM _ _) as [rows'|] eqn:H; [|discriminate].
  intros [= <-]. symmetry. eapply length_mapM, H.
Qed.

Hypothesis set_order_ok : is_set_order set_order.
Hypothesis np_empty_ok : is_np_empty np_empty.

(** The rows a cluster has in the table are the rows of its members: if
    every member has context distance zero, the cluster's part of column 1
    is zero throughout. *)
Lemma zero_distances_zero_column self st3 self1 c points :
  length (labels_of self) = length self.(data) ->
  distinct_ids (labels_of self) -> c ∈ labels_of self ->
  distance_stage set_order np_empty self = Ok (st3, self1) ->
  np_take self.(data) (np_where Z.eqb (labels_of self) c) = Ok points ->
  (forall vec, (vec < length points)%nat ->
               neighborhood_dist points vec self.(n_neighbors) = Fin 0) ->
  Forall (fun x => x = Fin 0) (cluster_column 1 st3 (fl_of_Z c)).
Proof.
  intros Hlen Hids Hc Hd Hpts Hzero. apply Forall_forall. intros x Hx.
  apply list_elem_of_omap in Hx as (j & Hj & Hx).
  apply elem_of_np_where in Hj as (y & Hy & Heq). apply feqb_eq in Heq as ->.
  pose proof (distance_stage_Ok _ _ np_empty_ok _ _ _ Hd) as [_ [Hn _]].
  assert (Hjn : (j < length (labels_of self))%nat).
  { apply lookup_lt_Some in Hy. rewrite length_column in Hy. lia. }
  apply lookup_lt_is_Some_2 in Hjn as [c' Hc'].
  destruct (distance_stage_rows _ _ _ _ _ _ _ set_order_ok Hd Hc')
    as (points' & pos & row & Hpts' & Hpos & Hrow & closest & _ & ->).
  rewrite (column_lookup 0 _ _ _ Hrow) in Hy.
  rewrite (column_lookup 1 _ _ _ Hrow) in Hx. cbn in Hy, Hx.
  apply (inj Some) in Hy.
  apply Hids in Hy as ->; [|eapply list_elem_of_lookup_2, Hc'|exact Hc].
  assert (points' = points) as -> by congruence.
  injection Hx as <-. apply Hzero.
  rewrite (np_take_length _ _ _ Hpts). eapply lookup_lt_Some, Hpos.
Qed.

End Degenerate.

(** ** The first member of a cluster *)

Lemma np_mean_zeros l :
  l <> [] -> Forall (fun x => x = Fin 0) l -> np_mean l = Fin 0.
Proof.
  intros Hl Hz. unfold np_mean. rewrite (np_sum_zeros _ Hz).
  assert (0 < INR (length l)).
  { apply lt_0_INR. destruct l; [done|cbn; lia]. }
  cbn. rewrite decide_False by lra. f_equal. lra.
Qed.

Lemma first_member_row w (pi p0 : list fl) :
  length pi = S w -> length p0 = S w ->
  np_mean (map (fun x => fsqrt (fpow2 x))
             (imap (fun f x => if decide (Z.of_nat f <= Z.of_nat 0 + -1)%Z
                               then x else Fin 0)
                   (zip_with fsub pi p0)))
  = Fin 0.
Proof.
  intros Hpi Hp0. apply np_mean_zeros.
  - destruct pi, p0; done.
  - apply Forall_fmap, Forall_forall. intros x Hx.
    apply list_elem_of_lookup in Hx as [f Hf].
    rewrite list_lookup_imap in Hf.
    destruct (zip_with fsub pi p0 !! f) as [y|]; [|done].
    cbn in Hf. rewrite decide_False in Hf by lia. injection Hf as <-.
    change (fsqrt (fpow2 (Fin 0)) = Fin 0).
    rewrite fsqrt_fpow2. cbn. rewrite Rabs_R0. done.
Qed.

(** Line 126 leaves no feature in the differences to member 0, so every
    distance line 128 computes for the first member of a cluster is zero. *)
Lemma first_member_distances (points : matrix) w k :
  Forall (fun p => length p = S w) points ->
  Forall (fun x => x = Fin 0) (neighborhood_distances (cluster_d points) 0 k).
Proof.
  intros Hw. unfold neighborhood_distances, py_slice.
  apply Forall_drop, Forall_take, Forall_forall. intros x Hx.
  apply elem_of_np_sort, list_elem_of_fmap in Hx as (row & -> & Hrow).
  unfold plane_column, cluster_d, np_tril, pairwise_diff in Hrow.
  rewrite <- !list_fmap_compose in Hrow.
  apply list_elem_of_fmap in Hrow as (pi & -> & Hpi). cbn.
  rewrite list_lookup_imap, list_lookup_fmap.
  destruct points as [|p0 points']; [apply elem_of_nil in Hpi; done|].
  cbn. rewrite Forall_forall in Hw.
  apply (first_member_row w); apply Hw; [exact Hpi|left].
Qed.

Lemma first_member_context_distance (points : matrix) w k closest :
  Forall (fun p => length p = S w) points ->
  closest_neighbor_distance points 0 k = [closest] ->
  neighborhood_dist points 0 k = Fin 0.
Proof.
  intros Hw Hc. unfold neighborhood_dist. apply np_mean_zeros.
  - unfold closest_neighbor_distance in Hc. intros Hnil. rewrite Hnil in Hc.
    discriminate.
  - eapply first_member_distances, Hw.
Qed.

(** ** Tables with a single cluster id *)

Lemma filter_Forall {A} (P : A -> Prop) `{!forall x, Decision (P x)} (l : list A) :
  Forall P l -> filter P l = l.
Proof.
  induction 1 as [|x l Hx Hl IH]; [done|].
  rewrite filter_cons_True by done. f_equal. exact IH.
Qed.

Lemma np_where_replicate {A} (eqb : A -> A -> bool) n x :
  eqb x x = true -> np_where eqb (replicate n x) x = seq 0 n.
Proof.
  intros Hx. unfold np_where. rewrite length_replicate.
  apply filter_Forall, Forall_forall. intros i Hi. apply elem_of_seq in Hi.
  rewrite lookup_replicate_2 by lia. exact Hx.
Qed.

Lemma omap_lookup_seq {A} (pre l : list A) :
  omap (fun i => (pre ++ l) !! i) (seq (length pre) (length l)) = l.
Proof.
  revert pre. induction l as [|a l IH]; intros pre; [done|].
  cbn. rewrite list_lookup_middle by done. f_equal.
  specialize (IH (pre ++ [a])). rewrite <- app_assoc, length_app in IH. cbn in IH.
  rewrite Nat.add_1_r in IH. exact IH.
Qed.

Lemma omap_lookup_all {A} (l : list A) :
  omap (fun i => l !! i) (seq 0 (length l)) = l.
Proof. apply (omap_lookup_seq []). Qed.

Lemma cluster_column_uniform k st x :
  feqb x x = true -> column 0 st = replicate (length st) x ->
  cluster_column k st x = column k st.
Proof.
  intros Hx H0. unfold cluster_column. rewrite H0, np_where_replicate by done.
  rewrite <- (length_column k st). apply omap_lookup_all.
Qed.

Lemma sort_leb_refl x : feqb x x = true -> sort_leb x x = true.
Proof.
  destruct x as [| | |r]; try done. intros H. cbn. unfold fleb.
  rewrite H. apply orb_true_r.
Qed.

Lemma np_sort_replicate n x :
  feqb x x = true -> np_sort (replicate n x) = replicate n x.
Proof.
  intros Hx. unfold np_sort. induction n as [|n IH]; [done|].
  cbn. rewrite IH. destruct n; [done|]. cbn. rewrite sort_leb_refl; done.
Qed.

Lemma drop_repeats_replicate n x :
  feqb x x = true -> drop_repeats (replicate (S n) x) = [x].
Proof.
  intros Hx. induction n as [|n IH]; [done|].
  change (drop_repeats (replicate (S (S n)) x))
    with (if feqb x x then drop_repeats (replicate (S n) x)
          else x :: drop_repeats (replicate (S n) x)).
  rewrite Hx. exact IH.
Qed.

Lemma np_unique_replicate n x :
  feqb x x = true ->
  np_unique (replicate n x) = match n with O => [] | S _ => [x] end.
Proof.
  intros Hx. unfold np_unique. rewrite np_sort_replicate by done.
  destruct n; [done|]. apply drop_repeats_replicate, Hx.
Qed.

Lemma mapM_replicate {A B} (f : A -> option B) n x y :
  f x = Some y -> mapM f (replicate n x) = Some (replicate n y).
Proof.
  intros H. apply mapM_Some. induction n; cbn; constructor; done.
Qed.

Lemma dict_column_uniform st x v :
  feqb x x = true -> column 0 st = replicate (length st) x ->
  dict_column (match length st with O => [] | S _ => [(x, v)] end) st
    = Ok (replicate (length st) v).
Proof.
  intros Hx H0. unfold dict_column. rewrite H0.
  destruct (length st) as [|n]; [done|].
  erewrite mapM_replicate; [done|]. cbn. rewrite Hx. done.
Qed.

(** ** One cluster: the stages in closed form *)

Section Single_cluster.
Variable erf : R -> R.

Lemma ssd_uniform self st x n w :
  feqb x x = true -> shape n w st -> column 0 st = replicate n x ->
  let ssd := np_sum (map fpow2 (nonan (column 1 st))) in
  _ssd st self =
    if negb (n =? 0)%nat && feqb ssd (Fin 0) then Exit
    else Ok (hstack st (replicate n ssd), with_u self (one_cluster_ids n x)).
Proof.
  intros Hx [Hn Hw] H0 ssd. unfold _ssd, mbind, M_bind, bind, get_self, put_self.
  cbn. rewrite H0, np_unique_replicate by done. subst n.
  destruct (length st) as [|n] eqn:Hlen.
  - apply length_zero_iff_nil in Hlen as ->. reflexivity.
  - cbn. rewrite cluster_column_uniform by (rewrite ?Hlen; done).
    fold ssd. destruct (feqb ssd (Fin 0)); [done|]. cbn.
    pose proof (dict_column_uniform st x ssd Hx) as Hd.
    rewrite Hlen in Hd. rewrite Hd by done. reflexivity.
Qed.

Lemma prob_set_distances_ev_uniform self st x n w :
  feqb x x = true -> shape n w st -> column 0 st = replicate n x ->
  self.(cluster_labels_u) = Some (one_cluster_ids n x) ->
  _prob_set_distances_ev st self =
    Ok (hstack st (replicate n (np_mean (nonan (column 5 st)))), self).
Proof.
  intros Hx [Hn Hw] H0 Hu.
  unfold _prob_set_distances_ev, mbind, M_bind, bind, get_self.
  rewrite Hu. subst n. destruct (length st) as [|n] eqn:Hlen.
  - apply length_zero_iff_nil in Hlen as ->. reflexivity.
  - cbn. rewrite cluster_column_uniform by (rewrite ?Hlen; done).
    pose proof (dict_column_uniform st x (np_mean (nonan (column 5 st))) Hx) as Hd.
    rewrite Hlen in Hd. rewrite Hd by done. reflexivity.
Qed.

Lemma prob_local_outlier_factors_ev_uniform self st x n w :
  feqb x x = true -> shape n w st -> column 0 st = replicate n x ->
  self.(cluster_labels_u) = Some (one_cluster_ids n x) ->
  let l := nonan (column 7 st) in
  _prob_local_outlier_factors_ev st self =
    Ok (hstack st (replicate n (fdiv (np_sum (map fpow2 l)) (Fin (INR (length l))))),
        self).
Proof.
  intros Hx [Hn Hw] H0 Hu l.
  unfold _prob_local_outlier_factors_ev, mbind, M_bind, bind, get_self.
  rewrite Hu. subst n. destruct (length st) as [|n] eqn:Hlen.
  - apply length_zero_iff_nil in Hlen as ->. reflexivity.
  - cbn. rewrite cluster_column_uniform by (rewrite ?Hlen; done).
    fold l.
    pose proof (dict_column_uniform st x
                  (fdiv (np_sum (map fpow2 l)) (Fin (INR (length l)))) Hx) as Hd.
    rewrite Hlen in Hd. rewrite Hd by done. reflexivity.
Qed.

Lemma statistics_stages_uniform self st3 x n :
  feqb x x = true -> shape n 3 st3 -> column 0 st3 = replicate n x ->
  scores_of (statistics_stages erf st3 self)
  = single_cluster_scores erf self.(extent) (column 1 st3).
Proof.
  intros Hx S3 U3. unfold statistics_stages, single_cluster_scores.
  unfold mbind at 1. unfold M_bind, bind.
  rewrite (ssd_uniform self st3 x n 3 Hx S3 U3). cbv zeta.
  rewrite length_column. destruct S3 as [Hn3 Hw3].
  rewrite Hn3. destruct (negb (n =? 0)%nat && feqb _ (Fin 0)); [done|].
  assert (S3 : shape n 3 st3) by done.
  set (cd := column 1 st3).
  set (c3 := replicate n (np_sum (map fpow2 (nonan cd)))).
  assert (L3 : length c3 = n) by apply length_replicate.
  pose proof (shape_hstack _ _ _ _ S3 L3) as S4.
  pose proof (prefix_hstack _ _ _ _ S3 L3) as P3.
  pose proof (column_hstack_new _ _ _ _ S3 L3) as N3.
  set (st4 := hstack st3 c3) in *.
  set (s := with_u self (one_cluster_ids n x)).
  assert (Hu : cluster_labels_u s = Some (one_cluster_ids n x)) by done.
  assert (He : extent s = extent self) by done.
  clearbody s.
  unfold mbind at 1. unfold M_bind, bind.
  unfold _standard_distances at 1. cbn [mret M_ret ret].
  rewrite (P3 1%nat), N3 by lia. fold cd.
  set (c4 := _standard_distance cd c3).
  assert (L4 : length c4 = n).
  { unfold c4. rewrite length_standard_distance; unfold cd;
      rewrite ?length_column; lia. }
  pose proof (shape_hstack _ _ _ _ S4 L4) as S5.
  pose proof (prefix_hstack _ _ _ _ S4 L4) as P4.
  pose proof (column_hstack_new _ _ _ _ S4 L4) as N4.
  set (st5 := hstack st4 c4) in *.
  unfold mbind at 1. unfold M_bind, bind.
  unfold _prob_set_distances at 1. unfold mbind at 1.
  unfold M_bind, bind, get_self. cbn [mret M_ret ret].
  rewrite N4, He.
  set (c5 := _prob_set_distance (extent self) c4).
  assert (L5 : length c5 = n).
  { unfold c5, _prob_set_distance. rewrite length_map. exact L4. }
  pose proof (shape_hstack _ _ _ _ S5 L5) as S6.
  pose proof (prefix_hstack _ _ _ _ S5 L5) as P5.
  pose proof (column_hstack_new _ _ _ _ S5 L5) as N5.
  set (st6 := hstack st5 c5) in *.
  assert (U6 : column 0 st6 = replicate n x).
  { rewrite (P5 0%nat), (P4 0%nat), (P3 0%nat) by lia. exact U3. }
  unfold mbind at 1. unfold M_bind, bind.
  rewrite (prob_set_distances_ev_uniform s st6 x n 6 Hx S6 U6 Hu).
  rewrite N5.
  set (c6 := replicate n (np_mean (nonan c5))).
  assert (L6 : length c6 = n) by apply length_replicate.
  pose proof (shape_hstack _ _ _ _ S6 L6) as S7.
  pose proof (prefix_hstack _ _ _ _ S6 L6) as P6.
  pose proof (column_hstack_new _ _ _ _ S6 L6) as N6.
  set (st7 := hstack st6 c6) in *.
  unfold mbind at 1. unfold M_bind, bind.
  unfold _prob_local_outlier_factors at 1. cbn [mret M_ret ret].
  rewrite (P6 5%nat), N5, N6 by lia.
  set (c7 := _prob_outlier_factor c5 c6).
  assert (L7 : length c7 = n).
  { unfold c7. rewrite length_prob_outlier_factor; lia. }
  pose proof (shape_hstack _ _ _ _ S7 L7) as S8.
  pose proof (prefix_hstack _ _ _ _ S7 L7) as P7.
  pose proof (column_hstack_new _ _ _ _ S7 L7) as N7.
  set (st8 := hstack st7 c7) in *.
  assert (U8 : column 0 st8 = replicate n x).
  { rewrite (P7 0%nat), (P6 0%nat) by lia. exact U6. }
  unfold mbind at 1. unfold M_bind, bind.
  rewrite (prob_local_outlier_factors_ev_uniform s st8 x n 8 Hx S8 U8 Hu).
  cbv zeta. rewrite N7.
  set (c8 := replicate n _).
  assert (L8 : length c8 = n) by apply length_replicate.
  pose proof (shape_hstack _ _ _ _ S8 L8) as S9.
  pose proof (prefix_hstack _ _ _ _ S8 L8) as P8.
  pose proof (column_hstack_new _ _ _ _ S8 L8) as N8.
  set (st9 := hstack st8 c8) in *.
  unfold mbind at 1. unfold M_bind, bind.
  unfold _norm_prob_local_outlier_factors at 1. unfold mbind at 1.
  unfold M_bind, bind, get_self. cbn [mret M_ret ret].
  rewrite N8, He.
  set (c9 := _norm_prob_outlier_factor (extent self) c8).
  assert (L9 : length c9 = n).
  { unfold c9, _norm_prob_outlier_factor. rewrite length_map. exact L8. }
  pose proof (shape_hstack _ _ _ _ S9 L9) as S10.
  pose proof (prefix_hstack _ _ _ _ S9 L9) as P9.
  pose proof (column_hstack_new _ _ _ _ S9 L9) as N9.
  set (st10 := hstack st9 c9) in *.
  unfold _local_outlier_probabilities, mbind, M_bind, bind.
  rewrite N9, (P9 7%nat), (P8 7%nat), N7 by lia.
  destruct (_local_outlier_probability erf c7 c9) as [c10| |] eqn:H10; cbn;
    [|done..].
  f_equal. apply (column_hstack_new n 10); [exact S10|].
  apply local_outlier_probability_length in H10; lia.
Qed.

Lemma mapM_lookup_seq {A} (pre l : list A) :
  mapM (fun i => (pre ++ l) !! i) (seq (length pre) (length l)) = Some l.
Proof.
  revert pre. induction l as [|a l IH]; intros pre; [done|].
  cbn. rewrite list_lookup_middle by done. cbn.
  specialize (IH (pre ++ [a])). rewrite <- app_assoc, length_app in IH. cbn in IH.
  rewrite Nat.add_1_r in IH. rewrite IH. done.
Qed.

Lemma np_take_all {A} (a : list A) : np_take a (seq 0 (length a)) = Ok a.
Proof.
  unfold np_take. pose proof (mapM_lookup_seq [] a) as H. cbn in H.
  rewrite H. done.
Qed.

Lemma fill_rows_all c d k pre post :
  fill_rows c d k (seq (length pre) (length post)) (length pre) (pre ++ post)
  = match mapM (single_cluster_row c d k) (seq (length pre) (length post)) with
    | Some rows => Ok (pre ++ rows)
    | None => Raise
    end.
Proof.
  revert pre. induction post as [|r post IH]; intros pre.
  - cbn. rewrite app_nil_r. done.
  - cbn [length seq fill_rows mapM]. cbv zeta.
    destruct (single_cluster_row c d k (length pre)) as [row|] eqn:Hrow;
      unfold single_cluster_row in Hrow; cbv zeta in Hrow;
      destruct (py_slice 1 2 _) as [|closest [|]]; try done.
    injection Hrow as <-.
    rewrite decide_True by (rewrite length_app; cbn; lia).
    rewrite insert_app_r_alt, Nat.sub_diag by lia. cbn [insert list_insert].
    set (row := [fl_of_Z c; _; closest]).
    specialize (IH (pre ++ [row])).
    rewrite <- app_assoc, length_app in IH. cbn in IH.
    rewrite Nat.add_1_r in IH. rewrite IH.
    destruct (mapM _ _) as [rows|]; [|done]. cbn. rewrite <- app_assoc. done.
Qed.

Lemma set_order_replicate set_order n (c : Z) :
  is_set_order set_order ->
  set_order (replicate n c) = match n with O => [] | S _ => [c] end.
Proof.
  intros Hso. destruct (Hso (replicate n c)) as [Hnd Hin].
  assert (Hall : forall x, x ∈ set_order (replicate n c) -> x = c).
  { intros x Hx. apply Hin, elem_of_replicate in Hx as [-> _]. done. }
  destruct n as [|n].
  - destruct (set_order _) as [|a l]; [done|].
    assert (a ∈ (replicate 0 c : list Z)) as Ha by (apply Hin; left).
    apply elem_of_nil in Ha. done.
  - assert (Hc : c ∈ set_order (replicate (S n) c)) by (apply Hin; left).
    destruct (set_order _) as [|a [|b l]].
    + apply elem_of_nil in Hc. done.
    + rewrite (Hall a) by left. done.
    + exfalso. apply NoDup_cons in Hnd as [Hnd _]. apply Hnd.
      rewrite (Hall a) by left. rewrite <- (Hall b) by (right; left). left.
Qed.

Lemma single_cluster_row_context c d k vec :
  (single_cluster_row 0 d k vec ≫= fun row => row !! 1%nat)
  = (fun row => default NaN (row !! 1%nat)) <$> single_cluster_row c d k vec.
Proof.
  unfold single_cluster_row. cbv zeta.
  destruct (py_slice 1 2 (neighborhood_distances d vec k)) as [|? [|]]; done.
Qed.

Lemma single_cluster_context_rows c d k idx :
  mapM (fun vec => row ← single_cluster_row 0 d k vec; row !! 1%nat) idx
  = column 1 <$> mapM (single_cluster_row c d k) idx.
Proof.
  induction idx as [|vec idx IH]; [done|].
  cbn [mapM]. rewrite IH, (single_cluster_row_context c).
  destruct (single_cluster_row c d k vec); [|done]. cbn.
  destruct (mapM (single_cluster_row c d k) idx); done.
Qed.

Lemma distance_stage_single set_order np_empty self c :
  is_set_order set_order -> is_np_empty np_empty ->
  label_vector_of self = LabelArray (replicate (length self.(data)) c) ->
  distance_stage set_order np_empty self
  = match self.(data) with
    | [] => Ok ([], self)
    | _ =>
        match mapM (single_cluster_row c (cluster_d self.(data)) self.(n_neighbors))
                   (seq 0 (length self.(data))) with
        | Some rows =>
            if existsb truthy (column 1 rows) then Ok (rows, self) else Exit
        | None => Raise
        end
    end.
Proof.
  intros Hso Hne Hl.
  unfold distance_stage, _store, _n_observations, _distances.
  unfold mbind, M_bind, bind, get_self. cbn.
  assert (_cluster_labels self = Ok (label_vector_of self, self)) as ->.
  { unfold _cluster_labels, label_vector_of, mbind, M_bind, bind, get_self.
    destruct (cluster_labels self); done. }
  rewrite Hl. cbn [label_values]. rewrite (set_order_replicate _ _ _ Hso).
  destruct (Hne (length (data self)) 3%nat) as [Hn Hw].
  set (st0 := np_empty (length (data self)) 3%nat) in *.
  set (dat := data self) in *.
  assert (Hcase : dat = [] \/ exists n, length dat = S n).
  { destruct dat as [|p dat']; [left; done|right; cbn; eauto]. }
  destruct Hcase as [Hnil|[n Hlen]].
  - rewrite Hnil in *. cbn in *. apply length_zero_iff_nil in Hn as ->. done.
  - assert (match dat with
            | [] => Ok ([], self)
            | _ :: _ =>
                match mapM (single_cluster_row c (cluster_d dat) (n_neighbors self))
                           (seq 0 (length dat)) with
                | Some rows =>
                    if existsb truthy (column 1 rows) then Ok (rows, self) else Exit
                | None => Raise
                end
            end
            = match mapM (single_cluster_row c (cluster_d dat) (n_neighbors self))
                         (seq 0 (length dat)) with
              | Some rows =>
                  if existsb truthy (column 1 rows) then Ok (rows, self) else Exit
              | None => Raise
              end) as ->.
    { destruct dat; [discriminate|done]. }
    assert (match length dat with O => [] | S _ => [c] end = [c]) as ->
      by (rewrite Hlen; done).
    cbn [distances_loop lift label_where].
    rewrite np_where_replicate by apply Z.eqb_refl.
    rewrite np_take_all. fold (cluster_d dat).
    pose proof (fill_rows_all c (cluster_d dat) (n_neighbors self) [] st0) as Hf.
    rewrite Hn in Hf. cbn [length app] in Hf. rewrite Hf.
    destruct (mapM _ _) as [rows|]; [|done].
    destruct (existsb truthy (column 1 rows)); done.
Qed.

Lemma pipeline_split set_order np_empty self :
  pipeline erf set_order np_empty self
  = match distance_stage set_order np_empty self with
    | Ok (st3, self1) => statistics_stages erf st3 self1
    | Exit => Exit
    | Raise => Raise
    end.
Proof.
  unfold pipeline, distance_stage, statistics_stages, mbind, M_bind, bind.
  destruct (_store np_empty self) as [[st0 s0]| |]; reflexivity.
Qed.

Lemma loop_scores_of set_order np_empty data extent n_neighbors labels :
  loop erf set_order np_empty data extent n_neighbors labels
  = match __init__ data extent n_neighbors labels with
    | Ok self => scores_of (pipeline erf set_order np_empty self)
    | Exit => Exit
    | Raise => Raise
    end.
Proof.
  unfold loop. destruct (__init__ _ _ _ _) as [self| |]; try reflexivity.
  rewrite fit_pipeline. destruct (pipeline _ _ _ _) as [[st s]| |]; reflexivity.
Qed.

(** A call without labels, or with labels that put every observation in
    one cluster [c], is the closed form [single_cluster_loop]. *)
Lemma loop_single_cluster set_order np_empty dat ext k labels c :
  is_set_order set_order -> is_np_empty np_empty ->
  labels = None \/ labels = Some (LabelArray (replicate (length dat) c)) ->
  loop erf set_order np_empty dat ext k labels
  = single_cluster_loop erf dat ext k.
Proof.
  intros Hso Hne Hl. rewrite loop_scores_of. unfold single_cluster_loop.
  assert (Hinit : forall l,
    __init__ dat ext k l = Exit \/
    __init__ dat ext k l
      = Ok (mkLoOP dat ext k l None None)).
  { intros l. unfold __init__.
    destruct (negb _); [left; done|]. destruct (negb _); [left|right]; done. }
  assert (Hsame : __init__ dat ext k labels = Exit
                  <-> __init__ dat ext k None = Exit).
  { unfold __init__. destruct (negb _); [done|]. destruct (negb _); done. }
  destruct (Hinit labels) as [H1|H1], (Hinit None) as [H2|H2];
    rewrite H1, H2; try done.
  { apply Hsame in H1. congruence. }
  { apply Hsame in H2. congruence. }
  set (self := mkLoOP dat ext k labels None None).
  assert (exists c', label_vector_of self
                     = LabelArray (replicate (length self.(data)) c'))
    as [c' Hlabels].
  { destruct Hl as [->| ->]; [exists 0%Z|exists c]; done. }
  rewrite pipeline_split, (distance_stage_single _ _ _ c' Hso Hne Hlabels).
  cbn [data n_neighbors self].
  destruct (decide (dat = [])) as [->|Hdat].
  - rewrite (statistics_stages_uniform self [] (Fin 0) 0); try done.
    cbn. rewrite bool_decide_eq_true_2; done.
  - assert (Hm : forall A (a b : A), match dat with [] => a | _ :: _ => b end = b).
    { intros. destruct dat; done. }
    rewrite !Hm. unfold single_cluster_context.
    rewrite (single_cluster_context_rows c').
    destruct (mapM _ _) as [rows|] eqn:Hrows; [|done].
    cbn [fmap option_fmap option_map].
    destruct (existsb truthy (column 1 rows)); [|done].
    apply mapM_Some in Hrows.
    pose proof (Forall2_length _ _ _ Hrows) as Hlen. rewrite length_seq in Hlen.
    apply (statistics_stages_uniform self rows (fl_of_Z c') (length dat)).
    + cbn. apply bool_decide_eq_true_2. done.
    + split; [congruence|].
      eapply Forall2_Forall_r; [exact Hrows|].
      apply Forall_forall. intros vec _ row. unfold single_cluster_row. cbv zeta.
      destruct (py_slice 1 2 _) as [|? [|]]; try done. intros [= <-]. done.
    + apply list_eq. intros i.
      unfold column. rewrite list_lookup_fmap.
      destruct (decide (i < length dat)%nat) as [Hi|Hi].
      * rewrite lookup_replicate_2 by done.
        destruct (Forall2_lookup_l _ _ _ i i Hrows) as (row & -> & Hrow).
        { apply lookup_seq. done. }
        unfold single_cluster_row in Hrow. cbv zeta in Hrow.
        destruct (py_slice 1 2 _) as [|? [|]]; try done.
        injection Hrow as <-. done.
      * rewrite (lookup_ge_None_2 rows) by lia.
        cbn. symmetry. apply lookup_replicate_None. lia.
Qed.
End Single_cluster.

(** ** The stand-in runtime *)

Lemma erf_model_range x : -1 <= erf_model x <= 1.
Proof.
  unfold erf_model. assert (H : 0 < 1 + Rabs x) by (pose proof (Rabs_pos x); lra).
  split.
  - apply Rmult_le_reg_r with (1 + Rabs x); [exact H|].
    unfold Rdiv. rewrite Rmult_assoc, Rinv_l by lra.
    pose proof (Rle_abs (- x)). rewrite Rabs_Ropp in *. lra.
  - apply Rmult_le_reg_r with (1 + Rabs x); [exact H|].
    unfold Rdiv. rewrite Rmult_assoc, Rinv_l by lra.
    pose proof (Rle_abs x). lra.
Qed.

Lemma erf_model_nonpos x : x <= 0 -> erf_model x <= 0.
Proof.
  intros Hx. unfold erf_model.
  assert (H : 0 < 1 + Rabs x) by (pose proof (Rabs_pos x); lra).
  apply Rmult_le_reg_r with (1 + Rabs x); [exact H|].
  unfold Rdiv. rewrite Rmult_assoc, Rinv_l by lra. lra.
Qed.

Lemma erf_model_pos x : 0 < x -> 0 < erf_model x.
Proof.
  intros Hx. unfold erf_model. apply Rdiv_lt_0_compat; [exact Hx|].
  pose proof (Rabs_pos x). lra.
Qed.

Lemma set_order_model_ok : is_set_order set_order_model.
Proof.
  intros l. unfold set_order_model. split; [apply NoDup_remove_dups|].
  intros x. apply elem_of_remove_dups.
Qed.

Lemma np_zeros_ok : is_np_empty np_zeros.
Proof.
  intros n w. unfold np_zeros. split; [apply length_replicate|].
  apply Forall_forall. intros row Hrow.
  apply elem_of_replicate in Hrow as [-> _]. apply length_replicate.
Qed.

(** ** Three members in one cluster *)

Lemma fdiv_Fin x y : y <> 0 -> fdiv (Fin x) (Fin y) = Fin (x / y).
Proof. intros H. cbn. rewrite decide_False by done. done. Qed.

Lemma fsqrt_Fin x : 0 <= x -> fsqrt (Fin x) = Fin (sqrt x).
Proof. intros H. cbn. rewrite decide_False by lra. done. Qed.

Lemma fdiv_Fin_zero x : 0 < x -> fdiv (Fin x) (Fin 0) = PInf.
Proof.
  intros H. cbn. rewrite decide_True by done. rewrite decide_False by lra.
  rewrite bool_decide_eq_true_2 by done. done.
Qed.

Lemma fmul_Fin_PInf x : 0 < x -> fmul (Fin x) PInf = PInf.
Proof.
  intros H. cbn. rewrite decide_False by lra.
  rewrite bool_decide_eq_true_2 by done. done.
Qed.

Section Three_members.
Variable erf : R -> R.
Hypothesis erf_nonpos : forall x, x <= 0 -> erf x <= 0.
Hypothesis erf_pos : forall x, 0 < x -> 0 < erf x.

(** The scores of a cluster with context distances [0 < c1 <= c2] behind
    the leading zero: the first member scores 0 and the last one more. *)
Lemma three_member_scores e c1 c2 :
  0 < e -> 0 < c1 -> c1 <= c2 ->
  exists s1 s2,
    single_cluster_scores erf (Fin e) [Fin 0; Fin c1; Fin c2]
      = Ok [Fin 0; Fin s1; Fin s2] /\ 0 < s2.
Proof.
  intros He Hc1 Hc2. unfold single_cluster_scores. cbv zeta.
  assert (Hnonan : forall a b c, nonan [Fin a; Fin b; Fin c] = [Fin a; Fin b; Fin c])
    by reflexivity.
  rewrite Hnonan.
  cbn [length Nat.eqb negb andb map np_sum foldr fpow2 fmul fadd replicate].
  set (S := 0 * 0 + (c1 * c1 + (c2 * c2 + 0))).
  assert (HS : 0 < S) by (unfold S; nra).
  cbn [feqb]. rewrite bool_decide_eq_false_2 by lra.
  (* standard distances *)
  unfold _standard_distance.
  cbn [map zip_with fabs].
  rewrite Rabs_R0, (Rabs_pos_eq c1), (Rabs_pos_eq c2) by lra.
  rewrite fdiv_Fin_zero, !fdiv_Fin by lra.
  set (a1 := S / c1). set (a2 := S / c2).
  assert (Ha2 : 0 < a2) by (apply Rdiv_lt_0_compat; lra).
  assert (Ha12 : a2 <= a1).
  { unfold a1, a2, Rdiv. apply Rmult_le_compat_l; [lra|].
    apply Rinv_le_contravar; lra. }
  rewrite !fsqrt_Fin by lra. cbn [fsqrt].
  set (r1 := sqrt a1). set (r2 := sqrt a2).
  assert (Hr2 : 0 < r2) by (apply sqrt_lt_R0; lra).
  assert (Hr12 : r2 <= r1) by (apply sqrt_le_1; lra).
  (* probabilistic set distances *)
  unfold _prob_set_distance. cbn [map].
  rewrite fmul_Fin_PInf by done. cbn [fmul fdiv].
  set (m1 := e * r1). set (m2 := e * r2).
  assert (Hm2 : 0 < m2) by (apply Rmult_lt_0_compat; lra).
  assert (Hm12 : m2 <= m1) by (apply Rmult_le_compat_l; lra).
  rewrite !decide_False by lra.
  set (p1 := 1 / m1). set (p2 := 1 / m2).
  assert (Hp1 : 0 < p1) by (apply Rdiv_lt_0_compat; lra).
  assert (Hp12 : p1 <= p2).
  { unfold p1, p2, Rdiv. apply Rmult_le_compat_l; [lra|].
    apply Rinv_le_contravar; lra. }
  (* their mean *)
  rewrite Hnonan.
  set (ev := (0 + (p1 + (p2 + 0))) / (1 + 1 + 1)).
  assert (Hmean : np_mean [Fin 0; Fin p1; Fin p2] = Fin ev).
  { unfold np_mean. cbn [np_sum foldr fadd length INR].
    rewrite fdiv_Fin by lra. done. }
  rewrite !Hmean.
  assert (Hev : 0 < ev) by (unfold ev; lra).
  assert (Hevp : ev < p2) by (unfold ev; lra).
  (* PLOF *)
  unfold _prob_outlier_factor. cbn [replicate zip_with map].
  rewrite !fdiv_Fin by lra. cbn [fsub fneg fadd].
  set (q0 := 0 / ev + - (1)). set (q1 := p1 / ev + - (1)).
  set (q2 := p2 / ev + - (1)).
  assert (Hq0 : q0 = -1) by (unfold q0; lra).
  assert (Hq2 : 0 < q2).
  { assert (1 < p2 / ev); [|unfold q2; lra].
    apply Rmult_lt_reg_r with ev; [exact Hev|].
    unfold Rdiv. rewrite Rmult_assoc, Rinv_l by lra. lra. }
  (* its second moment and the normalisation *)
  rewrite Hnonan.
  cbn [map np_sum foldr fpow2 fmul fadd length INR].
  set (u := q0 * q0 + (q1 * q1 + (q2 * q2 + 0))).
  assert (Hu : 0 < u) by (unfold u; rewrite Hq0; nra).
  rewrite fdiv_Fin by lra.
  set (evsq := u / (1 + 1 + 1)).
  assert (Hevsq : 0 < evsq) by (unfold evsq; lra).
  unfold _norm_prob_outlier_factor. cbn [map].
  rewrite fsqrt_Fin by lra. cbn [fmul].
  set (nplof := e * sqrt evsq).
  assert (Hnplof : 0 < nplof).
  { apply Rmult_lt_0_compat; [lra|]. apply sqrt_lt_R0. lra. }
  (* the scores *)
  unfold _local_outlier_probability. cbn [map zip_with].
  rewrite fsqrt_Fin by lra. cbn [fmul].
  set (den := nplof * sqrt 2).
  assert (Hden : 0 < den).
  { apply Rmult_lt_0_compat; [lra|]. apply sqrt_lt_R0. lra. }
  rewrite !fdiv_Fin by lra. cbn [map ferf fmax0].
  exists (Rmax 0 (erf (q1 / den))), (Rmax 0 (erf (q2 / den))). split.
  - do 2 f_equal. f_equal. apply Rmax_left, erf_nonpos.
    rewrite Hq0. apply Rlt_le. unfold Rdiv. apply Rmult_neg_pos; [lra|].
    apply Rinv_0_lt_compat, Hden.
  - apply Rlt_le_trans with (erf (q2 / den)); [|apply Rmax_r].
    apply erf_pos, Rdiv_lt_0_compat; lra.
Qed.
End Three_members.

(** ** Sample runs *)

Lemma sample_context :
  single_cluster_context sample_data 2 = Some [Fin 0; Fin (3 / 2); Fin (5 / 2)].
Proof.
  unfold single_cluster_context, single_cluster_row, neighborhood_distances,
    cluster_d, sample_data.
  cbn -[fsqrt fpow2]. rewrite !fsqrt_fpow2. Reval. fin_eq.
Qed.

Lemma sample_context_reverse :
  single_cluster_context (reverse sample_data) 2 = Some [Fin 0; Fin (3 / 2); Fin 2].
Proof.
  unfold single_cluster_context, single_cluster_row, neighborhood_distances,
    cluster_d, sample_data.
  cbn -[fsqrt fpow2]. rewrite !fsqrt_fpow2. Reval. fin_eq.
Qed.

Lemma sample_context_ten :
  single_cluster_context sample_data 10 = Some [Fin 0; Fin (3 / 2); Fin (5 / 2)].
Proof.
  unfold single_cluster_context, single_cluster_row, neighborhood_distances,
    cluster_d, sample_data.
  cbn -[fsqrt fpow2]. rewrite !fsqrt_fpow2. Reval. fin_eq.
Qed.

Lemma sample_configuration k : (0 < k)%Z -> valid_configuration sample_extent k.
Proof. intros Hk. split; [exact Hk|]. exists (997 / 1000). split; [done|lra]. Qed.

Lemma loop_Ok_fit erf set_order np_empty dat ext k labels v :
  loop erf set_order np_empty dat ext k labels = Ok v ->
  exists self',
    fit erf set_order np_empty (mkLoOP dat ext k labels None None) = Ok (v, self').
Proof.
  unfold loop, __init__. destruct (negb _); [done|]. destruct (negb _); [done|].
  destruct (fit _ _ _ _) as [[v' self']| |]; try done. intros [= <-]. eauto.
Qed.

Section Sample_runs.
Variable erf : R -> R.
Variable set_order : list Z -> list Z.
Variable np_empty : nat -> nat -> matrix.

Hypothesis set_order_ok : is_set_order set_order.
Hypothesis np_empty_ok : is_np_empty np_empty.
Hypothesis erf_nonpos : forall x, x <= 0 -> erf x <= 0.
Hypothesis erf_pos : forall x, 0 < x -> 0 < erf x.

Lemma sample_loop labels :
  labels = None \/ labels = Some (LabelArray [0; 0; 0]%Z) ->
  exists s1 s2,
    loop erf set_order np_empty sample_data sample_extent 2 labels
      = Ok [Fin 0; Fin s1; Fin s2] /\ 0 < s2.
Proof.
  intros Hl.
  rewrite (loop_single_cluster erf _ _ _ _ _ labels 0%Z set_order_ok np_empty_ok)
    by exact Hl.
  unfold single_cluster_loop. rewrite (init_Ok _ _ _ _ (sample_configuration 2 ltac:(lia))).
  rewrite sample_context.
  assert (existsb truthy [Fin 0; Fin (3 / 2); Fin (5 / 2)] = true) as ->.
  { cbn. rewrite (bool_decide_eq_true_2 (3 / 2 <> 0)) by lra.
    apply orb_true_r. }
  apply (three_member_scores erf erf_nonpos erf_pos); lra.
Qed.

Lemma sample_loop_reverse labels :
  labels = None \/ labels = Some (LabelArray [0; 0; 0]%Z) ->
  exists s1 s2,
    loop erf set_order np_empty (reverse sample_data) sample_extent 2 labels
      = Ok [Fin 0; Fin s1; Fin s2] /\ 0 < s2.
Proof.
  intros Hl.
  rewrite (loop_single_cluster erf _ _ _ _ _ labels 0%Z set_order_ok np_empty_ok)
    by exact Hl.
  unfold single_cluster_loop. rewrite (init_Ok _ _ _ _ (sample_configuration 2 ltac:(lia))).
  rewrite sample_context_reverse.
  assert (existsb truthy [Fin 0; Fin (3 / 2); Fin 2] = true) as ->.
  { cbn. rewrite (bool_decide_eq_true_2 (3 / 2 <> 0)) by lra.
    apply orb_true_r. }
  apply (three_member_scores erf erf_nonpos erf_pos); lra.
Qed.

(** Three observations with [n_neighbors = 10] are scored all the same:
    the slice of line 128 takes the two distances there are. *)
Lemma small_cluster_scored :
  exists s1 s2,
    loop erf set_order np_empty sample_data sample_extent 10 None
      = Ok [Fin 0; Fin s1; Fin s2] /\ 0 < s2.
Proof.
  rewrite (loop_single_cluster erf _ _ _ _ _ None 0%Z set_order_ok np_empty_ok)
    by (left; done).
  unfold single_cluster_loop.
  rewrite (init_Ok _ _ _ _ (sample_configuration 10 ltac:(lia))).
  rewrite sample_context_ten.
  assert (existsb truthy [Fin 0; Fin (3 / 2); Fin (5 / 2)] = true) as ->.
  { cbn. rewrite (bool_decide_eq_true_2 (3 / 2 <> 0)) by lra.
    apply orb_true_r. }
  apply (three_member_scores erf erf_nonpos erf_pos); lra.
Qed.

Lemma sample_fit :
  exists v self', fit erf set_order np_empty sample_self = Ok (v, self').
Proof.
  destruct (sample_loop None) as (s1 & s2 & H & _); [left; done|].
  apply loop_Ok_fit in H as [self' H]. eauto.
Qed.

(** C8, on the observations 0, 1, 3 in one cluster with two neighbours,
    and the rows reversed: either way the first row scores 0 and the last
    row scores more, so the scores of the reversed rows are not the
    reversed scores.  The score of an observation depends on its position
    in its cluster (line 126). *)
Theorem reversed_rows_score_differently :
  exists scores scores',
    loop erf set_order np_empty sample_data sample_extent 2 (Some (LabelArray [0; 0; 0]%Z))
      = Ok scores /\
    loop erf set_order np_empty (reverse sample_data) sample_extent 2
         (Some (LabelArray (reverse [0; 0; 0]%Z)))
      = Ok scores' /\
    scores' <> reverse scores.
Proof.
  destruct (sample_loop (Some (LabelArray [0; 0; 0]%Z))) as (s1 & s2 & H & Hs2); [right; done|].
  destruct (sample_loop_reverse (Some (LabelArray [0; 0; 0]%Z))) as (s1' & s2' & H' & _);
    [right; done|].
  eexists _, _. split; [exact H|]. split; [exact H'|].
  intros [= Heq _ _]. lra.
Qed.
End Sample_runs.

(** A call without cluster labels and a call with an array of labels that
    puts every observation in one and the same cluster [c] end the same
    way, with the same vector when they return one; this whatever the set
    order and the contents of [np.empty] in either call. *)
Theorem default_cluster_equivalence erf set_order set_order' np_empty np_empty'
    dat ext k c :
  is_set_order set_order -> is_set_order set_order' ->
  is_np_empty np_empty -> is_np_empty np_empty' ->
  loop erf set_order np_empty dat ext k None
  = loop erf set_order' np_empty' dat ext k (Some (LabelArray (replicate (length dat) c))).
Proof.
  intros Hso Hso' Hne Hne'.
  rewrite (loop_single_cluster erf _ _ _ _ _ None c Hso Hne) by (left; done).
  rewrite (loop_single_cluster erf _ _ _ _ _ _ c Hso' Hne') by (right; done).
  done.
Qed.

(** ** Configuration errors *)

(** C7: with [n_neighbors <= 0] or [extent] outside (0,1] the constructor
    halts with [sys.exit()]; no object exists, so [fit] and with it every
    distance computation is never reached, whatever the data. *)
Theorem invalid_configuration_halts erf set_order np_empty dat ext k labels :
  (k <= 0)%Z \/ ~ (exists e, ext = Fin e /\ 0 < e <= 1) ->
  __init__ dat ext k labels = Exit /\
  loop erf set_order np_empty dat ext k labels = Exit.
Proof.
  intros H.
  assert (Hinit : __init__ dat ext k labels = Exit).
  { apply init_Exit. intros [Hk He]. destruct H as [H|H]; [lia|done]. }
  split; [exact Hinit|]. unfold loop. rewrite Hinit. done.
Qed.

(** C5, as the code has it: the constructor checks [n_neighbors > 0] and
    [extent] in (0,1] and nothing else.  On an input whose smallest cluster
    has at most [n_neighbors] members it returns the object when the
    configuration is in range, and halts only when it is not. *)
Theorem small_cluster_passes_configuration dat ext k labels :
  (Z.of_nat (smallest_cluster_size (label_values (default (LabelArray (replicate (length dat) 0%Z)) labels)))
   <= k)%Z ->
  (valid_configuration ext k ->
   __init__ dat ext k labels = Ok (mkLoOP dat ext k labels None None)) /\
  (~ valid_configuration ext k -> __init__ dat ext k labels = Exit).
Proof.
  intros _. split.
  - apply init_Ok.
  - apply init_Exit.
Qed.

(** C5 as stated fails: three observations in one cluster and
    [n_neighbors = 10] are not stopped by the constructor. *)
Lemma small_cluster_not_detected :
  ~ ((Z.of_nat (smallest_cluster_size [0; 0; 0]%Z) <= 10)%Z ->
     __init__ sample_data sample_extent 10 (Some (LabelArray [0; 0; 0]%Z)) = Exit).
Proof.
  intros H.
  rewrite init_Ok in H by (apply sample_configuration; lia).
  specialize (H ltac:(vm_compute; discriminate)). discriminate.
Qed.

(** ** The statements above on sample inputs *)

Lemma small_cluster_passes_configuration_witness :
  __init__ sample_data sample_extent 10 (Some (LabelArray [0; 0; 0]%Z))
  = Ok (mkLoOP sample_data sample_extent 10 (Some (LabelArray [0; 0; 0]%Z)) None None).
Proof.
  apply (small_cluster_passes_configuration sample_data sample_extent 10
           (Some (LabelArray [0; 0; 0]%Z))).
  - vm_compute. discriminate.
  - split; [lia|]. exists (997 / 1000). split; [reflexivity|lra].
Defined.

Lemma invalid_configuration_halts_witness :
  __init__ sample_data (Fin (3 / 2)) 0 None = Exit /\
  loop erf_model set_order_model np_zeros sample_data (Fin (3 / 2)) 0 None = Exit.
Proof.
  apply (invalid_configuration_halts erf_model set_order_model np_zeros
           sample_data (Fin (3 / 2)) 0 None).
  left. lia.
Defined.

Lemma default_cluster_equivalence_witness :
  loop erf_model set_order_model np_zeros sample_data sample_extent 2 None
  = loop erf_model set_order_model np_zeros sample_data sample_extent 2
      (Some (LabelArray [7; 7; 7]%Z)).
Proof.
  exact (default_cluster_equivalence erf_model set_order_model set_order_model
           np_zeros np_zeros sample_data sample_extent 2 7
           set_order_model_ok set_order_model_ok np_zeros_ok np_zeros_ok).
Defined.

Lemma reversed_rows_score_differently_witness :
  exists scores scores',
    loop erf_model set_order_model np_zeros sample_data sample_extent 2
         (Some (LabelArray [0; 0; 0]%Z)) = Ok scores /\
    loop erf_model set_order_model np_zeros (reverse sample_data) sample_extent 2
         (Some (LabelArray (reverse [0; 0; 0]%Z))) = Ok scores' /\
    scores' <> reverse scores.
Proof.
  exact (reversed_rows_score_differently erf_model set_order_model np_zeros
           set_order_model_ok np_zeros_ok erf_model_nonpos erf_model_pos).
Defined.

Lemma fit_frame_witness :
  exists v self',
    fit erf_model set_order_model np_zeros sample_self = Ok (v, self') /\
    self'.(data) = sample_data /\
    self'.(local_outlier_probabilities) = Some v.
Proof.
  destruct (sample_fit erf_model set_order_model np_zeros set_order_model_ok
              np_zeros_ok erf_model_nonpos erf_model_pos) as (v & self' & H).
  exists v, self'. split; [exact H|].
  destruct (fit_frame erf_model set_order_model np_zeros sample_self v self' H)
    as (Hd & _ & _ & _ & Hv & _).
  split; [exact Hd|exact Hv].
Defined.

Lemma two_cluster_distances :
  distance_stage set_order_model np_zeros two_cluster_self
  = Ok (two_cluster_table, two_cluster_self).
Proof.
  unfold distance_stage, _store, _n_observations, _distances, _cluster_labels,
    mbind, M_bind, bind, get_self, two_cluster_self, two_cluster_data,
    two_cluster_labels, set_order_model, np_zeros.
  cbn -[distances_loop np_where remove_dups].
  assert (remove_dups [0; 0; 0; 1; 1; 1]%Z = [0; 1]%Z) as ->
    by (vm_compute; reflexivity).
  cbn [distances_loop label_where].
  assert (Hw0 : np_where Z.eqb [0; 0; 0; 1; 1; 1]%Z 0%Z = [0; 1; 2]%nat)
    by (vm_compute; reflexivity).
  assert (Hw1 : np_where Z.eqb [0; 0; 0; 1; 1; 1]%Z 1%Z = [3; 4; 5]%nat)
    by (vm_compute; reflexivity).
  rewrite Hw0, Hw1.
  cbn -[fsqrt fpow2 neighborhood_distances]. unfold neighborhood_distances.
  cbn -[fsqrt fpow2]. rewrite !fsqrt_fpow2, fl_of_Z_0, fl_of_Z_1. Reval.
  unfold two_cluster_table. do 2 f_equal. fin_eq.
Qed.

Lemma two_cluster_distinct_ids : distinct_ids (labels_of two_cluster_self).
Proof.
  apply exact_distinct_ids.
  repeat constructor; unfold exact_label; cbn; lia.
Qed.


(** ** Stages that read the same columns *)

Lemma agree_hstack n w st st' c :
  agree n w st st' -> (3 <= w)%nat -> length c = n ->
  agree n (S w) (hstack st c) (hstack st' c).
Proof.
  intros (S1 & S2 & Hcol) Hw Hc. split; [apply shape_hstack; done|].
  split; [apply shape_hstack; done|]. intros j Hj Hj2.
  destruct (decide (j = w)) as [->|Hne].
  - rewrite (column_hstack_new n w st), (column_hstack_new n w st'); done.
  - rewrite (column_hstack_old n w st), (column_hstack_old n w st') by (done || lia).
    apply Hcol; [lia|done].
Qed.

Lemma outcomes_agree_bind n w w' (m m' : M matrix) (k k' : matrix -> M matrix) s s' :
  outcomes_agree n w (m s) (m' s') ->
  (forall st st' s1 s1',
      agree n w st st' -> s1.(extent) = s1'.(extent) ->
      s1.(cluster_labels_u) = s1'.(cluster_labels_u) ->
      outcomes_agree n w' (k st s1) (k' st' s1')) ->
  outcomes_agree n w' ((m ≫= k) s) ((m' ≫= k') s').
Proof.
  intros Hm Hk. unfold mbind, M_bind, bind.
  destruct (m s) as [[st s1]| |], (m' s') as [[st' s1']| |]; try done.
  destruct Hm as (Ha & He & Hu). apply Hk; done.
Qed.

Section Stages_agree.
Variable erf : R -> R.

Lemma ssd_agree n st st' s s' :
  agree n 3 st st' -> s.(extent) = s'.(extent) ->
  outcomes_agree n 4 (_ssd st s) (_ssd st' s').
Proof.
  intros Ha He. pose proof Ha as (S1 & S2 & Hcol).
  unfold _ssd, mbind, M_bind, bind, get_self, put_self. cbn.
  rewrite <- (Hcol 0%nat) by lia.
  rewrite <- (ssd_loop_ext st st') by (apply Hcol; lia).
  destruct (ssd_loop st _ []) as [d| |]; cbn; try done.
  rewrite <- (dict_column_ext d st st') by (apply Hcol; lia).
  destruct (dict_column d st) as [c| |] eqn:Hc; cbn; try done.
  split; [|done]. apply agree_hstack; [done|lia|].
  apply dict_column_length in Hc. destruct S1. lia.
Qed.

Lemma standard_distances_agree n st st' s s' :
  agree n 4 st st' -> s.(extent) = s'.(extent) ->
  s.(cluster_labels_u) = s'.(cluster_labels_u) ->
  outcomes_agree n 5 (_standard_distances st s) (_standard_distances st' s').
Proof.
  intros Ha He Hu. pose proof Ha as (S1 & S2 & Hcol).
  unfold _standard_distances. cbn.
  rewrite <- (Hcol 1%nat), <- (Hcol 3%nat) by lia.
  split; [|done]. apply agree_hstack; [done|lia|].
  rewrite length_standard_distance; rewrite !length_column; destruct S1; lia.
Qed.

Lemma prob_set_distances_agree n st st' s s' :
  agree n 5 st st' -> s.(extent) = s'.(extent) ->
  s.(cluster_labels_u) = s'.(cluster_labels_u) ->
  outcomes_agree n 6 (_prob_set_distances st s) (_prob_set_distances st' s').
Proof.
  intros Ha He Hu. pose proof Ha as (S1 & S2 & Hcol).
  unfold _prob_set_distances, mbind, M_bind, bind, get_self. cbn.
  rewrite <- (Hcol 4%nat), <- He by lia.
  split; [|done]. apply agree_hstack; [done|lia|].
  unfold _prob_set_distance. rewrite length_map, length_column. destruct S1; lia.
Qed.

Lemma prob_set_distances_ev_agree n st st' s s' :
  agree n 6 st st' -> s.(extent) = s'.(extent) ->
  s.(cluster_labels_u) = s'.(cluster_labels_u) ->
  outcomes_agree n 7 (_prob_set_distances_ev st s) (_prob_set_distances_ev st' s').
Proof.
  intros Ha He Hu. pose proof Ha as (S1 & S2 & Hcol).
  unfold _prob_set_distances_ev, mbind, M_bind, bind, get_self.
  rewrite <- Hu. destruct (cluster_labels_u s) as [u|] eqn:Hus; [|exact I].
  rewrite <- (prob_set_distance_ev_dict_ext st st') by (apply Hcol; lia).
  rewrite <- (dict_column_ext _ st st') by (apply Hcol; lia).
  destruct (dict_column _ st) as [c| |] eqn:Hc; cbn; try done.
  split; [|split; congruence]. apply agree_hstack; [done|lia|].
  apply dict_column_length in Hc. destruct S1. lia.
Qed.

Lemma prob_local_outlier_factors_agree n st st' s s' :
  agree n 7 st st' -> s.(extent) = s'.(extent) ->
  s.(cluster_labels_u) = s'.(cluster_labels_u) ->
  outcomes_agree n 8 (_prob_local_outlier_factors st s)
    (_prob_local_outlier_factors st' s').
Proof.
  intros Ha He Hu. pose proof Ha as (S1 & S2 & Hcol).
  unfold _prob_local_outlier_factors. cbn.
  rewrite <- (Hcol 5%nat), <- (Hcol 6%nat) by lia.
  split; [|done]. apply agree_hstack; [done|lia|].
  rewrite length_prob_outlier_factor; rewrite !length_column; destruct S1; lia.
Qed.

Lemma prob_local_outlier_factors_ev_agree n st st' s s' :
  agree n 8 st st' -> s.(extent) = s'.(extent) ->
  s.(cluster_labels_u) = s'.(cluster_labels_u) ->
  outcomes_agree n 9 (_prob_local_outlier_factors_ev st s)
    (_prob_local_outlier_factors_ev st' s').
Proof.
  intros Ha He Hu. pose proof Ha as (S1 & S2 & Hcol).
  unfold _prob_local_outlier_factors_ev, mbind, M_bind, bind, get_self.
  rewrite <- Hu. destruct (cluster_labels_u s) as [u|] eqn:Hus; [|exact I].
  rewrite <- (prob_local_outlier_factor_ev_dict_ext st st') by (apply Hcol; lia).
  rewrite <- (dict_column_ext _ st st') by (apply Hcol; lia).
  destruct (dict_column _ st) as [c| |] eqn:Hc; cbn; try done.
  split; [|split; congruence]. apply agree_hstack; [done|lia|].
  apply dict_column_length in Hc. destruct S1. lia.
Qed.

Lemma norm_prob_local_outlier_factors_agree n st st' s s' :
  agree n 9 st st' -> s.(extent) = s'.(extent) ->
  s.(cluster_labels_u) = s'.(cluster_labels_u) ->
  outcomes_agree n 10 (_norm_prob_local_outlier_factors st s)
    (_norm_prob_local_outlier_factors st' s').
Proof.
  intros Ha He Hu. pose proof Ha as (S1 & S2 & Hcol).
  unfold _norm_prob_local_outlier_factors, mbind, M_bind, bind, get_self. cbn.
  rewrite <- (Hcol 8%nat), <- He by lia.
  split; [|done]. apply agree_hstack; [done|lia|].
  unfold _norm_prob_outlier_factor. rewrite length_map, length_column.
  destruct S1; lia.
Qed.

Lemma local_outlier_probabilities_agree n st st' s s' :
  agree n 10 st st' -> s.(extent) = s'.(extent) ->
  s.(cluster_labels_u) = s'.(cluster_labels_u) ->
  outcomes_agree n 11 (_local_outlier_probabilities erf st s)
    (_local_outlier_probabilities erf st' s').
Proof.
  intros Ha He Hu. pose proof Ha as (S1 & S2 & Hcol).
  unfold _local_outlier_probabilities, mbind, M_bind, bind.
  rewrite <- (Hcol 7%nat), <- (Hcol 9%nat) by lia.
  destruct (_local_outlier_probability erf _ _) as [c| |] eqn:Hc; cbn; try done.
  split; [|done]. apply agree_hstack; [done|lia|].
  apply local_outlier_probability_length in Hc;
    rewrite ?length_column in *; destruct S1; lia.
Qed.

Lemma statistics_stages_agree n st st' s s' :
  agree n 3 st st' -> s.(extent) = s'.(extent) ->
  outcomes_agree n 11 (statistics_stages erf st s) (statistics_stages erf st' s').
Proof.
  intros Ha He. unfold statistics_stages.
  eapply outcomes_agree_bind; [apply ssd_agree; done|]. clear. intros.
  eapply outcomes_agree_bind; [apply standard_distances_agree; done|]. clear. intros.
  eapply outcomes_agree_bind; [apply prob_set_distances_agree; done|]. clear. intros.
  eapply outcomes_agree_bind; [apply prob_set_distances_ev_agree; done|]. clear. intros.
  eapply outcomes_agree_bind; [apply prob_local_outlier_factors_agree; done|]. clear. intros.
  eapply outcomes_agree_bind; [apply prob_local_outlier_factors_ev_agree; done|]. clear. intros.
  eapply outcomes_agree_bind; [apply norm_prob_local_outlier_factors_agree; done|]. clear. intros.
  apply local_outlier_probabilities_agree; done.
Qed.

Lemma outcomes_agree_scores n r r' :
  outcomes_agree n 11 r r' -> scores_of r = scores_of r'.
Proof.
  destruct r as [[st s]| |], r' as [[st' s']| |]; try done.
  intros ((_ & _ & Hcol) & _). cbn. f_equal. apply Hcol; lia.
Qed.
End Stages_agree.

Section Refit.
Variable erf : R -> R.
Variable set_order : list Z -> list Z.
Variable np_empty : nat -> nat -> matrix.

Lemma distance_stage_eq self :
  distance_stage set_order np_empty self
  = lift (distances_loop self.(data) self.(n_neighbors)
            (LabelArray (labels_of self))
            (set_order (labels_given self)) (np_empty (length self.(data)) 3))
         self.
Proof.
  unfold labels_of. rewrite <- distances_loop_array.
  unfold distance_stage, _store, _n_observations, _distances, _cluster_labels,
    labels_given, label_vector_of, mbind, M_bind, bind, get_self. cbn.
  destruct (cluster_labels self); reflexivity.
Qed.

(** The stages after [_distances] read columns 0 and 1 of the table and
    nothing else of it: whatever line 130 stored as
    [closest_neighbor_distance], the call ends the same way, with the same
    vector when it returns one. *)
Theorem closest_neighbor_distance_unused n st st' self :
  shape n 3 st -> shape n 3 st' ->
  column 0 st = column 0 st' -> column 1 st = column 1 st' ->
  scores_of (statistics_stages erf st self)
  = scores_of (statistics_stages erf st' self).
Proof.
  intros S1 S2 H0 H1. apply (outcomes_agree_scores n).
  apply statistics_stages_agree; [|done].
  split; [done|]. split; [done|]. intros j Hj Hj2.
  assert (j = 0 \/ j = 1)%nat as [->| ->] by lia; done.
Qed.

Hypothesis np_empty_ok : is_np_empty np_empty.

(** [fit] reads [data], [extent], [n_neighbors] and [cluster_labels] of the
    object and nothing else. *)
Lemma pipeline_same_configuration s s' :
  s.(data) = s'.(data) -> s.(extent) = s'.(extent) ->
  s.(n_neighbors) = s'.(n_neighbors) -> s.(cluster_labels) = s'.(cluster_labels) ->
  outcomes_agree (length s.(data)) 11
    (pipeline erf set_order np_empty s) (pipeline erf set_order np_empty s').
Proof.
  intros Hd He Hk Hl. rewrite !pipeline_split, !distance_stage_eq.
  assert (label_vector_of s = label_vector_of s') as Hv
    by (unfold label_vector_of; congruence).
  unfold labels_of, labels_given. rewrite <- Hv.
  rewrite <- Hd, <- Hk.
  destruct (distances_loop _ _ _ _ _) as [st3| |] eqn:Hloop; cbn; try done.
  apply statistics_stages_agree; [|done].
  assert (shape (length (data s)) 3 st3).
  { eapply distances_loop_shape; [exact Hloop|apply np_empty_ok]. }
  split; [done|]. split; done.
Qed.

(** Fitting a fitted object again returns the same vector and leaves the
    object as it is: nothing of the first call is read by the second. *)
Theorem refit_returns_the_same self v self' :
  fit erf set_order np_empty self = Ok (v, self') ->
  fit erf set_order np_empty self' = Ok (v, self').
Proof.
  intros H. apply fit_Ok in H as (st & self1 & Hp & -> & ->).
  pose proof (pipeline_Ok _ _ _ np_empty_ok _ _ _ Hp) as (-> & _ & _).
  set (u := np_unique (column 0 st)) in *.
  set (self' := with_scores (with_u self u) (column 10 st)).
  pose proof (pipeline_same_configuration self self' eq_refl eq_refl eq_refl eq_refl)
    as Hrel.
  rewrite Hp in Hrel. rewrite fit_pipeline.
  destruct (pipeline erf set_order np_empty self') as [[st' s1']| |] eqn:Hp';
    try done.
  destruct Hrel as ((_ & _ & Hcol) & _).
  pose proof (pipeline_Ok _ _ _ np_empty_ok _ _ _ Hp') as (-> & _ & _).
  rewrite <- (Hcol 10%nat), <- (Hcol 0%nat) by lia. done.
Qed.
End Refit.

(** ** Signs of the statistics *)

Lemma ssd_loop_nonzero st ids dct dct' :
  ssd_loop st ids dct = Ok dct' ->
  Forall (fun kv => feqb kv.2 (Fin 0) = false) dct ->
  Forall (fun kv => feqb kv.2 (Fin 0) = false) dct'.
Proof.
  revert dct. induction ids as [|c ids IH]; intros dct; cbn.
  - intros [= <-]. done.
  - destruct (feqb _ _) eqn:Hz; [discriminate|]. intros H Hd.
    apply (IH _ H). clear H IH.
    induction Hd as [|[k' v'] dct Hkv Hd IHd]; cbn.
    + repeat constructor. exact Hz.
    + destruct (feqb k' c); constructor; try done.
Qed.

Lemma dict_get_Forall (P : fl * fl -> Prop) dct x v :
  Forall P dct -> dict_get dct x = Some v -> exists k, P (k, v).
Proof.
  induction 1 as [|[k' v'] dct Hkv Hd IH]; cbn; [discriminate|].
  destruct (feqb k' x); [|exact IH]. intros [= <-]. eauto.
Qed.

Lemma nonneg_nonzero_positive a : nonneg a -> feqb a (Fin 0) = false -> positive a.
Proof.
  destruct a as [| | |x]; cbn; try done. intros Hx Hz.
  apply bool_decide_eq_false in Hz. lra.
Qed.

Ltac sign_cases a b Ha Hb :=
  unfold nonneg_or_nan in *;
  destruct a as [| | |?x], b as [| | |?y]; cbn;
  try (left; reflexivity);
  destruct Ha as [Ha|Ha]; try discriminate Ha;
  destruct Hb as [Hb|Hb]; try discriminate Hb;
  cbn in Ha, Hb; try contradiction.

Lemma fdiv_nonneg a b : nonneg_or_nan a -> nonneg_or_nan b -> nonneg_or_nan (fdiv a b).
Proof.
  intros Ha Hb. sign_cases a b Ha Hb.
  - right. rewrite bool_decide_eq_true_2 by done. done.
  - right. cbn. lra.
  - destruct (decide (y = 0)) as [->|Hy].
    + destruct (decide (x = 0)); [left; done|right].
      rewrite bool_decide_eq_true_2 by lra. done.
    + right. cbn. apply Rmult_le_pos; [lra|].
      apply Rlt_le, Rinv_0_lt_compat. lra.
Qed.

Lemma fmul_nonneg a b : nonneg_or_nan a -> nonneg_or_nan b -> nonneg_or_nan (fmul a b).
Proof.
  intros Ha Hb. sign_cases a b Ha Hb.
  - right. done.
  - destruct (decide (y = 0)); [left; done|right].
    rewrite bool_decide_eq_true_2 by lra. done.
  - destruct (decide (x = 0)); [left; done|right].
    rewrite bool_decide_eq_true_2 by lra. done.
  - right. cbn. nra.
Qed.

Lemma fsqrt_nonneg a : nonneg_or_nan a -> nonneg_or_nan (fsqrt a).
Proof.
  unfold nonneg_or_nan. intros [->|Ha]; [left; done|].
  destruct a as [| | |x]; cbn in *; try done; [right; done|].
  rewrite decide_False by lra. right. cbn. apply sqrt_pos.
Qed.

Lemma fabs_nonneg a : nonneg_or_nan (fabs a).
Proof.
  unfold nonneg_or_nan. destruct a; cbn; [left; done|right; done..|right].
  cbn. apply Rabs_pos.
Qed.

Lemma np_mean_nonneg l : Forall nonneg l -> nonneg_or_nan (np_mean l).
Proof.
  intros Hl. unfold np_mean. apply fdiv_nonneg.
  - right. apply np_sum_nonneg, Hl.
  - right. cbn. apply pos_INR.
Qed.

Lemma fsub_one a : nonneg_or_nan a -> at_least_minus_one_or_nan (fsub a (Fin 1)).
Proof.
  unfold nonneg_or_nan. intros [->|Ha]; [done|].
  destruct a as [| | |x]; cbn in *; try done. lra.
Qed.

Lemma nonan_nonneg l : Forall nonneg_or_nan l -> Forall nonneg (nonan l).
Proof.
  intros Hl. apply Forall_forall. intros x Hx.
  apply list_elem_of_filter in Hx as [Hnan Hx].
  rewrite Forall_forall in Hl. destruct (Hl x Hx) as [->|H]; done.
Qed.

Lemma Forall_zip_with_both (P Q R : fl -> Prop) (f : fl -> fl -> fl) l k :
  (forall a b, P a -> Q b -> R (f a b)) ->
  Forall P l -> Forall Q k -> Forall R (zip_with f l k).
Proof.
  intros Hf Hl. revert k. induction Hl as [|a l Ha Hl IH]; intros k Hk; [constructor|].
  destruct Hk as [|b k Hb Hk]; cbn; constructor; auto.
Qed.

Lemma dict_column_Forall (f : fl -> fl) (P : fl -> Prop) dct st c :
  dict_of f dct -> (forall x, P (f x)) -> dict_column dct st = Ok c -> Forall P c.
Proof.
  intros Hd Hf. unfold dict_column.
  destruct (mapM _ _) as [c'|] eqn:H; [|discriminate]. intros [= <-].
  apply mapM_Some in H. induction H as [|x v l c Hx H IH]; constructor; [|exact IH].
  apply (dict_of_get _ _ _ _ Hd) in Hx as [-> _]. apply Hf.
Qed.

Lemma Forall_cluster_column (P : fl -> Prop) k st c :
  Forall P (column k st) -> Forall P (cluster_column k st c).
Proof.
  intros H. apply Forall_forall. intros x Hx. unfold cluster_column in Hx.
  apply list_elem_of_omap in Hx as (i & _ & Hi).
  rewrite Forall_forall in H. apply H. eapply list_elem_of_lookup_2, Hi.
Qed.

Lemma prob_set_distance_ev_dict_of st ids :
  dict_of (fun c => np_mean (nonan (cluster_column 5 st c)))
          (prob_set_distance_ev_dict st ids).
Proof.
  unfold prob_set_distance_ev_dict.
  apply dict_of_foldl; [constructor|]. intros c. reflexivity.
Qed.

Lemma ssd_column_positive st ids dct c :
  ssd_loop st ids [] = Ok dct -> dict_column dct st = Ok c -> Forall positive c.
Proof.
  intros Hl. pose proof (ssd_loop_dict_of _ _ _ _ Hl ltac:(constructor)) as Hof.
  pose proof (ssd_loop_nonzero _ _ _ _ Hl ltac:(constructor)) as Hnz.
  unfold dict_column. destruct (mapM _ _) as [c'|] eqn:H; [|discriminate].
  intros [= <-]. apply mapM_Some in H.
  induction H as [|x v l c Hx H IH]; constructor; [|exact IH].
  destruct (dict_get_Forall _ _ _ _ Hnz Hx) as [k Hk]. cbn in Hk.
  apply (dict_of_get _ _ _ _ Hof) in Hx as [-> _].
  apply nonneg_nonzero_positive; [|exact Hk].
  apply np_sum_nonneg, nonan_squares_nonneg.
Qed.

Section Signs.
Variable erf : R -> R.

Lemma statistics_table_signs self st e :
  statistics_table erf self st -> self.(extent) = Fin e -> 0 < e ->
  Forall positive (column 3 st) /\
  Forall nonneg_or_nan (column 4 st) /\
  Forall nonneg_or_nan (column 5 st) /\
  Forall nonneg_or_nan (column 6 st) /\
  Forall at_least_minus_one_or_nan (column 7 st) /\
  Forall nonneg_or_nan (column 8 st) /\
  Forall nonneg_or_nan (column 9 st).
Proof.
  intros (S & (d3 & Hl & H3) & H4 & H5 & H6 & H7 & H8 & H9 & _) He Hpos.
  assert (P3 : Forall positive (column 3 st)) by (eapply ssd_column_positive; done).
  assert (P4 : Forall nonneg_or_nan (column 4 st)).
  { rewrite H4. unfold _standard_distance. apply Forall_fmap.
    eapply (Forall_zip_with_both positive nonneg_or_nan); [|exact P3|].
    - intros a b Ha Hb. cbv beta. apply fsqrt_nonneg, fdiv_nonneg; [|done].
      right. apply positive_nonneg, Ha.
    - apply Forall_fmap, Forall_true. intros x. apply fabs_nonneg. }
  assert (P5 : Forall nonneg_or_nan (column 5 st)).
  { rewrite H5, He. unfold _prob_set_distance. apply Forall_fmap.
    eapply Forall_impl; [exact P4|]. intros sd Hsd. cbv beta.
    apply fdiv_nonneg; [right; cbn; lra|].
    apply fmul_nonneg; [right; cbn; lra|done]. }
  assert (P6 : Forall nonneg_or_nan (column 6 st)).
  { eapply dict_column_Forall; [apply prob_set_distance_ev_dict_of| |exact H6].
    intros c. apply np_mean_nonneg, nonan_nonneg, Forall_cluster_column, P5. }
  assert (P7 : Forall at_least_minus_one_or_nan (column 7 st)).
  { rewrite H7. unfold _prob_outlier_factor. apply Forall_fmap.
    eapply (Forall_zip_with_both nonneg_or_nan nonneg_or_nan); [|exact P5|exact P6].
    intros a b Ha Hb. cbv beta. apply fsub_one, fdiv_nonneg; done. }
  assert (P8 : Forall nonneg_or_nan (column 8 st)).
  { eapply dict_column_Forall; [apply prob_local_outlier_factor_ev_dict_of| |exact H8].
    intros c. cbv beta zeta. apply fdiv_nonneg.
    - right. apply np_sum_nonneg, nonan_squares_nonneg.
    - right. cbn. apply pos_INR. }
  repeat split; try done.
  rewrite H9, He. unfold _norm_prob_outlier_factor. apply Forall_fmap.
  eapply Forall_impl; [exact P8|]. intros ev Hev. cbv beta.
  apply fmul_nonneg; [right; cbn; lra|]. apply fsqrt_nonneg, Hev.
Qed.
End Signs.

(** ** What a run that returns needs *)

Lemma length_sort_insert a l : length (sort_insert a l) = S (length l).
Proof.
  induction l as [|b l IH]; cbn; [done|]. destruct (sort_leb a b); cbn; congruence.
Qed.

Lemma length_np_sort l : length (np_sort l) = length l.
Proof.
  induction l as [|a l IH]; cbn; [done|].
  change (foldr sort_insert [] l) with (np_sort l).
  rewrite length_sort_insert. congruence.
Qed.

Lemma length_py_slice start stop l :
  (0 <= stop)%Z ->
  length (py_slice start stop l) = (Z.to_nat (Z.min stop (Z.of_nat (length l))) - start)%nat.
Proof.
  intros Hs. unfold py_slice. rewrite decide_False by lia.
  rewrite length_drop, length_take. lia.
Qed.

Lemma length_cluster_d points : length (cluster_d points) = length points.
Proof. unfold cluster_d, np_tril, pairwise_diff. rewrite !length_map. done. Qed.

(** A row of line 131 exists only for a member with two neighbours in the
    slice of line 128. *)
Lemma member_row_sizes c points k vec row :
  (0 < k)%Z -> member_row c (cluster_d points) k vec row ->
  (2 <= k)%Z /\ (3 <= length points)%nat.
Proof.
  intros Hk (closest & Hcl & _).
  assert (Hlen : length (py_slice 1 2 (neighborhood_distances (cluster_d points) vec k))
                 = 1%nat) by (rewrite Hcl; done).
  rewrite length_py_slice in Hlen by lia.
  unfold neighborhood_distances in Hlen.
  rewrite length_py_slice in Hlen by lia.
  rewrite length_np_sort, length_map in Hlen.
  unfold plane_column in Hlen. rewrite length_map, length_cluster_d in Hlen.
  lia.
Qed.

Lemma loop_Ok_configuration erf set_order np_empty dat ext k labels v :
  loop erf set_order np_empty dat ext k labels = Ok v -> valid_configuration ext k.
Proof.
  intros H. destruct (decide (0 < k)%Z) as [Hk|Hk].
  - unfold loop, __init__ in H. rewrite bool_decide_eq_true_2 in H by lia.
    cbn [negb] in H.
    destruct (fltb (Fin 0) ext && fleb ext (Fin 1)) eqn:He; [|discriminate].
    apply extent_check in He. split; done.
  - unfold loop in H. rewrite init_Exit in H; [discriminate|]. intros [? _]. lia.
Qed.

Section Requirements.
Variable erf : R -> R.
Variable set_order : list Z -> list Z.
Variable np_empty : nat -> nat -> matrix.

Hypothesis set_order_ok : is_set_order set_order.

(** With the labels in an array, scores come back only when every
    labelled observation has a row of the data, [n_neighbors] is at least
    2 and every cluster has at least three members: line 131 needs the
    one-element slice of line 130. *)
Theorem scores_need_two_neighbors dat ext k (labels : option (list Z)) v :
  loop erf set_order np_empty dat ext k (LabelArray <$> labels) = Ok v ->
  let ls := default (replicate (length dat) 0%Z) labels in
  (length ls <= length dat)%nat /\
  forall c, c ∈ ls -> (2 <= k)%Z /\ (3 <= cluster_size ls c)%nat.
Proof.
  intros H ls. subst ls. rewrite <- array_labels_default.
  set (ls := array_labels _). pose proof (loop_Ok_configuration _ _ _ _ _ _ _ _ H) as [Hk _].
  apply loop_Ok_fit in H as [self' H].
  apply fit_Ok in H as (st & self1 & Hp & _).
  rewrite pipeline_split in Hp.
  destruct (distance_stage set_order np_empty _) as [[st3 s3]| |] eqn:Hd;
    try discriminate.
  clear Hp.
  assert (Hrow : forall i c, ls !! i = Some c ->
            is_Some (dat !! i) /\ (2 <= k)%Z /\ (3 <= cluster_size ls c)%nat).
  { intros i c Hi.
    destruct (distance_stage_rows _ _ _ _ _ i c set_order_ok Hd Hi)
        as (points & j & row & Htake & Hj & _ & Hrow).
    unfold labels_of, label_vector_of in Htake, Hj.
    cbn [data n_neighbors cluster_labels] in Htake, Hj, Hrow. fold ls in Htake, Hj.
    pose proof (np_take_lookup _ _ _ _ _ Htake Hj) as Hpi.
    apply np_take_length in Htake.
    apply member_row_sizes in Hrow as [H2 H3]; [|exact Hk].
    split; [|unfold cluster_size; split; [done|lia]].
    rewrite <- Hpi. apply lookup_lt_is_Some. rewrite Htake.
    eapply lookup_lt_Some, Hj. }
  split.
  - destruct (decide (length ls <= length dat)%nat) as [|Hgt]; [done|].
    destruct (lookup_lt_is_Some_2 ls (length dat)) as [c Hc]; [lia|].
    destruct (Hrow _ _ Hc) as [Hsome _].
    apply lookup_lt_is_Some in Hsome. lia.
  - intros c Hc. apply list_elem_of_lookup in Hc as [i Hi].
    destruct (Hrow _ _ Hi) as (_ & ? & ?). done.
Qed.

Hypothesis np_empty_ok : is_np_empty np_empty.

Lemma set_order_nil : set_order [] = [].
Proof.
  destruct (set_order_ok []) as [_ H]. destruct (set_order []) as [|c l]; [done|].
  exfalso. eapply not_elem_of_nil, H. left.
Qed.

Lemma np_empty_nil w : np_empty 0%nat w = [].
Proof. destruct (np_empty_ok 0%nat w) as [H _]. apply nil_length_inv, H. Qed.

(** With no observation at all the call ends in an exception, whatever
    the labels of an array: without labels the table is empty and
    [np.vectorize] refuses it at line 104; with labels line 124 takes rows
    that do not exist. *)
Theorem empty_dataset_raises ext k (labels : option (list Z)) :
  valid_configuration ext k ->
  loop erf set_order np_empty [] ext k (LabelArray <$> labels) = Raise.
Proof.
  intros Hv. unfold loop. rewrite init_Ok by exact Hv.
  rewrite fit_pipeline, pipeline_split, distance_stage_eq.
  unfold labels_of, labels_given, label_vector_of.
  cbn [data cluster_labels n_neighbors length].
  rewrite np_empty_nil.
  set (ls := default (replicate 0%nat 0%Z) labels).
  assert (default (LabelArray (replicate 0%nat 0%Z)) (LabelArray <$> labels)
          = LabelArray ls) as -> by (destruct labels; reflexivity).
  cbn [array_labels label_values].
  destruct ls as [|c l].
  - rewrite set_order_nil. reflexivity.
  - destruct (set_order (c :: l)) as [|c' ids] eqn:Hs.
    + exfalso. destruct (set_order_ok (c :: l)) as [_ H].
      rewrite Hs in H. eapply not_elem_of_nil, H. left.
    + assert (Hc' : c' ∈ c :: l).
      { apply (set_order_ok (c :: l)). rewrite Hs. left. }
      apply list_elem_of_lookup in Hc' as [i Hi].
      assert (Hin : i ∈ np_where Z.eqb (c :: l) c').
      { apply elem_of_np_where. exists c'. split; [exact Hi|]. apply Z.eqb_refl. }
      cbn [distances_loop label_where].
      destruct (np_where Z.eqb (c :: l) c') as [|i0 idx]; [inversion Hin|].
      reflexivity.
Qed.

(** In the table of a run that returns, the sum of squares of a cluster
    is positive, the standard distance, the probabilistic set distance,
    their cluster means and the normalisation factor are NaN or not
    negative, and the outlier factor is NaN or at least -1. *)
Theorem statistics_never_negative self st self' e :
  self.(extent) = Fin e -> 0 < e ->
  pipeline erf set_order np_empty self = Ok (st, self') ->
  Forall positive (column 3 st) /\
  Forall nonneg_or_nan (column 4 st) /\
  Forall nonneg_or_nan (column 5 st) /\
  Forall nonneg_or_nan (column 6 st) /\
  Forall at_least_minus_one_or_nan (column 7 st) /\
  Forall nonneg_or_nan (column 8 st) /\
  Forall nonneg_or_nan (column 9 st).
Proof.
  intros He Hpos Hp.
  pose proof (pipeline_Ok _ _ _ np_empty_ok _ _ _ Hp) as (_ & Ht & _).
  exact (statistics_table_signs erf self st e Ht He Hpos).
Qed.

(** The row of a labelled observation carries its label as cluster id. *)
Lemma table_cluster_id self st self' i c :
  pipeline erf set_order np_empty self = Ok (st, self') ->
  labels_of self !! i = Some c ->
  column 0 st !! i = Some (fl_of_Z c).
Proof.
  intros Hp Hi.
  pose proof (pipeline_Ok _ _ _ np_empty_ok _ _ _ Hp) as (_ & _ & st3 & Hd & Hpre).
  rewrite (Hpre 0%nat) by lia.
  destruct (distance_stage_rows _ _ _ _ _ i c set_order_ok Hd Hi)
    as (points & j & row & _ & _ & Hrow & closest & _ & ->).
  rewrite (column_lookup _ _ _ _ Hrow). done.
Qed.

(** Two observations with the same label have the same four cluster
    statistics in the table: the sum of squares, the two cluster means and
    the normalisation factor (columns 3, 6, 8 and 9). *)
Theorem cluster_statistics_shared self st self' i j c k :
  pipeline erf set_order np_empty self = Ok (st, self') ->
  labels_of self !! i = Some c -> labels_of self !! j = Some c ->
  k ∈ [3; 6; 8; 9]%nat ->
  column k st !! i = column k st !! j.
Proof.
  intros Hp Hi Hj Hk.
  apply (table_cluster_id _ _ _ _ _ Hp) in Hi, Hj.
  pose proof (pipeline_Ok _ _ _ np_empty_ok _ _ _ Hp) as (_ & Ht & _).
  destruct Ht as (_ & (d3 & _ & H3) & _ & _ & H6 & _ & H8 & H9 & _).
  assert (Hdict : forall dct col, dict_column dct st = Ok col -> col !! i = col !! j).
  { intros dct col Hc.
    destruct (dict_column_lookup _ _ _ _ _ Hc Hi) as (v & -> & Hv).
    destruct (dict_column_lookup _ _ _ _ _ Hc Hj) as (v' & -> & Hv').
    congruence. }
  repeat (apply elem_of_cons in Hk as [->|Hk]); [..|inversion Hk].
  - eapply Hdict, H3.
  - eapply Hdict, H6.
  - eapply Hdict, H8.
  - rewrite H9. unfold _norm_prob_outlier_factor.
    rewrite !list_lookup_fmap. f_equal. eapply Hdict, H8.
Qed.
End Requirements.

(** ** Rows without a label, and the first member of a cluster *)

Lemma distances_loop_unlabelled dat k labels ids st st' i :
  distances_loop dat k (LabelArray labels) ids st = Ok st' ->
  labels !! i = None -> st' !! i = st !! i.
Proof.
  revert st. induction ids as [|c ids IH]; intros st; cbn.
  - intros [= <-] _. done.
  - destruct (np_take _ _) as [points| |]; try discriminate.
    destruct (fill_rows _ _ _ _ _ _) as [st1| |] eqn:Hf; try discriminate.
    destruct (negb _); [discriminate|]. intros H Hi.
    rewrite (IH _ H Hi).
    apply fill_rows_spec in Hf as (_ & Hout & _); [|apply NoDup_np_where].
    apply Hout. intros Hin. apply elem_of_np_where in Hin as (x & Hx & _). congruence.
Qed.

Section Unlabelled.
Variable set_order : list Z -> list Z.
Variable np_empty : nat -> nat -> matrix.

(** An observation past the end of the label vector is in no cluster:
    [_distances] never writes its row, which keeps whatever [np.empty]
    found in memory. *)
Theorem unlabelled_rows_are_uninitialised self st3 self1 i :
  distance_stage set_order np_empty self = Ok (st3, self1) ->
  (length (labels_of self) <= i)%nat ->
  st3 !! i = np_empty (length self.(data)) 3 !! i.
Proof.
  rewrite distance_stage_eq. intros H Hi.
  destruct (distances_loop _ _ _ _ _) as [st| |] eqn:Hl; try discriminate.
  injection H as <- _.
  eapply distances_loop_unlabelled; [exact Hl|]. apply lookup_ge_None_2, Hi.
Qed.
End Unlabelled.

(** Row [i] of a finished table, column by column. *)
Lemma statistics_table_row erf self st i cd :
  statistics_table erf self st -> column 1 st !! i = Some cd ->
  exists ssd ev evsq,
    column 3 st !! i = Some ssd /\
    column 6 st !! i = Some ev /\
    column 8 st !! i = Some evsq /\
    let sd := fsqrt (fdiv ssd (fabs cd)) in
    let psd := fdiv (Fin 1) (fmul self.(extent) sd) in
    let plof := fsub (fdiv psd ev) (Fin 1) in
    let nplof := fmul self.(extent) (fsqrt evsq) in
    column 5 st !! i = Some psd /\
    column 7 st !! i = Some plof /\
    column 10 st !! i
    = Some (fmax0 (ferf erf (fdiv plof (fmul nplof (fsqrt (Fin 2)))))).
Proof.
  intros (_ & _ & H4 & H5 & _ & H7 & _ & H9 & H10) H1.
  assert (Hi : (i < length st)%nat).
  { apply lookup_lt_Some in H1. rewrite length_column in H1. exact H1. }
  destruct (lookup_lt_is_Some_2 (column 3 st) i) as [ssd H3i];
    [rewrite length_column; exact Hi|].
  destruct (lookup_lt_is_Some_2 (column 6 st) i) as [ev H6i];
    [rewrite length_column; exact Hi|].
  destruct (lookup_lt_is_Some_2 (column 8 st) i) as [evsq H8i];
    [rewrite length_column; exact Hi|].
  exists ssd, ev, evsq. do 3 (split; [done|]). cbv zeta.
  assert (H4i : column 4 st !! i = Some (fsqrt (fdiv ssd (fabs cd)))).
  { rewrite H4. unfold _standard_distance.
    rewrite list_lookup_fmap, lookup_zip_with, H3i. cbn -[fsqrt fdiv fabs].
    rewrite list_lookup_fmap, H1. done. }
  assert (H5i : column 5 st !! i
                = Some (fdiv (Fin 1) (fmul self.(extent) (fsqrt (fdiv ssd (fabs cd)))))).
  { rewrite H5. unfold _prob_set_distance. rewrite list_lookup_fmap, H4i. done. }
  set (psd := fdiv (Fin 1) _) in *.
  assert (H7i : column 7 st !! i = Some (fsub (fdiv psd ev) (Fin 1))).
  { rewrite H7. unfold _prob_outlier_factor.
    rewrite list_lookup_fmap, lookup_zip_with, H5i, H6i. done. }
  assert (H9i : column 9 st !! i = Some (fmul self.(extent) (fsqrt evsq))).
  { rewrite H9. unfold _norm_prob_outlier_factor.
    rewrite list_lookup_fmap, H8i. done. }
  do 2 (split; [done|]).
  unfold _local_outlier_probability in H10. cbv zeta in H10.
  destruct (zip_with _ _ _) as [|q arg] eqn:Hz in H10; [discriminate|].
  rewrite <- Hz in H10. injection H10 as H10. rewrite <- H10.
  rewrite list_lookup_fmap, lookup_zip_with, H7i. cbn -[fsqrt].
  rewrite list_lookup_fmap, H9i. done.
Qed.

(** A cluster mean over values none of which is negative, one of them not
    NaN, is not NaN. *)
Lemma np_mean_nonneg_inhabited l a :
  Forall nonneg l -> a ∈ l -> nonneg (np_mean l).
Proof.
  intros Hl Ha. unfold np_mean.
  assert (Hn : 0 < INR (length l)).
  { apply lt_0_INR. destruct l; [apply elem_of_nil in Ha; done|cbn; lia]. }
  pose proof (np_sum_nonneg _ Hl) as Hs.
  destruct (np_sum l) as [| | |x]; cbn in Hs |- *; try done.
  - rewrite bool_decide_eq_true_2 by lra. done.
  - rewrite decide_False by lra. cbn.
    apply Rmult_le_pos; [done|]. apply Rlt_le, Rinv_0_lt_compat. lra.
Qed.

Section First_member.
Variable erf : R -> R.
Variable set_order : list Z -> list Z.
Variable np_empty : nat -> nat -> matrix.

Hypothesis set_order_ok : is_set_order set_order.
Hypothesis np_empty_ok : is_np_empty np_empty.
Hypothesis erf_nonpos : forall x, x <= 0 -> erf x <= 0.

(** The context distance of the first member of a cluster is zero in the
    table, whatever the data. *)
Lemma first_member_zero self st self' w c i :
  pipeline erf set_order np_empty self = Ok (st, self') ->
  Forall (fun p => length p = S w) self.(data) ->
  head (np_where Z.eqb (labels_of self) c) = Some i ->
  column 1 st !! i = Some (Fin 0).
Proof.
  intros Hp Hw Hhead.
  pose proof (pipeline_Ok _ _ _ np_empty_ok _ _ _ Hp) as (_ & _ & st3 & Hd & Hpre).
  rewrite (Hpre 1%nat) by lia.
  assert (H0 : np_where Z.eqb (labels_of self) c !! 0%nat = Some i).
  { destruct (np_where _ _ _); [discriminate|]. exact Hhead. }
  assert (Hi : labels_of self !! i = Some c).
  { apply list_elem_of_lookup_2, elem_of_np_where in H0 as (x & Hx & Hc).
    apply Z.eqb_eq in Hc. congruence. }
  destruct (distance_stage_rows _ _ _ _ _ i c set_order_ok Hd Hi)
    as (points & j & row & Htake & Hj & Hrow & closest & Hcl & ->).
  assert (j = 0)%nat as ->.
  { exact (NoDup_lookup _ _ _ _ (NoDup_np_where Z.eqb (labels_of self) c) Hj H0). }
  rewrite (column_lookup _ _ _ _ Hrow). cbn [lookup list_lookup default].
  f_equal. apply (first_member_context_distance points w _ closest); [|exact Hcl].
  apply Forall_forall. intros p Hp'. rewrite Forall_forall in Hw. apply Hw.
  apply list_elem_of_lookup in Hp' as [j Hj'].
  unfold np_take in Htake.
  destruct (mapM _ _) as [rows|] eqn:Hm; [|discriminate].
  injection Htake as ->. apply mapM_Some in Hm.
  destruct (Forall2_lookup_r _ _ _ _ _ Hm Hj') as (i' & _ & Hi').
  eapply list_elem_of_lookup_2, Hi'.
Qed.

(** The first member of every cluster never scores above zero: its
    context distance is zero (line 126 masks every feature of the
    differences to member 0), so its probabilistic set distance is zero and
    its outlier factor is -1, or NaN when the cluster mean is zero too. *)
Theorem first_member_never_outlier dat ext k (labels : option (list Z))
    v w c i :
  loop erf set_order np_empty dat ext k (LabelArray <$> labels) = Ok v ->
  Forall (fun p => length p = S w) dat ->
  head (np_where Z.eqb (default (replicate (length dat) 0%Z) labels) c) = Some i ->
  v !! i = Some (Fin 0) \/ v !! i = Some NaN.
Proof.
  intros H Hw Hhead. rewrite <- array_labels_default in Hhead.
  pose proof (loop_Ok_configuration _ _ _ _ _ _ _ _ H) as (_ & e & -> & He & _).
  apply loop_Ok_fit in H as [self' H].
  apply fit_Ok in H as (st & self1 & Hp & -> & _).
  pose proof (first_member_zero _ _ _ w c i Hp Hw Hhead) as H1.
  pose proof (pipeline_Ok _ _ _ np_empty_ok _ _ _ Hp) as (_ & Ht & _).
  pose proof (statistics_table_signs erf _ st e Ht eq_refl He)
    as (P3 & _ & P5 & _).
  destruct (statistics_table_row _ _ _ _ _ Ht H1)
    as (ssd & ev & evsq & H3 & H6 & H8 & H5 & H7 & H10).
  cbv zeta in H5, H7, H10. cbn [extent] in H5, H7, H10.
  assert (Hssd : positive ssd).
  { rewrite Forall_forall in P3. eapply P3, list_elem_of_lookup_2, H3. }
  assert (Hpsd : fdiv (Fin 1) (fmul (Fin e) (fsqrt (fdiv ssd (fabs (Fin 0))))) = Fin 0).
  { assert (fdiv ssd (fabs (Fin 0)) = PInf) as ->.
    { destruct ssd as [| | |x]; cbn in *; try done.
      - rewrite Rabs_R0, bool_decide_eq_true_2 by lra. done.
      - rewrite Rabs_R0, decide_True, decide_False by lra.
        rewrite bool_decide_eq_true_2 by lra. done. }
    cbn. rewrite decide_False by lra. rewrite bool_decide_eq_true_2 by lra. done. }
  rewrite Hpsd in H5, H7, H10.
  (* the cluster mean of column 5 counts this row *)
  assert (Hev : nonneg ev).
  { destruct Ht as (_ & _ & _ & _ & Hd6 & _).
    assert (exists cid, column 0 st !! i = Some cid) as [cid H0].
    { apply lookup_lt_is_Some. rewrite length_column.
      apply lookup_lt_Some in H1. rewrite length_column in H1. exact H1. }
    destruct (dict_column_lookup _ _ _ _ _ Hd6 H0) as (v & Hv & Hg).
    assert (v = ev) as -> by congruence.
    apply (dict_of_get _ _ _ _ (prob_set_distance_ev_dict_of _ _)) in Hg as [-> Hc].
    apply (np_mean_nonneg_inhabited _ (Fin 0)).
    - apply nonan_nonneg, Forall_cluster_column, P5.
    - apply list_elem_of_filter. split; [done|].
      eapply elem_of_cluster_column; eauto. }
  destruct (decide (ev = Fin 0)) as [->|Hne].
  - right.
    assert (Hplof : fsub (fdiv (Fin 0) (Fin 0)) (Fin 1) = NaN).
    { cbn. rewrite !decide_True by lra. done. }
    rewrite H10, Hplof. done.
  - left.
    assert (Hplof : fsub (fdiv (Fin 0) ev) (Fin 1) = Fin (-1)).
    { destruct ev as [| | |y]; cbn in *; try done.
      - fin_eq.
      - rewrite decide_False by congruence. fin_eq. }
    rewrite Hplof in H7, H10.
    assert (Hsq : positive evsq).
    { destruct Ht as (S & _ & _ & _ & _ & _ & Hd8 & _).
      eapply (ev_plof_sq_positive st i (-1)); eauto; [|lra].
      apply lookup_lt_Some in H1. rewrite length_column in H1. exact H1. }
    assert (Hn : positive (fmul (fmul (Fin e) (fsqrt evsq)) (fsqrt (Fin 2)))).
    { apply fmul_positive; [|apply fsqrt_2_positive].
      apply fmul_positive; [exact He|]. apply fsqrt_positive, Hsq. }
    destruct (fdiv_neg_positive (-1) _ ltac:(lra) Hn) as (z & Hz & Hz0).
    rewrite H10, Hz. cbn. rewrite Rmax_left; [done|]. apply erf_nonpos, Hz0.
Qed.
End First_member.
(** ** The argument check of the constructor *)

Lemma check_positional_Exit args types i a t :
  args !! i = Some a -> types !! i = Some t ->
  isinstance (as_array a) t = false ->
  check_positional args types = Exit.
Proof.
  revert types i. induction args as [|a' args IH]; intros types i.
  { rewrite lookup_nil. done. }
  destruct types as [|t' types]; [rewrite lookup_nil; done|].
  - cbn. destruct (isinstance (as_array a') t') eqn:Hi'; [|done]. cbn.
    destruct i as [|i]; cbn.
    + intros [= ->] [= ->]. congruence.
    + apply IH.
Qed.

Lemma check_positional_Ok args types :
  positional_ok args types -> check_positional args types = Ok tt.
Proof.
  revert types. induction args as [|a args IH]; intros [|t types] H; try done.
  cbn. rewrite (H 0%nat a t) by done. cbn. apply IH.
  intros i a' t' Ha Ht. apply (H (S i)); done.
Qed.

Lemma check_positional_Ok_inv args types r :
  check_positional args types = Ok r -> positional_ok args types.
Proof.
  intros H i a t Ha Ht.
  destruct (isinstance (as_array a) t) eqn:Hi; [done|].
  rewrite (check_positional_Exit _ _ _ _ _ Ha Ht Hi) in H. discriminate.
Qed.

Lemma set_value_None opts x v :
  x ∉ opts.*1 -> set_value opts x v = None.
Proof.
  induction opts as [|[k [t old]] opts IH]; cbn; [done|].
  intros H. apply not_elem_of_cons in H as [Hne H].
  rewrite decide_False by done. rewrite IH by done. done.
Qed.

Lemma set_value_Some opts x v :
  x ∈ opts.*1 ->
  exists opts', set_value opts x v = Some opts' /\
    signature opts' = signature opts /\
    (exists t, (x, (t, Some v)) ∈ opts') /\
    (forall k e, k <> x -> (k, e) ∈ opts -> (k, e) ∈ opts') /\
    (forall k t w, (k, (t, Some w)) ∈ opts' ->
       (k, (t, Some w)) ∈ opts \/ (k = x /\ w = v /\ (k, t) ∈ signature opts)).
Proof.
  induction opts as [|[k [t old]] opts IH]; cbn; [intros H; inversion H|].
  intros H. destruct (decide (k = x)) as [->|Hne].
  - eexists. split; [done|]. split; [done|]. split; [exists t; left|]. split.
    + intros k e Hk He. apply elem_of_cons in He as [[= -> ->]|He]; [done|].
      right. exact He.
    + intros k t' w Hw. apply elem_of_cons in Hw as [[= -> -> ->]|Hw].
      * right. split; [done|]. split; [done|]. left.
      * left. right. exact Hw.
  - apply elem_of_cons in H as [->|H]; [done|].
    destruct (IH H) as (opts' & -> & Hsig & [t' Hx] & Hkeep & Hnew).
    eexists. split; [done|]. split; [cbn; f_equal; exact Hsig|].
    split; [exists t'; right; exact Hx|]. split.
    + intros k' e Hk He. apply elem_of_cons in He as [->|He]; [left|].
      right. apply Hkeep; done.
    + intros k' t'' w Hw. apply elem_of_cons in Hw as [[= -> -> ->]|Hw]; [left; left|].
      destruct (Hnew _ _ _ Hw) as [?|(-> & -> & ?)]; [left; right; done|].
      right. split; [done|]. split; [done|]. right. done.
Qed.

Lemma signature_keys opts : (signature opts).*1 = opts.*1.
Proof. unfold signature. rewrite <- list_fmap_compose. done. Qed.

(** A keyword that is not an option is a KeyError. *)
Lemma set_values_Raise kwds opts x v :
  (x, v) ∈ kwds -> x ∉ opts.*1 -> set_values kwds opts = Raise.
Proof.
  revert opts. induction kwds as [|[x' v'] kwds IH]; intros opts Hin Hx;
    [inversion Hin|].
  cbn. destruct (decide (x' ∈ opts.*1)) as [Hx'|Hx'].
  - destruct (set_value_Some opts x' v' Hx') as (opts' & -> & Hsig & _).
    apply elem_of_cons in Hin as [[= -> ->]|Hin]; [done|].
    apply IH; [exact Hin|]. rewrite <- signature_keys, Hsig, signature_keys. exact Hx.
  - rewrite set_value_None by done. done.
Qed.

(** The keywords after [x] leave its entry alone. *)
Lemma set_values_keep kwds opts opts' x e :
  x ∉ kwds.*1 -> (x, e) ∈ opts -> set_values kwds opts = Ok opts' -> (x, e) ∈ opts'.
Proof.
  revert opts. induction kwds as [|[y u] kwds IH]; intros opts Hx Hin; cbn.
  - intros [= <-]. done.
  - cbn in Hx. apply not_elem_of_cons in Hx as [Hne Hx].
    destruct (decide (y ∈ opts.*1)) as [Hy|Hy].
    + destruct (set_value_Some opts y u Hy) as (opts1 & -> & _ & _ & Hkeep & _).
      apply IH; [done|]. apply Hkeep; done.
    + rewrite set_value_None by done. done.
Qed.

Lemma set_values_Ok kwds opts :
  (forall x v, (x, v) ∈ kwds -> x ∈ opts.*1) ->
  exists opts', set_values kwds opts = Ok opts' /\
    signature opts' = signature opts /\
    (forall k t w, (k, (t, Some w)) ∈ opts' ->
       (k, (t, Some w)) ∈ opts \/ ((k, w) ∈ kwds /\ (k, t) ∈ signature opts)) /\
    (NoDup kwds.*1 -> forall x v, (x, v) ∈ kwds -> exists t, (x, (t, Some v)) ∈ opts').
Proof.
  revert opts. induction kwds as [|[x v] kwds IH]; intros opts Hk; cbn.
  - exists opts. split; [done|]. split; [done|]. split; [auto|].
    intros _ x v H. inversion H.
  - destruct (set_value_Some opts x v) as (opts1 & -> & Hsig1 & [t1 Hx1] & Hkeep & Hnew);
      [apply (Hk x v); left|].
    destruct (IH opts1) as (opts' & Heq & Hsig & Hval & Hbind).
    { intros x' v' H. rewrite <- signature_keys, Hsig1, signature_keys.
      apply (Hk x' v'). right. exact H. }
    exists opts'. split; [done|]. split; [congruence|]. split.
    + intros k t w Hw. destruct (Hval _ _ _ Hw) as [H|[H Hs]].
      * destruct (Hnew _ _ _ H) as [?|(-> & -> & ?)]; [left; done|].
        right. split; [left|done].
      * right. split; [right; done|]. rewrite <- Hsig1. done.
    + intros Hnd x' v' H. cbn in Hnd. apply NoDup_cons in Hnd as [Hx Hnd].
      apply elem_of_cons in H as [[= -> ->]|H]; [|apply Hbind; done].
      exists t1. eapply set_values_keep; [exact Hx|exact Hx1|exact Heq].
Qed.

Lemma opt_types_Ok types :
  (5 <= length types)%nat ->
  exists opts, opt_types types = Ok opts /\
    opts.*1 = ["extent"; "n_neighbors"; "cluster_labels"]%string /\
    Forall (fun e => e.2.2 = None) opts.
Proof.
  intros H. unfold opt_types.
  destruct (lookup_lt_is_Some_2 types 2%nat) as [t2 ->]; [lia|].
  destruct (lookup_lt_is_Some_2 types 3%nat) as [t3 ->]; [lia|].
  destruct (lookup_lt_is_Some_2 types 4%nat) as [t4 ->]; [lia|].
  eexists. split; [done|]. split; [done|]. repeat constructor.
Qed.

Lemma opt_types_not_Exit types : opt_types types <> Exit.
Proof. unfold opt_types. repeat case_match; done. Qed.

Lemma opt_types_inv types opts :
  opt_types types = Ok opts ->
  opts.*1 = ["extent"; "n_neighbors"; "cluster_labels"]%string /\
  Forall (fun e => e.2.2 = None) opts /\
  forall x t, (x, t) ∈ signature opts <-> option_type types x = Some t.
Proof.
  unfold opt_types, option_type.
  destruct (types !! 2%nat) as [t2|]; [|done].
  destruct (types !! 3%nat) as [t3|]; [|done].
  destruct (types !! 4%nat) as [t4|]; [|done].
  intros [= <-]. split; [done|]. split; [repeat constructor|].
  intros x t. cbn. rewrite !elem_of_cons, elem_of_nil. split.
  - intros [Hx|[Hx|[Hx|[]]]]; injection Hx as -> ->; reflexivity.
  - intros Hx. repeat case_decide; subst;
      [left|right; left|right; right; left|]; congruence.
Qed.

Lemma check_options_Exit opts k t v :
  (k, (t, Some v)) ∈ opts -> isinstance v t = false -> check_options opts = Exit.
Proof.
  induction opts as [|[k' [t' [v'|]]] opts IH]; intros Hin Hv; cbn.
  - inversion Hin.
  - destruct (isinstance v' t') eqn:Hv'; [|done]. cbn.
    apply elem_of_cons in Hin as [[= -> -> ->]|Hin]; [congruence|]. apply IH; done.
  - apply elem_of_cons in Hin as [[=]|Hin]. apply IH; done.
Qed.

Lemma check_options_Ok opts :
  (forall k t v, (k, (t, Some v)) ∈ opts -> isinstance v t = true) ->
  check_options opts = Ok tt.
Proof.
  induction opts as [|[k' [t' [v'|]]] opts IH]; intros H; cbn; [done|..].
  - rewrite (H k' t' v') by left. cbn. apply IH.
    intros k t v Hin. apply (H k t v). right. exact Hin.
  - apply IH. intros k t v Hin. apply (H k t v). right. exact Hin.
Qed.

Lemma check_options_Ok_inv opts r k t v :
  check_options opts = Ok r -> (k, (t, Some v)) ∈ opts -> isinstance v t = true.
Proof.
  intros H Hin. destruct (isinstance v t) eqn:Hv; [done|].
  rewrite (check_options_Exit _ _ _ _ Hin Hv) in H. discriminate.
Qed.

Lemma elem_of_signature opts k t value :
  (k, (t, value)) ∈ opts -> (k, t) ∈ signature opts.
Proof.
  intros H. unfold signature. apply list_elem_of_fmap. exists (k, (t, value)). done.
Qed.

Section Decorator.
Context {A : Type}.
Variable f : list pyval -> list (string * pyval) -> result A.

(** A positional argument that is not an instance of its type ends the
    call with [sys.exit()], whatever the keywords are; [f] is not called. *)
Theorem positional_of_wrong_type_exits types args kwds i a t :
  args !! i = Some a -> types !! i = Some t ->
  isinstance (as_array a) t = false ->
  new_f types f args kwds = Exit.
Proof.
  intros Ha Ht Hi. unfold new_f.
  rewrite (check_positional_Exit _ _ _ _ _ Ha Ht Hi). done.
Qed.

(** A keyword other than [extent], [n_neighbors] and [cluster_labels] is
    a KeyError at line 54 ([data] passed by keyword, for one), whatever its
    value; [f] is not called. *)
Theorem keyword_outside_options_raises types args kwds x v :
  positional_ok args types -> (x, v) ∈ kwds ->
  x ∉ ["extent"; "n_neighbors"; "cluster_labels"]%string ->
  new_f types f args kwds = Raise.
Proof.
  intros Hp Hin Hx. unfold new_f. rewrite (check_positional_Ok _ _ Hp).
  destruct (opt_types types) as [opts| |] eqn:Ho; [|by apply opt_types_not_Exit in Ho|done].
  apply opt_types_inv in Ho as (Hk & _).
  rewrite (set_values_Raise kwds opts x v); [done|exact Hin|]. rewrite Hk. exact Hx.
Qed.

(** A keyword argument that is not an instance of the type of its option
    ends the call with [sys.exit()]: [cluster_labels=None], the default
    itself, and [extent=1], an [int], among them. *)
Theorem keyword_of_wrong_type_exits types args kwds x v t :
  positional_ok args types -> (5 <= length types)%nat -> NoDup kwds.*1 ->
  (forall y w, (y, w) ∈ kwds ->
     y ∈ ["extent"; "n_neighbors"; "cluster_labels"]%string) ->
  (x, v) ∈ kwds -> option_type types x = Some t -> isinstance v t = false ->
  new_f types f args kwds = Exit.
Proof.
  intros Hp Hlen Hnd Hkeys Hin Ht Hv. unfold new_f.
  rewrite (check_positional_Ok _ _ Hp).
  destruct (opt_types_Ok types Hlen) as (opts & Ho & Hk & Hnone). rewrite Ho.
  apply opt_types_inv in Ho as (_ & _ & Hsig).
  destruct (set_values_Ok kwds opts) as (opts' & -> & Hs & _ & Hbind).
  { intros y w Hy. rewrite Hk. eapply Hkeys, Hy. }
  destruct (Hbind Hnd x v Hin) as [t' Hx].
  assert (t' = t) as ->.
  { apply elem_of_signature in Hx. rewrite Hs in Hx. apply Hsig in Hx. congruence. }
  rewrite (check_options_Exit _ _ _ _ Hx Hv). done.
Qed.

(** When every positional argument and every keyword argument is an
    instance of its type, the call is the call of [f] on the same
    arguments. *)
Theorem accepted_call_runs types args kwds :
  positional_ok args types -> (5 <= length types)%nat ->
  (forall x v, (x, v) ∈ kwds ->
     exists t, option_type types x = Some t /\ isinstance v t = true) ->
  new_f types f args kwds = f args kwds.
Proof.
  intros Hp Hlen Hkw. unfold new_f. rewrite (check_positional_Ok _ _ Hp).
  destruct (opt_types_Ok types Hlen) as (opts & Ho & Hk & Hnone). rewrite Ho.
  apply opt_types_inv in Ho as (_ & _ & Hsig).
  destruct (set_values_Ok kwds opts) as (opts' & -> & Hs & Hval & _).
  { intros y w Hy. destruct (Hkw y w Hy) as (t & Ht & _).
    apply Hsig in Ht. rewrite <- signature_keys.
    apply list_elem_of_fmap. exists (y, t). done. }
  rewrite check_options_Ok; [done|]. intros k t w Hw.
  destruct (Hval _ _ _ Hw) as [Hold|[Hin Hkt]].
  - rewrite Forall_forall in Hnone. apply Hnone in Hold. done.
  - destruct (Hkw _ _ Hin) as (t' & Ht' & Hi). apply Hsig in Hkt. congruence.
Qed.

(** A call that returns has called [f] on arguments that are instances of
    their types, the keywords all among the three options. *)
Theorem returned_call_was_checked types args kwds r :
  NoDup kwds.*1 ->
  new_f types f args kwds = Ok r ->
  f args kwds = Ok r /\ positional_ok args types /\
  forall x v, (x, v) ∈ kwds ->
    exists t, option_type types x = Some t /\ isinstance v t = true.
Proof.
  intros Hnd. unfold new_f.
  destruct (check_positional args types) as [u| |] eqn:Hp; try done.
  apply check_positional_Ok_inv in Hp.
  destruct (opt_types types) as [opts| |] eqn:Ho; try done.
  apply opt_types_inv in Ho as (Hk & _ & Hsig).
  destruct (set_values kwds opts) as [opts'| |] eqn:Hs; try done.
  destruct (check_options opts') as [u'| |] eqn:Hc; try done.
  intros Hf. split; [exact Hf|]. split; [exact Hp|]. intros x v Hin.
  assert (Hkeys : forall y w, (y, w) ∈ kwds -> y ∈ opts.*1).
  { intros y w Hy. destruct (decide (y ∈ opts.*1)) as [|Hn]; [done|].
    rewrite (set_values_Raise _ _ _ _ Hy Hn) in Hs. discriminate. }
  destruct (set_values_Ok kwds opts Hkeys) as (opts'' & Hs' & Hsg & _ & Hbind).
  rewrite Hs in Hs'. injection Hs' as <-.
  destruct (Hbind Hnd x v Hin) as [t Hx]. exists t. split.
  - apply Hsig. rewrite <- Hsg. eapply elem_of_signature, Hx.
  - eapply check_options_Ok_inv; [exact Hc|exact Hx].
Qed.
End Decorator.

(** ** The run does not depend on [np.empty] and on the order of the set *)

Lemma fill_rows_progress c d k idx vec st :
  (forall j i, idx !! j = Some i ->
     (exists closest,
         py_slice 1 2 (neighborhood_distances d (vec + j) k) = [closest]) /\
     (i < length st)%nat) ->
  exists st', fill_rows c d k idx vec st = Ok st'.
Proof.
  revert vec st. induction idx as [|i idx IH]; intros vec st H; cbn; [eauto|].
  destruct (H 0%nat i eq_refl) as [[closest Hcl] Hi].
  rewrite Nat.add_0_r in Hcl. rewrite Hcl, decide_True by exact Hi.
  apply IH. intros j i' Hj. rewrite length_insert.
  replace (S vec + j)%nat with (vec + S j)%nat by lia. apply (H (S j) i' Hj).
Qed.

Lemma existsb_truthy_lookup l i x :
  l !! i = Some x -> truthy x = true -> existsb truthy l = true.
Proof.
  intros Hi Hx. apply existsb_exists. exists x. split; [|exact Hx].
  apply list_elem_of_In. eapply list_elem_of_lookup_2, Hi.
Qed.

Lemma ready_progress dat k labels ids st :
  (forall c, c ∈ ids -> cluster_ready dat k labels (length st) c) ->
  exists st', distances_loop dat k (LabelArray labels) ids st = Ok st'.
Proof.
  revert st. induction ids as [|c ids IH]; intros st H; cbn; [eauto|].
  destruct (H c) as (points & -> & Hrows & j & i & Hj & Htr); [left|].
  destruct (fill_rows_progress c (cluster_d points) k (np_where Z.eqb labels c) 0 st)
    as [st1 Hf].
  { intros j' i' Hj'. apply Hrows, Hj'. }
  unfold cluster_d in Hf. rewrite Hf. fold (cluster_d points) in Hf.
  apply fill_rows_spec in Hf as (Hlen & _ & Hin); [|apply NoDup_np_where].
  destruct (Hin j i Hj) as (row & Hrow & closest & _ & ->).
  rewrite (existsb_truthy_lookup _ i _ (column_lookup 1 _ _ _ Hrow) Htr). cbn.
  apply IH. intros c' Hc'. rewrite Hlen. apply H. right. exact Hc'.
Qed.

Lemma ssd_loop_Ok_nonzero st ids dct dct' c :
  ssd_loop st ids dct = Ok dct' -> c ∈ ids ->
  feqb (cluster_ssd st c) (Fin 0) = false.
Proof.
  intros H Hc. destruct (feqb (cluster_ssd st c) (Fin 0)) eqn:Hz; [|done].
  apply feqb_eq in Hz. rewrite (ssd_loop_Exit _ _ _ _ Hc Hz) in H. discriminate.
Qed.

(** A sum of squares other than zero has a term that is not zero. *)
Lemma cluster_ssd_truthy st c :
  feqb (cluster_ssd st c) (Fin 0) = false ->
  exists x, x ∈ cluster_column 1 st c /\ truthy x = true.
Proof.
  intros Hz.
  destruct (decide (Forall (fun x => x = Fin 0) (cluster_column 1 st c))) as [Hall|Hex].
  - rewrite (cluster_ssd_zeros _ _ Hall) in Hz. cbn in Hz.
    rewrite bool_decide_eq_true_2 in Hz; done.
  - apply not_Forall_Exists in Hex; [|intros x; apply _].
    apply Exists_exists in Hex as (x & Hx & Hne). exists x. split; [exact Hx|].
    destruct x as [| | |y]; try done. cbn. apply bool_decide_eq_true_2.
    intros ->. apply Hne. reflexivity.
Qed.

(** The rows of a table whose rows are all labelled, after a run over
    all clusters. *)
Lemma labelled_row dat k labels ids st0 st3 i c :
  distances_loop dat k (LabelArray labels) ids st0 = Ok st3 ->
  (forall c, c ∈ labels -> c ∈ ids) ->
  labels !! i = Some c ->
  exists points j closest,
    np_take dat (np_where Z.eqb labels c) = Ok points /\
    np_where Z.eqb labels c !! j = Some i /\
    py_slice 1 2 (neighborhood_distances (cluster_d points) j k) = [closest] /\
    st3 !! i = Some [fl_of_Z c;
                     np_mean (neighborhood_distances (cluster_d points) j k);
                     closest].
Proof.
  intros H Hids Hi. apply distances_loop_spec in H as (_ & _ & Hin).
  destruct (Hin i c Hi) as (points & j & row & Ht & Hj & Hrow & closest & Hcl & ->).
  { apply Hids. eapply list_elem_of_lookup_2, Hi. }
  eauto 10.
Qed.

Lemma run_ready dat k labels ids st0 st3 c :
  distances_loop dat k (LabelArray labels) ids st0 = Ok st3 ->
  length st0 = length labels ->
  (forall c, c ∈ labels -> c ∈ ids) ->
  distinct_ids labels ->
  c ∈ labels ->
  feqb (cluster_ssd st3 (fl_of_Z c)) (Fin 0) = false ->
  cluster_ready dat k labels (length st0) c.
Proof.
  intros H Hlen Hids Hdist Hc Hz. pose proof Hc as Hcl0.
  pose proof (distances_loop_spec _ _ _ _ _ _ H) as (Hlen3 & _).
  apply list_elem_of_lookup in Hc as [i0 Hi0].
  destruct (labelled_row _ _ _ _ _ _ _ _ H Hids Hi0) as (points & _ & _ & Ht & _).
  exists points. split; [exact Ht|]. split.
  - intros j i Hj.
    assert (Hi : labels !! i = Some c).
    { apply list_elem_of_lookup_2, elem_of_np_where in Hj as (x & Hx & Hxc).
      apply Z.eqb_eq in Hxc. congruence. }
    destruct (labelled_row _ _ _ _ _ _ _ _ H Hids Hi)
      as (points' & j' & closest & Ht' & Hj' & Hcl & Hrow).
    assert (points' = points) as -> by congruence.
    assert (j' = j) as ->
      by exact (NoDup_lookup _ _ _ _ (NoDup_np_where Z.eqb labels c) Hj' Hj).
    split; [eauto|]. apply lookup_lt_Some in Hrow. lia.
  - destruct (cluster_ssd_truthy _ _ Hz) as (x & Hx & Htr).
    unfold cluster_column in Hx. apply list_elem_of_omap in Hx as (i & Hw & Hx).
    apply elem_of_np_where in Hw as (cid & Hcid & Heq).
    assert (Hil : (i < length labels)%nat).
    { apply lookup_lt_Some in Hcid. rewrite length_column in Hcid. lia. }
    destruct (lookup_lt_is_Some_2 labels i Hil) as [c' Hi].
    destruct (labelled_row _ _ _ _ _ _ _ _ H Hids Hi)
      as (points' & j & closest & Ht' & Hj & Hcl & Hrow).
    rewrite (column_lookup 0 _ _ _ Hrow) in Hcid.
    rewrite (column_lookup 1 _ _ _ Hrow) in Hx. cbn in Hcid, Hx.
    apply (inj Some) in Hcid, Hx. subst cid x.
    assert (c' = c) as ->.
    { apply feqb_eq in Heq. apply Hdist; [|exact Hcl0|exact Heq].
      eapply list_elem_of_lookup_2, Hi. }
    assert (points' = points) as -> by congruence.
    exists j, i. split; done.
Qed.

Lemma labelled_tables_equal dat k labels ids ids' st0 st0' st3 st3' :
  distances_loop dat k (LabelArray labels) ids st0 = Ok st3 ->
  distances_loop dat k (LabelArray labels) ids' st0' = Ok st3' ->
  length st0 = length labels -> length st0' = length labels ->
  (forall c, c ∈ labels -> c ∈ ids) -> (forall c, c ∈ labels -> c ∈ ids') ->
  st3 = st3'.
Proof.
  intros H H' Hlen Hlen' Hids Hids'.
  pose proof (distances_loop_spec _ _ _ _ _ _ H) as (Hlen3 & _).
  pose proof (distances_loop_spec _ _ _ _ _ _ H') as (Hlen3' & _).
  apply list_eq. intros i.
  destruct (decide (i < length labels)%nat) as [Hi|Hi].
  - destruct (lookup_lt_is_Some_2 labels i Hi) as [c Hc].
    destruct (labelled_row _ _ _ _ _ _ _ _ H Hids Hc)
      as (points & j & closest & Ht & Hj & Hcl & ->).
    destruct (labelled_row _ _ _ _ _ _ _ _ H' Hids' Hc)
      as (points' & j' & closest' & Ht' & Hj' & Hcl' & ->).
    assert (points' = points) as -> by congruence.
    assert (j' = j) as ->
      by exact (NoDup_lookup _ _ _ _ (NoDup_np_where Z.eqb labels c) Hj' Hj).
    congruence.
  - rewrite !lookup_ge_None_2 by lia. done.
Qed.

(** A table of no rows is refused at line 104. *)
Lemma statistics_table_inhabited erf self st :
  statistics_table erf self st -> self.(data) <> [].
Proof.
  intros ((Hlen & _) & _ & _ & _ & _ & H7 & _ & H9 & Hs) Hnil.
  rewrite Hnil in Hlen. apply nil_length_inv in Hlen. subst st.
  cbn in Hs. discriminate.
Qed.

Section Runtime.
Variable erf : R -> R.
Variables set_order set_order' : list Z -> list Z.
Variables np_empty np_empty' : nat -> nat -> matrix.

Hypothesis set_order_ok : is_set_order set_order.
Hypothesis set_order_ok' : is_set_order set_order'.
Hypothesis np_empty_ok : is_np_empty np_empty.
Hypothesis np_empty_ok' : is_np_empty np_empty'.

(** When every observation has a label in an array (as it has without
    [cluster_labels]) and different labels are different ids in the
    table, a vector that [fit] returns depends neither on what [np.empty]
    found in memory nor on the order in which the set of line 119 yields
    the clusters: any other memory and order give the same vector and the
    same object. *)
Theorem scores_independent_of_runtime self v self' :
  length (labels_of self) = length self.(data) ->
  distinct_ids (labels_of self) ->
  fit erf set_order np_empty self = Ok (v, self') ->
  fit erf set_order' np_empty' self = Ok (v, self').
Proof.
  intros Hlab Hdist H. pose proof H as Hfit.
  apply fit_Ok in H as (st & self1 & Hp & _).
  pose proof (pipeline_Ok _ _ _ np_empty_ok _ _ _ Hp) as (_ & Htab & _).
  assert (Hgiven : labels_given self = labels_of self).
  { apply labels_given_of. intros Hnil.
    apply (statistics_table_inhabited _ _ _ Htab).
    rewrite Hnil in Hlab. symmetry in Hlab. apply nil_length_inv, Hlab. }
  clear Htab.
  pose proof (pipeline_Ok _ _ _ np_empty_ok _ _ _ Hp)
    as (_ & (_ & (dct & Hssd & _) & _) & st3 & Hd & Hpre).
  rewrite distance_stage_eq, Hgiven in Hd.
  destruct (distances_loop _ _ _ (set_order _) _) as [st3'| |] eqn:Hl; try discriminate.
  injection Hd as ->.
  set (labels := labels_of self) in *. set (n := length self.(data)) in *.
  assert (Hn : length (np_empty n 3) = length labels)
    by (rewrite (proj1 (np_empty_ok n 3%nat)); done).
  assert (Hn' : length (np_empty' n 3) = length labels)
    by (rewrite (proj1 (np_empty_ok' n 3%nat)); done).
  assert (Hids : forall c, c ∈ labels -> c ∈ set_order labels)
    by (intros c; apply set_order_ok).
  assert (Hids' : forall c, c ∈ labels -> c ∈ set_order' labels)
    by (intros c; apply set_order_ok').
  destruct (ready_progress self.(data) self.(n_neighbors) labels (set_order' labels)
              (np_empty' n 3)) as [st3' Hl'].
  { intros c Hc. apply (proj1 (proj2 (set_order_ok' labels) c)) in Hc.
    rewrite Hn', <- Hn.
    apply (run_ready _ _ _ _ _ _ _ Hl Hn Hids Hdist Hc).
    assert (Hrow : exists i, labels !! i = Some c) by (apply list_elem_of_lookup, Hc).
    destruct Hrow as [i Hi].
    destruct (labelled_row _ _ _ _ _ _ _ _ Hl Hids Hi)
      as (points & j & closest & _ & _ & _ & Hrow).
    unfold cluster_ssd.
    rewrite <- (cluster_column_ext 1 st st3) by (apply Hpre; lia).
    apply (ssd_loop_Ok_nonzero _ _ _ _ _ Hssd).
    apply elem_of_np_unique. rewrite (Hpre 0%nat) by lia.
    eapply list_elem_of_lookup_2. apply (column_lookup 0 _ _ _ Hrow). }
  assert (st3' = st3) as ->.
  { symmetry. eapply labelled_tables_equal; eauto. }
  rewrite <- Hfit. rewrite !fit_pipeline, !pipeline_split, !distance_stage_eq.
  rewrite Hgiven. fold labels n. rewrite Hl, Hl'. done.
Qed.
End Runtime.

(** ** A dataset of identical observations *)

Lemma identical_difference p :
  Forall (fun x => exists r, x = Fin r) p ->
  Forall (fun x => x = Fin 0) (zip_with fsub p p).
Proof.
  induction 1 as [|x p [r ->] Hp IH]; cbn; constructor; [|exact IH].
  f_equal. lra.
Qed.

Lemma identical_distances p n vec k :
  Forall (fun x => exists r, x = Fin r) p -> p <> [] -> (vec < n)%nat ->
  Forall (fun x => x = Fin 0)
    (neighborhood_distances (cluster_d (replicate n p)) vec k).
Proof.
  intros Hp Hne Hvec. unfold neighborhood_distances, py_slice.
  apply Forall_drop, Forall_take, Forall_forall. intros x Hx.
  apply elem_of_np_sort, list_elem_of_fmap in Hx as (row & -> & Hrow).
  unfold plane_column, cluster_d, np_tril, pairwise_diff in Hrow.
  rewrite <- !list_fmap_compose in Hrow.
  apply list_elem_of_fmap in Hrow as (pi & -> & Hpi).
  apply elem_of_replicate in Hpi as [-> _]. cbn.
  rewrite list_lookup_imap, list_lookup_fmap, lookup_replicate_2 by exact Hvec.
  cbn. apply np_mean_zeros.
  - destruct p; [done|]. discriminate.
  - apply Forall_fmap, Forall_forall. intros x Hx.
    apply list_elem_of_lookup in Hx as [f Hf].
    rewrite list_lookup_imap in Hf.
    destruct (zip_with fsub p p !! f) as [y|] eqn:Hy; [|done].
    cbn in Hf.
    assert (y = Fin 0) as ->.
    { pose proof (identical_difference p Hp) as Hz. rewrite Forall_forall in Hz.
      eapply Hz, list_elem_of_lookup_2, Hy. }
    assert (x = Fin 0) as -> by (destruct (decide _); congruence).
    change (fsqrt (fpow2 (Fin 0)) = Fin 0).
    rewrite fsqrt_fpow2. cbn. rewrite Rabs_R0. done.
Qed.

Lemma zeros_slice l :
  Forall (fun x => x = Fin 0) l -> (2 <= length l)%nat -> py_slice 1 2 l = [Fin 0].
Proof.
  intros Hl Hlen. destruct l as [|a [|b l]]; cbn in Hlen; try lia.
  apply Forall_cons in Hl as [_ Hl]. apply Forall_cons in Hl as [-> _].
  unfold py_slice. rewrite decide_False by lia. cbn [length].
  replace (Z.to_nat (Z.min 2 (Z.of_nat (S (S (length l)))))) with 2%nat by lia.
  reflexivity.
Qed.

Lemma identical_row p n vec k c :
  Forall (fun x => exists r, x = Fin r) p -> p <> [] ->
  (vec < n)%nat -> (3 <= n)%nat -> (2 <= k)%Z ->
  single_cluster_row c (cluster_d (replicate n p)) k vec
  = Some [fl_of_Z c; Fin 0; Fin 0].
Proof.
  intros Hp Hne Hvec Hn Hk. unfold single_cluster_row. cbv zeta.
  pose proof (identical_distances p n vec k Hp Hne Hvec) as Hz.
  assert (Hlen : (2 <= length (neighborhood_distances (cluster_d (replicate n p)) vec k))%nat).
  { unfold neighborhood_distances. rewrite length_py_slice by lia.
    rewrite length_np_sort, length_map. unfold plane_column.
    rewrite length_map, length_cluster_d, length_replicate. lia. }
  rewrite (zeros_slice _ Hz Hlen). rewrite np_mean_zeros; [done| |exact Hz].
  intros Hnil. rewrite Hnil in Hlen. cbn in Hlen. lia.
Qed.

Section Identical.
Variable erf : R -> R.
Variable set_order : list Z -> list Z.
Variable np_empty : nat -> nat -> matrix.

Hypothesis set_order_ok : is_set_order set_order.
Hypothesis np_empty_ok : is_np_empty np_empty.

(** Three or more copies of one observation with finite features, in
    one cluster and with two or more neighbours, halt at line 134: every
    neighbourhood distance is zero. *)
Theorem identical_observations_halt p n ext k labels c :
  valid_configuration ext k -> (2 <= k)%Z -> (3 <= n)%nat ->
  Forall (fun x => exists r, x = Fin r) p -> p <> [] ->
  labels = None \/ labels = Some (LabelArray (replicate n c)) ->
  loop erf set_order np_empty (replicate n p) ext k labels = Exit.
Proof.
  intros Hv Hk Hn Hp Hne Hl.
  rewrite (loop_single_cluster erf _ _ _ _ _ labels c set_order_ok np_empty_ok)
    by (rewrite length_replicate; exact Hl).
  unfold single_cluster_loop. rewrite (init_Ok _ _ _ _ Hv).
  destruct (replicate n p) as [|p0 dat'] eqn:Hd.
  { destruct n; [lia|discriminate]. }
  rewrite <- Hd. clear Hd p0 dat'.
  assert (Hcd : single_cluster_context (replicate n p) k
                = Some (replicate n (Fin 0))).
  { unfold single_cluster_context. rewrite length_replicate.
    assert (Hgen : forall m start, (start + m <= n)%nat ->
              mapM (fun vec => row ← single_cluster_row 0 (cluster_d (replicate n p)) k vec;
                               row !! 1%nat) (seq start m)
              = Some (replicate m (Fin 0))).
    { induction m as [|m IH]; intros start Hm; [done|].
      cbn [seq mapM]. rewrite (identical_row p n start k 0) by (done || lia).
      cbn. rewrite IH by lia. done. }
    apply Hgen. lia. }
  rewrite Hcd.
  assert (existsb truthy (replicate n (Fin 0)) = false) as ->.
  { clear. induction n as [|n IH]; [done|]. cbn.
    rewrite bool_decide_eq_false_2 by (intros H; apply H; reflexivity). exact IH. }
  reflexivity.
Qed.
End Identical.

(** ** The score grows with the context distance *)

Lemma dict_column_same dct st col i j cid :
  dict_column dct st = Ok col ->
  column 0 st !! i = Some cid -> column 0 st !! j = Some cid ->
  col !! i = col !! j.
Proof.
  intros Hc Hi Hj.
  destruct (dict_column_lookup _ _ _ _ _ Hc Hi) as (v & -> & Hv).
  destruct (dict_column_lookup _ _ _ _ _ Hc Hj) as (v' & -> & Hv').
  congruence.
Qed.

Lemma np_mean_positive l a :
  Forall nonneg l -> a ∈ l -> positive a -> positive (np_mean l).
Proof.
  intros Hl Ha Hp. unfold np_mean. apply fdiv_positive_count.
  - eapply np_sum_positive; eauto.
  - destruct l; [apply elem_of_nil in Ha; done|cbn; lia].
Qed.

(** The probabilistic set distance as a function of the context distance:
    finite, not negative, and growing. *)
Lemma prob_set_distance_monotone ssd e a b :
  positive ssd -> 0 < e -> 0 <= a <= b ->
  exists p q,
    fdiv (Fin 1) (fmul (Fin e) (fsqrt (fdiv ssd (fabs (Fin a))))) = Fin p /\
    fdiv (Fin 1) (fmul (Fin e) (fsqrt (fdiv ssd (fabs (Fin b))))) = Fin q /\
    0 <= p <= q.
Proof.
  intros Hs He [Ha Hab].
  assert (Hinf : forall c, 0 <= c ->
            fdiv (Fin 1) (fmul (Fin e) (fsqrt (fdiv PInf (fabs (Fin c))))) = Fin 0).
  { intros c Hc. cbn. rewrite Rabs_pos_eq by exact Hc.
    rewrite bool_decide_eq_true_2 by exact Hc. cbn.
    rewrite decide_False by lra. rewrite bool_decide_eq_true_2 by lra. done. }
  assert (Hzero : forall x, 0 < x ->
            fdiv (Fin 1) (fmul (Fin e) (fsqrt (fdiv (Fin x) (fabs (Fin 0))))) = Fin 0).
  { intros x Hx. cbn. rewrite Rabs_R0, decide_True by done.
    rewrite decide_False by lra. rewrite bool_decide_eq_true_2 by lra. cbn.
    rewrite decide_False by lra. rewrite bool_decide_eq_true_2 by lra. done. }
  assert (Hpos : forall x c, 0 < x -> 0 < c ->
            fdiv (Fin 1) (fmul (Fin e) (fsqrt (fdiv (Fin x) (fabs (Fin c)))))
            = Fin (1 / (e * sqrt (x / c))) /\ 0 < sqrt (x / c)).
  { intros x c Hx Hc.
    assert (Hq : 0 < x / c) by (apply Rdiv_lt_0_compat; lra).
    assert (Hr : 0 < sqrt (x / c)) by (apply sqrt_lt_R0, Hq).
    split; [|exact Hr]. cbn. rewrite Rabs_pos_eq by lra.
    rewrite decide_False by lra. cbn. rewrite decide_False by lra. cbn.
    rewrite decide_False by nra. done. }
  destruct ssd as [| | |x]; cbn in Hs; try done.
  - exists 0, 0. rewrite !Hinf by lra. split; [done|]. split; [done|lra].
  - destruct (decide (a = 0)) as [->|Ha0].
    + destruct (decide (b = 0)) as [->|Hb0].
      * exists 0, 0. rewrite !Hzero by done. split; [done|]. split; [done|lra].
      * destruct (Hpos x b Hs ltac:(lra)) as [-> Hr].
        exists 0, (1 / (e * sqrt (x / b))). rewrite Hzero by done.
        split; [done|]. split; [done|]. split; [lra|].
        apply Rlt_le, Rdiv_lt_0_compat; nra.
    + destruct (Hpos x a Hs ltac:(lra)) as [-> Hra].
      destruct (Hpos x b Hs ltac:(lra)) as [-> Hrb].
      eexists _, _. split; [reflexivity|]. split; [reflexivity|]. split.
      * apply Rlt_le, Rdiv_lt_0_compat; nra.
      * assert (Hle : sqrt (x / b) <= sqrt (x / a)).
        { apply sqrt_le_1_alt. unfold Rdiv. apply Rmult_le_compat_l; [lra|].
          apply Rinv_le_contravar; lra. }
        unfold Rdiv. rewrite !Rmult_1_l. apply Rinv_le_contravar; nra.
Qed.

(** The last stage keeps the order of two outlier factors over one
    positive normalisation factor. *)
Lemma score_monotone erf n p q :
  (forall x y, x <= y -> erf x <= erf y) -> positive n -> p <= q ->
  exists x y,
    fmax0 (ferf erf (fdiv (Fin p) n)) = Fin x /\
    fmax0 (ferf erf (fdiv (Fin q) n)) = Fin y /\ x <= y.
Proof.
  intros Herf Hn Hpq. destruct n as [| | |z]; cbn in Hn; try done.
  - cbn. eexists _, _. split; [reflexivity|]. split; [reflexivity|]. lra.
  - rewrite !fdiv_Fin by lra. cbn. eexists _, _.
    split; [reflexivity|]. split; [reflexivity|].
    apply Rle_max_compat_l, Herf. unfold Rdiv.
    apply Rmult_le_compat_r; [|exact Hpq]. apply Rlt_le, Rinv_0_lt_compat, Hn.
Qed.

(** A score is NaN or finite. *)
Lemma score_value erf a :
  fmax0 (ferf erf a) = NaN \/ exists x, fmax0 (ferf erf a) = Fin x.
Proof. destruct a; cbn; eauto. Qed.

Lemma le_or_nan_refl a : (a = NaN \/ exists x, a = Fin x) -> le_or_nan a a.
Proof.
  intros [->|[x ->]]; [left; done|right]. exists x, x. split; [done|]. split; [done|lra].
Qed.

Section Monotone.
Variable erf : R -> R.
Variable set_order : list Z -> list Z.
Variable np_empty : nat -> nat -> matrix.

Hypothesis set_order_ok : is_set_order set_order.
Hypothesis np_empty_ok : is_np_empty np_empty.
Hypothesis erf_monotone : forall x y, x <= y -> erf x <= erf y.

End Monotone.

(** ** Clusters are scored one by one *)

(** The entries of a column on the rows of one cluster depend on these
    rows only. *)
Lemma cluster_column_rows_ext k st st' cid :
  column 0 st = column 0 st' ->
  (forall i, column 0 st !! i = Some cid -> column k st !! i = column k st' !! i) ->
  cluster_column k st cid = cluster_column k st' cid.
Proof.
  intros H0 Hk. unfold cluster_column. rewrite <- H0.
  apply list_omap_ext, Forall_Forall2_diag, Forall_forall. intros i Hi.
  apply elem_of_np_where in Hi as (x & Hx & Heq).
  apply feqb_eq in Heq as ->. apply Hk, Hx.
Qed.

Lemma np_take_ext {A} (a b : list A) idx :
  (forall i, i ∈ idx -> a !! i = b !! i) -> np_take a idx = np_take b idx.
Proof.
  intros H. unfold np_take.
  assert (mapM (fun i => a !! i) idx = mapM (fun i => b !! i) idx) as ->; [|done].
  induction idx as [|i idx IH]; [done|]. cbn.
  rewrite (H i) by left. rewrite IH; [done|]. intros j Hj. apply H. right. exact Hj.
Qed.

(** The three cluster statistics of a row, from the rows of its cluster. *)
Lemma statistics_table_cluster erf self st i cid :
  statistics_table erf self st -> column 0 st !! i = Some cid ->
  column 3 st !! i = Some (cluster_ssd st cid) /\
  column 6 st !! i = Some (np_mean (nonan (cluster_column 5 st cid))) /\
  column 8 st !! i
  = Some (let l := nonan (cluster_column 7 st cid) in
          fdiv (np_sum (map fpow2 l)) (Fin (INR (length l)))).
Proof.
  intros (_ & (d3 & Hl & H3) & _ & _ & H6 & _ & H8 & _) Hi.
  split; [|split].
  - destruct (dict_column_lookup _ _ _ _ _ H3 Hi) as (v & -> & Hg).
    apply (dict_of_get _ _ _ _ (ssd_loop_dict_of _ _ _ _ Hl ltac:(constructor))) in Hg
      as [-> _].
    done.
  - destruct (dict_column_lookup _ _ _ _ _ H6 Hi) as (v & -> & Hg).
    apply (dict_of_get _ _ _ _ (prob_set_distance_ev_dict_of _ _)) in Hg as [-> _].
    done.
  - destruct (dict_column_lookup _ _ _ _ _ H8 Hi) as (v & -> & Hg).
    apply (dict_of_get _ _ _ _ (prob_local_outlier_factor_ev_dict_of _ _)) in Hg
      as [-> _].
    done.
Qed.

Section Locality.
Variable erf : R -> R.
Variables set_order set_order' : list Z -> list Z.
Variables np_empty np_empty' : nat -> nat -> matrix.

Hypothesis set_order_ok : is_set_order set_order.
Hypothesis set_order_ok' : is_set_order set_order'.
Hypothesis np_empty_ok : is_np_empty np_empty.
Hypothesis np_empty_ok' : is_np_empty np_empty'.

(** The scores of a cluster depend on the observations of that cluster
    only: two datasets with the same array of labels, one for every
    observation and different labels different ids in the table, that
    agree on the members of cluster [c], score these members the same,
    whatever the other observations are (and whatever the memory and the
    set order of either run). *)
Theorem clusters_are_scored_independently self1 self2 v1 v2 self1' self2' c i :
  self1.(extent) = self2.(extent) ->
  self1.(n_neighbors) = self2.(n_neighbors) ->
  labels_of self1 = labels_of self2 ->
  length (labels_of self1) = length self1.(data) ->
  length (labels_of self2) = length self2.(data) ->
  distinct_ids (labels_of self1) ->
  (forall i, labels_of self1 !! i = Some c -> self1.(data) !! i = self2.(data) !! i) ->
  fit erf set_order np_empty self1 = Ok (v1, self1') ->
  fit erf set_order' np_empty' self2 = Ok (v2, self2') ->
  labels_of self1 !! i = Some c ->
  v1 !! i = v2 !! i.
Proof.
  intros He Hk Hlab Hn1 Hn2 Hdist Hdat H1 H2 Hi.
  apply fit_Ok in H1 as (st1 & s1 & Hp1 & -> & _).
  apply fit_Ok in H2 as (st2 & s2 & Hp2 & -> & _).
  pose proof (pipeline_Ok _ _ _ np_empty_ok _ _ _ Hp1)
    as (_ & Ht1 & st31 & Hd1 & Hpre1).
  pose proof (pipeline_Ok _ _ _ np_empty_ok' _ _ _ Hp2)
    as (_ & Ht2 & st32 & Hd2 & Hpre2).
  assert (Hg1 : labels_given self1 = labels_of self1).
  { apply labels_given_of. intros Hnil.
    apply (statistics_table_inhabited _ _ _ Ht1).
    rewrite Hnil in Hn1. symmetry in Hn1. apply nil_length_inv, Hn1. }
  assert (Hg2 : labels_given self2 = labels_of self2).
  { apply labels_given_of. intros Hnil.
    apply (statistics_table_inhabited _ _ _ Ht2).
    rewrite Hnil in Hn2. symmetry in Hn2. apply nil_length_inv, Hn2. }
  rewrite <- Hlab in Hg2.
  set (labels := labels_of self1) in *. set (cid := fl_of_Z c).
  (* the cluster ids are the labels, in both tables *)
  assert (Hid1 : forall j c', labels !! j = Some c' ->
            column 0 st1 !! j = Some (fl_of_Z c')).
  { intros j c' Hj.
    apply (table_cluster_id _ _ _ set_order_ok np_empty_ok _ _ _ _ _ Hp1 Hj). }
  assert (Hid2 : forall j c', labels !! j = Some c' ->
            column 0 st2 !! j = Some (fl_of_Z c')).
  { intros j c' Hj. rewrite Hlab in Hj.
    apply (table_cluster_id _ _ _ set_order_ok' np_empty_ok' _ _ _ _ _ Hp2 Hj). }
  assert (Hlen1 : length st1 = length labels).
  { destruct Ht1 as ([-> _] & _). done. }
  assert (Hlen2 : length st2 = length labels).
  { destruct Ht2 as ([-> _] & _). rewrite <- Hlab in Hn2. done. }
  assert (H0 : column 0 st1 = column 0 st2).
  { apply list_eq. intros j.
    destruct (decide (j < length labels)%nat) as [Hj|Hj].
    - destruct (lookup_lt_is_Some_2 labels j Hj) as [c' Hc'].
      rewrite (Hid1 _ _ Hc'), (Hid2 _ _ Hc'). done.
    - rewrite !lookup_ge_None_2 by (rewrite length_column; lia). done. }
  assert (Hmem : forall j, column 0 st1 !! j = Some cid -> labels !! j = Some c).
  { intros j Hj.
    assert (Hjl : (j < length labels)%nat).
    { apply lookup_lt_Some in Hj. rewrite length_column in Hj. lia. }
    destruct (lookup_lt_is_Some_2 labels j Hjl) as [c' Hc'].
    rewrite (Hid1 _ _ Hc') in Hj. apply (inj Some) in Hj.
    apply Hdist in Hj as ->; [exact Hc'| |];
      eapply list_elem_of_lookup_2; eassumption. }
  (* the context distances of the members of the cluster *)
  assert (Hcd : forall j, column 0 st1 !! j = Some cid ->
            column 1 st1 !! j = column 1 st2 !! j).
  { intros j Hj. apply Hmem in Hj.
    rewrite (Hpre1 1%nat), (Hpre2 1%nat) by lia.
    rewrite distance_stage_eq in Hd1, Hd2. rewrite Hg1 in Hd1. rewrite Hg2 in Hd2.
    destruct (distances_loop _ _ _ (set_order _) _) as [t1| |] eqn:Hl1;
      try discriminate.
    destruct (distances_loop _ _ _ (set_order' _) _) as [t2| |] eqn:Hl2;
      try discriminate.
    injection Hd1 as ->. injection Hd2 as ->.
    fold labels in Hl1. rewrite <- Hlab, <- Hk in Hl2. fold labels in Hl2.
    destruct (labelled_row _ _ _ _ _ _ _ _ Hl1
                (fun c' => proj2 (proj2 (set_order_ok labels) c')) Hj)
      as (points & j1 & closest & Ht & Hj1 & _ & Hrow1).
    destruct (labelled_row _ _ _ _ _ _ _ _ Hl2
                (fun c' => proj2 (proj2 (set_order_ok' labels) c')) Hj)
      as (points' & j2 & closest' & Ht' & Hj2 & _ & Hrow2).
    assert (points' = points) as ->.
    { rewrite (np_take_ext self1.(data) self2.(data)) in Ht; [congruence|].
      intros i' Hi'. apply Hdat.
      apply elem_of_np_where in Hi' as (x & Hx & Hxc).
      apply Z.eqb_eq in Hxc. congruence. }
    assert (j2 = j1) as ->
      by exact (NoDup_lookup _ _ _ _ (NoDup_np_where Z.eqb labels c) Hj2 Hj1).
    rewrite (column_lookup 1 _ _ _ Hrow1), (column_lookup 1 _ _ _ Hrow2). done. }
  (* the rows of the cluster, column after column *)
  assert (Hrows : forall j, column 0 st1 !! j = Some cid ->
            column 5 st1 !! j = column 5 st2 !! j /\
            (cluster_column 5 st1 cid = cluster_column 5 st2 cid ->
             column 7 st1 !! j = column 7 st2 !! j /\
             (cluster_column 7 st1 cid = cluster_column 7 st2 cid ->
              column 10 st1 !! j = column 10 st2 !! j))).
  { intros j Hj. pose proof Hj as Hj'. rewrite H0 in Hj'.
    destruct (lookup_lt_is_Some_2 (column 1 st1) j) as [cd Hcd1].
    { apply lookup_lt_Some in Hj. rewrite length_column in *. done. }
    pose proof Hcd1 as Hcd2. rewrite (Hcd j Hj) in Hcd2.
    destruct (statistics_table_row _ _ _ _ _ Ht1 Hcd1)
      as (ssd & ev & evsq & H3 & H6 & H8 & H5 & H7 & H10).
    destruct (statistics_table_row _ _ _ _ _ Ht2 Hcd2)
      as (ssd' & ev' & evsq' & H3' & H6' & H8' & H5' & H7' & H10').
    cbv zeta in H5, H7, H10, H5', H7', H10'.
    destruct (statistics_table_cluster _ _ _ _ _ Ht1 Hj) as (C3 & C6 & C8).
    destruct (statistics_table_cluster _ _ _ _ _ Ht2 Hj') as (C3' & C6' & C8').
    cbv zeta in C8, C8'.
    assert (ssd' = ssd) as ->.
    { rewrite C3 in H3. rewrite C3' in H3'. unfold cluster_ssd in *.
      rewrite (cluster_column_rows_ext 1 st1 st2 cid H0 Hcd) in H3. congruence. }
    rewrite <- He in *.
    split; [congruence|]. intros E5.
    assert (ev' = ev) as ->.
    { rewrite C6 in H6. rewrite C6' in H6'. rewrite E5 in H6. congruence. }
    split; [congruence|]. intros E7.
    assert (evsq' = evsq) as ->.
    { rewrite C8 in H8. rewrite C8' in H8'. rewrite E7 in H8. congruence. }
    congruence. }
  assert (E5 : cluster_column 5 st1 cid = cluster_column 5 st2 cid).
  { apply cluster_column_rows_ext; [exact H0|]. intros j Hj. apply Hrows, Hj. }
  assert (E7 : cluster_column 7 st1 cid = cluster_column 7 st2 cid).
  { apply cluster_column_rows_ext; [exact H0|]. intros j Hj.
    apply (proj2 (Hrows j Hj)), E5. }
  apply (proj2 (proj2 (Hrows i (Hid1 _ _ Hi)) E5)), E7.
Qed.
End Locality.

(** ** When the stages after the distances return *)

Lemma dict_get_set_old dct k v x :
  is_Some (dict_get dct x) -> is_Some (dict_get (dict_set dct k v) x).
Proof.
  induction dct as [|[k' v'] dct IH]; cbn; [intros [? [=]]|].
  destruct (feqb k' k) eqn:Hk; cbn; destruct (feqb k' x); eauto.
Qed.

Lemma dict_get_set_new dct k v :
  feqb k k = true -> is_Some (dict_get (dict_set dct k v) k).
Proof.
  intros Hk. induction dct as [|[k' v'] dct IH]; cbn; [rewrite Hk; eauto|].
  destruct (feqb k' k) eqn:Hk'; cbn; rewrite Hk'; eauto.
Qed.

Lemma dict_foldl_keys (f : fl -> fl) ids dct x :
  is_Some (dict_get dct x) \/ (x ∈ ids /\ feqb x x = true) ->
  is_Some (dict_get (foldl (fun dct c => dict_set dct c (f c)) dct ids) x).
Proof.
  revert dct. induction ids as [|c ids IH]; intros dct; cbn.
  - intros [H|[H _]]; [exact H|inversion H].
  - intros [H|[H Hx]]; apply IH.
    + left. apply dict_get_set_old, H.
    + apply elem_of_cons in H as [->|H]; [left|right; done].
      apply dict_get_set_new, Hx.
Qed.

Lemma ssd_loop_progress st ids dct :
  (forall c, c ∈ ids -> feqb (cluster_ssd st c) (Fin 0) = false) ->
  exists dct', ssd_loop st ids dct = Ok dct' /\
    forall x, is_Some (dict_get dct x) \/ (x ∈ ids /\ feqb x x = true) ->
      is_Some (dict_get dct' x).
Proof.
  revert dct. induction ids as [|c ids IH]; intros dct H; cbn.
  - exists dct. split; [done|]. intros x [Hx|[Hx _]]; [exact Hx|inversion Hx].
  - fold (cluster_ssd st c). rewrite (H c) by left.
    destruct (IH (dict_set dct c (cluster_ssd st c))) as (dct' & -> & Hkeys).
    { intros c' Hc'. apply H. right. exact Hc'. }
    exists dct'. split; [done|]. intros x [Hx|[Hx Hxx]]; apply Hkeys.
    + left. apply dict_get_set_old, Hx.
    + apply elem_of_cons in Hx as [->|Hx]; [left|right; done].
      apply dict_get_set_new, Hxx.
Qed.

Lemma dict_column_progress dct st :
  (forall x, x ∈ column 0 st -> is_Some (dict_get dct x)) ->
  exists c, dict_column dct st = Ok c /\ length c = length st.
Proof.
  intros H. unfold dict_column.
  destruct (mapM (dict_get dct) (column 0 st)) as [c|] eqn:Hm.
  - exists c. split; [done|]. apply mapM_result_length in Hm.
    rewrite length_column in Hm. done.
  - exfalso. assert (Hs : is_Some (mapM (dict_get dct) (column 0 st))).
    { apply mapM_is_Some, Forall_forall. exact H. }
    rewrite Hm in Hs. destruct Hs as [? [=]].
Qed.

(** An id whose sum of squares is not zero is not NaN. *)
Lemma nonzero_ssd_id st cid :
  feqb (cluster_ssd st cid) (Fin 0) = false -> feqb cid cid = true.
Proof.
  intros H. destruct cid as [| | |x]; cbn; try done.
  - exfalso. assert (Hnil : cluster_column 1 st NaN = []).
    { unfold cluster_column.
      assert (np_where feqb (column 0 st) NaN = []) as ->; [|done].
      destruct (np_where feqb (column 0 st) NaN) as [|i l] eqn:E; [done|].
      assert (Hi : i ∈ np_where feqb (column 0 st) NaN) by (rewrite E; left).
      apply elem_of_np_where in Hi as (y & _ & Hy). destruct y; discriminate. }
    unfold cluster_ssd in H. rewrite Hnil in H. cbn in H.
    rewrite bool_decide_eq_true_2 in H; done.
  - apply bool_decide_eq_true_2. done.
Qed.

Section Progress.
Variable erf : R -> R.

(** The stages return when no cluster id has a zero sum of squares. *)
Lemma statistics_stages_progress n st3 self :
  shape n 3 st3 -> (0 < n)%nat ->
  (forall cid, cid ∈ column 0 st3 -> feqb (cluster_ssd st3 cid) (Fin 0) = false) ->
  exists st self', statistics_stages erf st3 self = Ok (st, self').
Proof.
  intros S3 Hn Hz.
  set (u := np_unique (column 0 st3)).
  assert (Hkey : forall st, column 0 st = column 0 st3 ->
            forall x, x ∈ column 0 st -> x ∈ u /\ feqb x x = true).
  { intros st H0 x Hx. rewrite H0 in Hx. split; [apply elem_of_np_unique, Hx|].
    eapply nonzero_ssd_id, Hz, Hx. }
  destruct (ssd_loop_progress st3 u []) as (d3 & Hl & Hk3).
  { intros c Hc. apply Hz, elem_of_np_unique, Hc. }
  destruct (dict_column_progress d3 st3) as (c3 & Hc3 & L3).
  { intros x Hx. apply Hk3. right. apply (Hkey st3 eq_refl x Hx). }
  destruct S3 as [Hlen Hw]. rewrite Hlen in L3.
  pose proof (conj Hlen Hw : shape n 3 st3) as S3.
  unfold statistics_stages, mbind, M_bind, bind.
  assert (E3 : _ssd st3 self = Ok (hstack st3 c3, with_u self u)).
  { unfold _ssd, mbind, M_bind, bind, get_self, put_self, lift. cbn.
    fold u. rewrite Hl, Hc3. done. }
  rewrite E3. set (st4 := hstack st3 c3). set (s := with_u self u).
  assert (S4 : shape n 4 st4) by (apply shape_hstack; done).
  set (c4 := _standard_distance (column 1 st4) (column 3 st4)).
  assert (E4 : _standard_distances st4 s = Ok (hstack st4 c4, s)) by done.
  rewrite E4. set (st5 := hstack st4 c4).
  assert (S5 : shape n 5 st5).
  { apply shape_hstack; [done|]. unfold c4.
    rewrite length_standard_distance; rewrite !length_column; destruct S4; lia. }
  set (c5 := _prob_set_distance s.(extent) (column 4 st5)).
  assert (E5 : _prob_set_distances st5 s = Ok (hstack st5 c5, s)) by done.
  rewrite E5. set (st6 := hstack st5 c5).
  assert (S6 : shape n 6 st6).
  { apply shape_hstack; [done|]. unfold c5, _prob_set_distance.
    rewrite length_map, length_column. destruct S5; lia. }
  assert (C4 : column 0 st4 = column 0 st3)
    by (apply (column_hstack_old n 3); [done|done|lia]).
  assert (C5 : column 0 st5 = column 0 st3).
  { unfold st5. rewrite (column_hstack_old n 4); [done|done| |lia].
    unfold c4. rewrite length_standard_distance; rewrite !length_column;
      destruct S4; lia. }
  assert (C6 : column 0 st6 = column 0 st3).
  { unfold st6. rewrite (column_hstack_old n 5); [done|done| |lia].
    unfold c5, _prob_set_distance. rewrite length_map, length_column.
    destruct S5; lia. }
  destruct (dict_column_progress (prob_set_distance_ev_dict st6 u) st6)
    as (c6 & Hc6 & L6).
  { intros x Hx. apply dict_foldl_keys. right. apply (Hkey st6 C6 x Hx). }
  assert (E6 : _prob_set_distances_ev st6 s = Ok (hstack st6 c6, s)).
  { unfold _prob_set_distances_ev, mbind, M_bind, bind, get_self, lift. cbn.
    rewrite Hc6. done. }
  rewrite E6. set (st7 := hstack st6 c6).
  assert (L6' : length c6 = n) by (destruct S6; lia).
  assert (S7 : shape n 7 st7) by (apply shape_hstack; done).
  set (c7 := _prob_outlier_factor (column 5 st7) (column 6 st7)).
  assert (E7 : _prob_local_outlier_factors st7 s = Ok (hstack st7 c7, s)) by done.
  rewrite E7. set (st8 := hstack st7 c7).
  assert (L7 : length c7 = n).
  { unfold c7. rewrite length_prob_outlier_factor; rewrite !length_column;
      destruct S7; lia. }
  assert (S8 : shape n 8 st8) by (apply shape_hstack; done).
  assert (C8 : column 0 st8 = column 0 st3).
  { unfold st8. rewrite (column_hstack_old n 7); [|done|done|lia].
    unfold st7. rewrite (column_hstack_old n 6); [done|done|done|lia]. }
  destruct (dict_column_progress (prob_local_outlier_factor_ev_dict st8 u) st8)
    as (c8 & Hc8 & L8).
  { intros x Hx. apply dict_foldl_keys. right. apply (Hkey st8 C8 x Hx). }
  assert (E8 : _prob_local_outlier_factors_ev st8 s = Ok (hstack st8 c8, s)).
  { unfold _prob_local_outlier_factors_ev, mbind, M_bind, bind, get_self, lift. cbn.
    rewrite Hc8. done. }
  rewrite E8. set (st9 := hstack st8 c8).
  assert (L8' : length c8 = n) by (destruct S8; lia).
  assert (S9 : shape n 9 st9) by (apply shape_hstack; done).
  set (c9 := _norm_prob_outlier_factor s.(extent) (column 8 st9)).
  assert (E9 : _norm_prob_local_outlier_factors st9 s = Ok (hstack st9 c9, s)) by done.
  rewrite E9. set (st10 := hstack st9 c9).
  assert (L9 : length c9 = n).
  { unfold c9, _norm_prob_outlier_factor. rewrite length_map, length_column.
    destruct S9; lia. }
  assert (S10 : shape n 10 st10) by (apply shape_hstack; done).
  unfold _local_outlier_probabilities, mbind, M_bind, bind, lift.
  unfold _local_outlier_probability. cbv zeta.
  destruct (zip_with fdiv (column 7 st10) _) as [|q arg] eqn:Hzip.
  - exfalso. apply (f_equal length) in Hzip.
    rewrite length_zip_with, length_map, !length_column in Hzip.
    destruct S10 as [Hl10 _]. cbn in Hzip. lia.
  - eauto.
Qed.

(** On a table with at least one row the eight stages after
    [_distances] never end in an exception: they halt at line 147 when the
    sum of squares of some cluster id is zero (an id that is NaN among
    them), and return the finished table otherwise.  No dictionary lookup
    of lines 149, 168 and 186 misses. *)
Theorem statistics_stages_never_raise n st3 self :
  shape n 3 st3 -> (0 < n)%nat ->
  (statistics_stages erf st3 self = Exit /\
   exists cid, cid ∈ column 0 st3 /\ cluster_ssd st3 cid = Fin 0) \/
  ((exists st self', statistics_stages erf st3 self = Ok (st, self')) /\
   forall cid, cid ∈ column 0 st3 -> cluster_ssd st3 cid <> Fin 0).
Proof.
  intros S3 Hn.
  destruct (decide (Exists (fun cid => cluster_ssd st3 cid = Fin 0) (column 0 st3)))
    as [Hex|Hall].
  - left. apply Exists_exists in Hex as (cid & Hcid & Hz). split; [|eauto].
    unfold statistics_stages, mbind, M_bind, bind.
    assert (_ssd st3 self = Exit) as ->; [|done].
    unfold _ssd, mbind, M_bind, bind, get_self, put_self, lift. cbn.
    rewrite (ssd_loop_Exit _ _ _ cid); [done| |exact Hz].
    apply elem_of_np_unique, Hcid.
  - right. apply not_Exists_Forall in Hall; [|intros x; apply _].
    rewrite Forall_forall in Hall. split; [|exact Hall].
    apply (statistics_stages_progress n); [done|done|].
    intros cid Hcid. destruct (feqb _ _) eqn:Hf; [|done].
    apply feqb_eq in Hf. destruct (Hall cid Hcid Hf).
Qed.
End Progress.

(** ** The calls that return *)

Lemma np_take_cluster_points dat labels c :
  (length labels <= length dat)%nat ->
  np_take dat (np_where Z.eqb labels c) = Ok (cluster_points dat labels c) /\
  length (cluster_points dat labels c) = cluster_size labels c.
Proof.
  intros Hlen. unfold np_take, cluster_points, cluster_size.
  assert (Hin : forall i, i ∈ np_where Z.eqb labels c -> is_Some (dat !! i)).
  { intros i Hi. apply elem_of_np_where in Hi as (x & Hx & _).
    apply lookup_lt_is_Some. apply lookup_lt_Some in Hx. lia. }
  induction (np_where Z.eqb labels c) as [|i idx IH]; [done|].
  destruct (Hin i) as [row Hrow]; [left|].
  destruct IH as [IH1 IH2]; [intros j Hj; apply Hin; right; exact Hj|].
  cbn. rewrite Hrow. cbn.
  destruct (mapM (fun i => dat !! i) idx) as [rows|]; [|discriminate].
  injection IH1 as ->. cbn. split; [done|]. rewrite IH2. done.
Qed.

Lemma slice_of_two l : (2 <= length l)%nat -> exists x, py_slice 1 2 l = [x].
Proof.
  intros Hlen. destruct l as [|a [|b l]]; cbn in Hlen; try lia.
  exists b. unfold py_slice. rewrite decide_False by lia. cbn [length].
  replace (Z.to_nat (Z.min 2 (Z.of_nat (S (S (length l)))))) with 2%nat by lia.
  reflexivity.
Qed.

Lemma member_slice points vec k :
  (2 <= k)%Z -> (3 <= length points)%nat ->
  exists closest,
    py_slice 1 2 (neighborhood_distances (cluster_d points) vec k) = [closest].
Proof.
  intros Hk Hn. apply slice_of_two.
  unfold neighborhood_distances. rewrite length_py_slice by lia.
  rewrite length_np_sort, length_map. unfold plane_column.
  rewrite length_map, length_cluster_d. lia.
Qed.

(** A sum of squares other than zero has a term that is neither zero nor
    NaN. *)
Lemma cluster_ssd_member st c :
  feqb (cluster_ssd st c) (Fin 0) = false ->
  exists x, x ∈ cluster_column 1 st c /\ isnan x = false /\ x <> Fin 0.
Proof.
  intros Hz.
  destruct (decide (Exists (fun x => isnan x = false /\ x <> Fin 0)
                      (cluster_column 1 st c))) as [Hex|Hall].
  - apply Exists_exists in Hex as (x & Hx & Hn & Hne). eauto.
  - exfalso. apply not_Exists_Forall in Hall; [|intros x; apply _].
    rewrite Forall_forall in Hall.
    assert (Hs : cluster_ssd st c = Fin 0).
    { unfold cluster_ssd. apply np_sum_zeros, Forall_fmap, Forall_forall.
      intros x Hx. apply list_elem_of_filter in Hx as [Hn Hx]. cbn.
      destruct (decide (x = Fin 0)) as [->|Hne]; [cbn; f_equal; lra|].
      destruct (Hall x Hx). split; done. }
    rewrite Hs in Hz. cbn in Hz. rewrite bool_decide_eq_true_2 in Hz; done.
Qed.

Lemma member_ssd_nonzero st c x :
  x ∈ cluster_column 1 st c -> isnan x = false -> x <> Fin 0 ->
  feqb (cluster_ssd st c) (Fin 0) = false.
Proof.
  intros Hx Hn Hne.
  assert (Hp : positive (cluster_ssd st c)).
  { unfold cluster_ssd. apply (np_sum_positive _ (fpow2 x)).
    - apply nonan_squares_nonneg.
    - apply list_elem_of_fmap. exists x. split; [done|].
      apply list_elem_of_filter. done.
    - destruct x as [| | |r]; try done. apply fpow2_positive. congruence. }
  destruct (cluster_ssd st c) as [| | |r]; cbn in *; try done.
  apply bool_decide_eq_false_2. lra.
Qed.

Section Returns.
Variable erf : R -> R.
Variable set_order : list Z -> list Z.
Variable np_empty : nat -> nat -> matrix.

Hypothesis set_order_ok : is_set_order set_order.
Hypothesis np_empty_ok : is_np_empty np_empty.

(** The rows of the table after the distance stage, every observation
    labelled. *)
Lemma labelled_table dat k labels st3 :
  length labels = length dat ->
  distances_loop dat k (LabelArray labels) (set_order labels) (np_empty (length dat) 3) = Ok st3 ->
  forall i c, labels !! i = Some c ->
    exists vec closest,
      np_where Z.eqb labels c !! vec = Some i /\
      py_slice 1 2 (neighborhood_distances
                      (cluster_d (cluster_points dat labels c)) vec k) = [closest] /\
      st3 !! i = Some [fl_of_Z c;
                       neighborhood_dist (cluster_points dat labels c) vec k;
                       closest].
Proof.
  intros Hlen Hl i c Hi.
  destruct (labelled_row _ _ _ _ _ _ _ _ Hl
              (fun c' => proj2 (proj2 (set_order_ok labels) c')) Hi)
    as (points & vec & closest & Ht & Hvec & Hcl & Hrow).
  destruct (np_take_cluster_points dat labels c) as [Ht' _]; [lia|].
  assert (points = cluster_points dat labels c) as -> by congruence.
  eauto.
Qed.

(** Calls that return, every observation labelled. *)
Lemma scorable_call_returns dat ext k labels :
  let ls := array_labels (default (LabelArray (replicate (length dat) 0%Z)) labels) in
  length ls = length dat ->
  valid_configuration ext k -> dat <> [] -> (2 <= k)%Z ->
  (forall c, c ∈ ls -> scorable dat k ls c) ->
  exists v, loop erf set_order np_empty dat ext k labels = Ok v.
Proof.
  intros ls Hlen Hv Hne Hk Hsc. set (self := mkLoOP dat ext k labels None None).
  assert (Hready : forall c, c ∈ set_order ls ->
            cluster_ready dat k ls (length (np_empty (length dat) 3)) c).
  { intros c Hc. apply (proj1 (proj2 (set_order_ok ls) c)) in Hc.
    destruct (Hsc c Hc) as (Hm & vec & Hvec & Hn & Hnz).
    destruct (np_take_cluster_points dat ls c) as [Ht Hsize]; [lia|].
    exists (cluster_points dat ls c). split; [exact Ht|]. split.
    - intros j i Hj. split; [apply member_slice; lia|].
      rewrite (proj1 (np_empty_ok (length dat) 3%nat)).
      apply list_elem_of_lookup_2, elem_of_np_where in Hj as (x & Hx & _).
      apply lookup_lt_Some in Hx. lia.
    - destruct (lookup_lt_is_Some_2 (np_where Z.eqb ls c) vec) as [i Hi];
        [exact Hvec|].
      exists vec, i. split; [exact Hi|].
      fold (neighborhood_dist (cluster_points dat ls c) vec k).
      destruct (neighborhood_dist _ _ _) as [| | |x]; try done.
      apply bool_decide_eq_true_2. congruence. }
  destruct (ready_progress _ _ _ _ _ Hready) as [st3 Hl].
  assert (S3 : shape (length dat) 3 st3).
  { eapply distances_loop_shape; [exact Hl|apply np_empty_ok]. }
  destruct (statistics_stages_progress erf (length dat) st3 self S3)
    as (st & s1 & Hs).
  { destruct dat; [done|cbn; lia]. }
  { intros cid Hcid. apply list_elem_of_lookup in Hcid as [i Hi].
    assert (Hil : (i < length ls)%nat).
    { apply lookup_lt_Some in Hi. rewrite length_column in Hi.
      destruct S3. lia. }
    destruct (lookup_lt_is_Some_2 ls i Hil) as [c Hc].
    destruct (labelled_table _ _ _ _ Hlen Hl i c Hc)
      as (vec0 & closest0 & _ & _ & Hrow0).
    rewrite (column_lookup 0 _ _ _ Hrow0) in Hi. cbn in Hi. injection Hi as <-.
    destruct (Hsc c) as (_ & vec & Hvec & Hn & Hnz).
    { eapply list_elem_of_lookup_2, Hc. }
    destruct (lookup_lt_is_Some_2 (np_where Z.eqb ls c) vec) as [i' Hi'];
      [exact Hvec|].
    assert (Hc' : ls !! i' = Some c).
    { apply list_elem_of_lookup_2, elem_of_np_where in Hi' as (x & Hx & Hxc).
      apply Z.eqb_eq in Hxc. congruence. }
    destruct (labelled_table _ _ _ _ Hlen Hl i' c Hc')
      as (vec' & closest' & Hvec' & _ & Hrow').
    assert (vec' = vec) as ->
      by exact (NoDup_lookup _ _ _ _ (NoDup_np_where Z.eqb ls c) Hvec' Hi').
    apply (member_ssd_nonzero st3 (fl_of_Z c)
             (neighborhood_dist (cluster_points dat ls c) vec k));
      [|exact Hn|exact Hnz].
    apply (elem_of_cluster_column 1 st3 i').
    - apply (column_lookup 0 _ _ _ Hrow').
    - cbn. apply bool_decide_eq_true_2. done.
    - apply (column_lookup 1 _ _ _ Hrow'). }
  exists (column 10 st). unfold loop. rewrite (init_Ok _ _ _ _ Hv). fold self.
  rewrite fit_pipeline, pipeline_split, distance_stage_eq.
  assert (labels_given self = ls) as ->.
  { apply (labels_given_of self). change (labels_of self) with ls.
    intros Hnil. rewrite Hnil in Hlen. destruct dat; done. }
  change (labels_of self) with ls. cbn [data n_neighbors self].
  rewrite Hl. cbn. rewrite Hs. done.
Qed.
End Returns.

(** ** The scores of a run, row by row *)

Section Scores.
Variable erf : R -> R.
Variable set_order : list Z -> list Z.
Variable np_empty : nat -> nat -> matrix.

(** C2: the score [fit] returns for an observation is
    [max(0, erf(plof / (nplof * sqrt(2))))] with
    [plof = prob_set_distance / cluster_ev_prob_set_distance - 1] and
    [nplof = extent * sqrt(cluster_ev_plof_sq)].  The operands are the
    entries of that observation's row in the table of the run: columns 5,
    6 and 8, the last two being the means over the rows of its cluster;
    [plof] and [nplof] are the entries of columns 7 and 9.  The score is 0
    whenever that [plof] is negative. *)
Theorem score_formula self v self' e :
  is_np_empty np_empty -> (forall x, x <= 0 -> erf x <= 0) ->
  self.(extent) = Fin e -> 0 < e ->
  fit erf set_order np_empty self = Ok (v, self') ->
  exists st self1,
    pipeline erf set_order np_empty self = Ok (st, self1) /\
    v = column 10 st /\
    length v = length self.(data) /\
    forall i score, v !! i = Some score ->
      exists cluster_id prob_set_distance cluster_ev_prob_set_distance
             cluster_ev_plof_sq,
        column 0 st !! i = Some cluster_id /\
        column 5 st !! i = Some prob_set_distance /\
        column 6 st !! i = Some cluster_ev_prob_set_distance /\
        column 8 st !! i = Some cluster_ev_plof_sq /\
        cluster_ev_prob_set_distance
        = np_mean (nonan (cluster_column 5 st cluster_id)) /\
        cluster_ev_plof_sq
        = (let l := nonan (cluster_column 7 st cluster_id) in
           fdiv (np_sum (map fpow2 l)) (Fin (INR (length l)))) /\
        let plof :=
          fsub (fdiv prob_set_distance cluster_ev_prob_set_distance) (Fin 1) in
        let nplof := fmul self.(extent) (fsqrt cluster_ev_plof_sq) in
        column 7 st !! i = Some plof /\
        column 9 st !! i = Some nplof /\
        score = fmax0 (ferf erf (fdiv plof (fmul nplof (fsqrt (Fin 2))))) /\
        forall p, plof = Fin p -> p < 0 -> score = Fin 0.
Proof.
  intros Hne erf_nonpos He Hpos H.
  apply fit_Ok in H as (st & self1 & Hp & -> & ->).
  exists st, self1. split; [exact Hp|]. split; [done|].
  apply (pipeline_Ok _ _ _ Hne) in Hp as (_ & Ht & _).
  pose proof Ht as ([Hlen _] & _ & _ & _ & _ & H7 & H8 & H9 & H10).
  split; [rewrite length_column; exact Hlen|].
  intros i score Hs.
  assert (Hi : (i < length st)%nat).
  { apply lookup_lt_Some in Hs. rewrite length_column in Hs. exact Hs. }
  destruct (lookup_lt_is_Some_2 (column 0 st) i) as [cid H0i];
    [rewrite length_column; exact Hi|].
  destruct (lookup_lt_is_Some_2 (column 5 st) i) as [psd H5i];
    [rewrite length_column; exact Hi|].
  destruct (statistics_table_cluster _ _ _ _ _ Ht H0i) as (_ & H6i & H8i).
  pose (ev := np_mean (nonan (cluster_column 5 st cid))).
  pose (evsq := let l := nonan (cluster_column 7 st cid) in
                fdiv (np_sum (map fpow2 l)) (Fin (INR (length l)))).
  change (column 6 st !! i = Some ev) in H6i.
  change (column 8 st !! i = Some evsq) in H8i.
  exists cid, psd, ev, evsq. do 4 (split; [done|]). do 2 (split; [reflexivity|]).
  cbv zeta.
  assert (H7i : column 7 st !! i = Some (fsub (fdiv psd ev) (Fin 1))).
  { rewrite H7. unfold _prob_outlier_factor.
    rewrite list_lookup_fmap, lookup_zip_with, H5i, H6i. done. }
  assert (H9i : column 9 st !! i = Some (fmul self.(extent) (fsqrt evsq))).
  { rewrite H9. unfold _norm_prob_outlier_factor.
    rewrite list_lookup_fmap, H8i. done. }
  do 2 (split; [done|]).
  assert (Hscore : score =
    fmax0 (ferf erf (fdiv (fsub (fdiv psd ev) (Fin 1))
                          (fmul (fmul self.(extent) (fsqrt evsq)) (fsqrt (Fin 2)))))).
  { unfold _local_outlier_probability in H10. cbv zeta in H10.
    destruct (zip_with _ _ _) as [|q arg] eqn:Hz in H10; [discriminate|].
    rewrite <- Hz in H10. injection H10 as H10. rewrite <- H10 in Hs.
    rewrite list_lookup_fmap, lookup_zip_with, H7i in Hs. cbn -[fsqrt] in Hs.
    rewrite list_lookup_fmap, H9i in Hs. cbn -[fsqrt] in Hs.
    injection Hs as <-. reflexivity. }
  split; [exact Hscore|]. intros p Hplof Hneg.
  rewrite Hplof in H7i, Hscore.
  assert (Hev : positive evsq).
  { eapply ev_plof_sq_positive; eauto. lra. }
  assert (Hn : positive (fmul (fmul self.(extent) (fsqrt evsq)) (fsqrt (Fin 2)))).
  { apply fmul_positive; [|apply fsqrt_2_positive].
    apply fmul_positive; [rewrite He; exact Hpos|]. apply fsqrt_positive, Hev. }
  destruct (fdiv_neg_positive p _ Hneg Hn) as (z & Hz & Hz0).
  rewrite Hscore, Hz. cbn. rewrite Rmax_left; [done|]. apply erf_nonpos, Hz0.
Qed.

(** C3: the vector [fit] returns has one entry per observation and every
    entry is NaN or a finite value in [0,1].  Entry [i] belongs to
    observation [i]: in the table of the run, row [i] has the cluster id
    of observation [i] and the context distance of observation [i] among
    the members of its cluster, and entry [i] is the score computed from
    that distance and the statistics of that cluster. *)
Theorem fit_scores self v self' :
  is_set_order set_order -> is_np_empty np_empty ->
  (forall x, -1 <= erf x <= 1) ->
  fit erf set_order np_empty self = Ok (v, self') ->
  length v = length self.(data) /\
  Forall probability_or_nan v /\
  exists st self1,
    pipeline erf set_order np_empty self = Ok (st, self1) /\
    v = column 10 st /\
    forall i c, labels_of self !! i = Some c ->
      exists points j,
        np_take self.(data) (np_where Z.eqb (labels_of self) c) = Ok points /\
        points !! j = self.(data) !! i /\
        column 0 st !! i = Some (fl_of_Z c) /\
        let context_distance := neighborhood_dist points j self.(n_neighbors) in
        column 1 st !! i = Some context_distance /\
        let ssd := cluster_ssd st (fl_of_Z c) in
        let ev := np_mean (nonan (cluster_column 5 st (fl_of_Z c))) in
        let evsq :=
          let l := nonan (cluster_column 7 st (fl_of_Z c)) in
          fdiv (np_sum (map fpow2 l)) (Fin (INR (length l))) in
        let sd := fsqrt (fdiv ssd (fabs context_distance)) in
        let psd := fdiv (Fin 1) (fmul self.(extent) sd) in
        let plof := fsub (fdiv psd ev) (Fin 1) in
        let nplof := fmul self.(extent) (fsqrt evsq) in
        v !! i = Some (fmax0 (ferf erf (fdiv plof (fmul nplof (fsqrt (Fin 2)))))).
Proof.
  intros Hso Hne Herf H. apply fit_Ok in H as (st & self1 & Hp & -> & ->).
  pose proof (pipeline_Ok _ _ _ Hne _ _ _ Hp) as (_ & Ht & st3 & H3 & Hpre).
  pose proof Ht as ([Hlen _] & _ & _ & _ & _ & _ & _ & _ & Hlop).
  split; [rewrite length_column; exact Hlen|].
  split; [eapply local_outlier_probability_range; eauto|].
  exists st, self1. split; [exact Hp|]. split; [done|]. intros i c Hi.
  destruct (distance_stage_rows _ _ _ _ _ _ _ Hso H3 Hi)
    as (points & j & row & Hpts & Hj & Hrow & closest & _ & ->).
  exists points, j. split; [done|].
  split; [eapply np_take_lookup; eauto|].
  assert (H0i : column 0 st !! i = Some (fl_of_Z c)).
  { rewrite (Hpre 0%nat) by lia. rewrite (column_lookup _ _ _ _ Hrow). done. }
  assert (H1i : column 1 st !! i
                = Some (neighborhood_dist points j self.(n_neighbors))).
  { rewrite (Hpre 1%nat) by lia. rewrite (column_lookup _ _ _ _ Hrow). done. }
  split; [exact H0i|]. cbv zeta. split; [exact H1i|].
  destruct (statistics_table_row _ _ _ _ _ Ht H1i)
    as (ssd & ev & evsq & H3i & H6i & H8i & _ & _ & H10i).
  destruct (statistics_table_cluster _ _ _ _ _ Ht H0i) as (H3c & H6c & H8c).
  rewrite H3c in H3i. rewrite H6c in H6i. rewrite H8c in H8i.
  apply (inj Some) in H3i, H6i, H8i. subst ssd ev evsq. exact H10i.
Qed.
End Scores.

(** ** Labels of 54 bits *)

Lemma wide_label_distances :
  distance_stage set_order_model np_zeros wide_label_self
  = Ok ([[fl_of_Z (2 ^ 53); Fin 0; Fin 0];
         [fl_of_Z (2 ^ 53); Fin (3 / 2); Fin 2];
         [fl_of_Z (2 ^ 53); Fin (5 / 2); Fin 3];
         [fl_of_Z (2 ^ 53); Fin 0; Fin 0];
         [fl_of_Z (2 ^ 53); Fin 0; Fin 0];
         [fl_of_Z (2 ^ 53); Fin 0; Fin 0]], wide_label_self).
Proof.
  unfold distance_stage, _store, _n_observations, _distances, _cluster_labels,
    mbind, M_bind, bind, get_self, wide_label_self, two_cluster_data,
    wide_labels, set_order_model, np_zeros.
  cbn -[distances_loop np_where remove_dups Z.pow].
  assert (remove_dups [2 ^ 53; 2 ^ 53; 2 ^ 53; 2 ^ 53 + 1; 2 ^ 53 + 1; 2 ^ 53 + 1]%Z
          = [2 ^ 53; 2 ^ 53 + 1]%Z) as ->
    by (vm_compute; reflexivity).
  cbn [distances_loop label_where].
  assert (Hw0 : np_where Z.eqb
                  [2 ^ 53; 2 ^ 53; 2 ^ 53; 2 ^ 53 + 1; 2 ^ 53 + 1; 2 ^ 53 + 1]%Z
                  (2 ^ 53)%Z = [0; 1; 2]%nat)
    by (vm_compute; reflexivity).
  assert (Hw1 : np_where Z.eqb
                  [2 ^ 53; 2 ^ 53; 2 ^ 53; 2 ^ 53 + 1; 2 ^ 53 + 1; 2 ^ 53 + 1]%Z
                  (2 ^ 53 + 1)%Z = [3; 4; 5]%nat)
    by (vm_compute; reflexivity).
  rewrite Hw0, Hw1.
  cbn -[fsqrt fpow2 neighborhood_distances Z.pow]. unfold neighborhood_distances.
  cbn -[fsqrt fpow2 Z.pow]. rewrite !fsqrt_fpow2, fl_of_Z_wide. Reval.
  do 2 f_equal. fin_eq.
Qed.

(** The six rows are one cluster to [_ssd], with a sum of squares of 8.5:
    the run returns. *)
Lemma wide_label_fit :
  exists v self',
    fit erf_model set_order_model np_zeros wide_label_self = Ok (v, self').
Proof.
  pose proof wide_label_distances as Hd.
  set (st3 := [[fl_of_Z (2 ^ 53); Fin 0; Fin 0]; _; _; _; _; _]) in Hd.
  destruct (statistics_stages_progress erf_model 6 st3 wide_label_self)
    as (st & s1 & Hs).
  - split; [reflexivity|]. repeat constructor.
  - lia.
  - intros cid Hcid.
    assert (cid = fl_of_Z (2 ^ 53)) as ->.
    { cbn in Hcid. repeat (apply elem_of_cons in Hcid as [->|Hcid]; [done|]).
      inversion Hcid. }
    apply (member_ssd_nonzero st3 _ (Fin (3 / 2))); [|done|intros [= H]; lra].
    apply (elem_of_cluster_column 1 st3 1%nat); [reflexivity| |reflexivity].
    unfold fl_of_Z. cbn. apply bool_decide_eq_true_2. done.
  - exists (column 10 st), (with_scores s1 (column 10 st)).
    rewrite fit_pipeline, pipeline_split, Hd, Hs. done.
Qed.

Lemma wide_label_degenerate :
  exists c points,
    c ∈ labels_of wide_label_self /\
    np_take wide_label_self.(data) (np_where Z.eqb (labels_of wide_label_self) c)
      = Ok points /\
    forall vec, (vec < length points)%nat ->
                neighborhood_dist points vec wide_label_self.(n_neighbors) = Fin 0.
Proof.
  exists (2 ^ 53 + 1)%Z, [[Fin 5]; [Fin 5]; [Fin 5]].
  split; [do 3 right; left|]. split; [reflexivity|].
  intros vec Hvec.
  assert (vec = 0 \/ vec = 1 \/ vec = 2)%nat as [->|[->| ->]] by (cbn in Hvec; lia);
    unfold neighborhood_dist, neighborhood_distances, cluster_d;
    cbn -[fsqrt fpow2]; rewrite !fsqrt_fpow2; Reval; fin_eq.
Qed.


(** ** Labels in a Python list *)

(** The distance stage on labels in a list: the table is the one
    [np.empty] made. *)
Lemma list_label_distances set_order np_empty self l :
  self.(cluster_labels) = Some (LabelList l) ->
  distance_stage set_order np_empty self
  = match set_order l with
    | [] => Ok (np_empty (length self.(data)) 3%nat, self)
    | _ => if existsb truthy (column 1 (np_empty (length self.(data)) 3%nat))
           then Ok (np_empty (length self.(data)) 3%nat, self)
           else Exit
    end.
Proof.
  intros Hl. rewrite distance_stage_eq.
  unfold labels_of, labels_given, label_vector_of. rewrite Hl.
  change (default _ (Some (LabelList l))) with (LabelList l).
  rewrite <- (distances_loop_array _ _ (LabelList l)), distances_loop_list.
  cbn [label_values].
  destruct (set_order l); [done|]. destruct (existsb _ _); done.
Qed.

(** C9 on the observations 0, 1, 3 with two neighbours.  Without labels the
    call returns three scores, the last one above 0.  With the labels
    [[0, 0, 0]] in a list, which line 67 admits, line 120 compares the list
    with the cluster id, selects no observation and writes no row: on
    zeroed memory the call halts at line 134, and on memory of ones the
    distance stage hands on the table of ones. *)
Theorem list_labels_are_not_scored :
  (exists s1 s2,
      loop erf_model set_order_model np_zeros sample_data sample_extent 2 None
      = Ok [Fin 0; Fin s1; Fin s2] /\ 0 < s2) /\
  loop erf_model set_order_model np_zeros sample_data sample_extent 2
    (Some (LabelList [0; 0; 0]%Z)) = Exit /\
  distance_stage set_order_model np_ones list_label_self
  = Ok (np_ones 3 3, list_label_self).
Proof.
  split; [|split].
  - apply (sample_loop erf_model set_order_model np_zeros set_order_model_ok
             np_zeros_ok erf_model_nonpos erf_model_pos None).
    left. reflexivity.
  - unfold loop. rewrite init_Ok by (apply sample_configuration; lia).
    rewrite fit_distance_stage, (list_label_distances _ _ _ [0; 0; 0]%Z)
      by reflexivity.
    cbn [data].
    assert (set_order_model [0; 0; 0]%Z = [0]%Z) as -> by (vm_compute; reflexivity).
    assert (existsb truthy (column 1 (np_zeros (length sample_data) 3)) = false)
      as ->; [|reflexivity].
    cbn. rewrite bool_decide_eq_false_2 by (intros H; apply H; reflexivity). done.
  - rewrite (list_label_distances _ _ _ [0; 0; 0]%Z) by reflexivity.
    unfold list_label_self. cbn [data].
    assert (set_order_model [0; 0; 0]%Z = [0]%Z) as -> by (vm_compute; reflexivity).
    assert (existsb truthy (column 1 (np_ones (length sample_data) 3)) = true)
      as ->; [|reflexivity].
    cbn. rewrite bool_decide_eq_true_2 by lra. done.
Qed.

(** ** The statements above on sample inputs, continued *)

Lemma sample_pipeline :
  exists st self',
    pipeline erf_model set_order_model np_zeros sample_self = Ok (st, self').
Proof.
  destruct (sample_fit erf_model set_order_model np_zeros set_order_model_ok
              np_zeros_ok erf_model_nonpos erf_model_pos) as (v & self' & H).
  apply fit_Ok in H as (st & self1 & Hp & _). eauto.
Qed.

Lemma partly_labelled_distances :
  exists st3,
    distance_stage set_order_model np_zeros partly_labelled_self
    = Ok (st3, partly_labelled_self).
Proof.
  unfold distance_stage, _store, _n_observations, _distances, _cluster_labels,
    mbind, M_bind, bind, get_self, partly_labelled_self, four_points,
    set_order_model, np_zeros.
  cbn -[distances_loop np_where remove_dups].
  assert (remove_dups [0; 0; 0]%Z = [0]%Z) as -> by (vm_compute; reflexivity).
  cbn [distances_loop label_where].
  assert (Hw0 : np_where Z.eqb [0; 0; 0]%Z 0%Z = [0; 1; 2]%nat)
    by (vm_compute; reflexivity).
  rewrite Hw0.
  cbn -[fsqrt fpow2 neighborhood_distances]. unfold neighborhood_distances.
  cbn -[fsqrt fpow2]. rewrite !fsqrt_fpow2. Reval.
  eexists. reflexivity.
Qed.

Lemma refit_returns_the_same_witness :
  exists v self',
    fit erf_model set_order_model np_zeros sample_self = Ok (v, self') /\
    fit erf_model set_order_model np_zeros self' = Ok (v, self').
Proof.
  destruct (sample_fit erf_model set_order_model np_zeros set_order_model_ok
              np_zeros_ok erf_model_nonpos erf_model_pos) as (v & self' & H).
  exists v, self'. split; [exact H|].
  exact (refit_returns_the_same erf_model set_order_model np_zeros np_zeros_ok
           sample_self v self' H).
Defined.

Lemma closest_neighbor_distance_unused_witness :
  scores_of (statistics_stages erf_model [[Fin 0; Fin 1; Fin 2]] sample_self)
  = scores_of (statistics_stages erf_model [[Fin 0; Fin 1; Fin 5]] sample_self).
Proof.
  apply (closest_neighbor_distance_unused erf_model 1
           [[Fin 0; Fin 1; Fin 2]] [[Fin 0; Fin 1; Fin 5]] sample_self).
  - split; [reflexivity|]. repeat constructor.
  - split; [reflexivity|]. repeat constructor.
  - reflexivity.
  - reflexivity.
Defined.

Lemma statistics_never_negative_witness :
  exists st self',
    pipeline erf_model set_order_model np_zeros sample_self = Ok (st, self') /\
    Forall positive (column 3 st) /\
    Forall at_least_minus_one_or_nan (column 7 st).
Proof.
  destruct sample_pipeline as (st & self' & H). exists st, self'.
  split; [exact H|].
  destruct (statistics_never_negative erf_model set_order_model np_zeros np_zeros_ok
              sample_self st self' (997 / 1000) eq_refl ltac:(lra) H)
    as (H3 & _ & _ & _ & H7 & _).
  split; [exact H3|exact H7].
Defined.

Lemma cluster_statistics_shared_witness :
  exists st self',
    pipeline erf_model set_order_model np_zeros sample_self = Ok (st, self') /\
    column 3 st !! 0%nat = column 3 st !! 2%nat.
Proof.
  destruct sample_pipeline as (st & self' & H). exists st, self'.
  split; [exact H|].
  apply (cluster_statistics_shared erf_model set_order_model np_zeros
           set_order_model_ok np_zeros_ok sample_self st self' 0%nat 2%nat 0%Z 3%nat H).
  - reflexivity.
  - reflexivity.
  - left.
Defined.

Lemma scores_need_two_neighbors_witness :
  (3 <= length sample_data)%nat /\
  (2 <= 2)%Z /\ (3 <= cluster_size (replicate (length sample_data) 0%Z) 0%Z)%nat.
Proof.
  destruct (sample_loop erf_model set_order_model np_zeros set_order_model_ok
              np_zeros_ok erf_model_nonpos erf_model_pos None) as (s1 & s2 & H & _);
    [left; reflexivity|].
  destruct (scores_need_two_neighbors erf_model set_order_model np_zeros
              set_order_model_ok sample_data sample_extent 2 None _ H) as [Hlen Hc].
  split; [exact Hlen|]. apply (Hc 0%Z). left.
Defined.

Lemma empty_dataset_raises_witness :
  loop erf_model set_order_model np_zeros [] sample_extent 2 (Some (LabelArray [0; 0; 0]%Z)) = Raise.
Proof.
  apply (empty_dataset_raises erf_model set_order_model np_zeros set_order_model_ok
           np_zeros_ok sample_extent 2 (Some [0; 0; 0]%Z)).
  split; [lia|]. exists (997 / 1000). split; [reflexivity|lra].
Defined.

Lemma unlabelled_rows_are_uninitialised_witness :
  exists st3,
    distance_stage set_order_model np_zeros partly_labelled_self
      = Ok (st3, partly_labelled_self) /\
    st3 !! 3%nat = Some [Fin 0; Fin 0; Fin 0].
Proof.
  destruct partly_labelled_distances as [st3 H]. exists st3. split; [exact H|].
  apply (unlabelled_rows_are_uninitialised set_order_model np_zeros
           partly_labelled_self st3 partly_labelled_self 3%nat H).
  cbn. lia.
Defined.

Lemma first_member_never_outlier_witness :
  exists v,
    loop erf_model set_order_model np_zeros sample_data sample_extent 2 None = Ok v /\
    (v !! 0%nat = Some (Fin 0) \/ v !! 0%nat = Some NaN).
Proof.
  destruct (sample_loop erf_model set_order_model np_zeros set_order_model_ok
              np_zeros_ok erf_model_nonpos erf_model_pos None) as (s1 & s2 & H & _);
    [left; reflexivity|].
  eexists. split; [exact H|].
  apply (first_member_never_outlier erf_model set_order_model np_zeros
           set_order_model_ok np_zeros_ok erf_model_nonpos
           sample_data sample_extent 2 None _ 0%nat 0%Z 0%nat H).
  - repeat constructor.
  - reflexivity.
Defined.

Lemma positional_of_wrong_type_exits_witness :
  new_f init_types (fun _ _ => Ok tt)
    [PObject; PList [PList [PFloat (Fin 0)]]] [("data"%string, PNone)] = Exit.
Proof.
  apply (positional_of_wrong_type_exits (fun _ _ => Ok tt) init_types
           [PObject; PList [PList [PFloat (Fin 0)]]] [("data"%string, PNone)]
           1%nat (PList [PList [PFloat (Fin 0)]]) Tndarray); reflexivity.
Defined.

Lemma keyword_outside_options_raises_witness :
  new_f init_types (fun _ _ => Ok tt)
    [PObject] [("data"%string, PNdarray sample_data)] = Raise.
Proof.
  apply (keyword_outside_options_raises (fun _ _ => Ok tt) init_types
           [PObject] [("data"%string, PNdarray sample_data)]
           "data"%string (PNdarray sample_data)).
  - intros [|i] a t Ha Ht; [|destruct i; discriminate].
    injection Ha as <-. injection Ht as <-. reflexivity.
  - left.
  - intros H. repeat (apply elem_of_cons in H as [H|H]; [discriminate|]).
    inversion H.
Defined.

Lemma keyword_of_wrong_type_exits_witness :
  new_f init_types (fun _ _ => Ok tt)
    [PObject; PNdarray sample_data] [("cluster_labels"%string, PNone)] = Exit.
Proof.
  apply (keyword_of_wrong_type_exits (fun _ _ => Ok tt) init_types
           [PObject; PNdarray sample_data] [("cluster_labels"%string, PNone)]
           "cluster_labels"%string PNone (Ttuple [Tlist; Tndarray])).
  - intros [|[|i]] a t Ha Ht; try discriminate;
      injection Ha as <-; injection Ht as <-; reflexivity.
  - cbn. lia.
  - repeat constructor. intros H. inversion H.
  - intros y w H. apply elem_of_cons in H as [[= -> ->]|H]; [|inversion H].
    do 2 right. left.
  - left.
  - reflexivity.
  - reflexivity.
Defined.

Lemma accepted_call_runs_witness :
  new_f init_types (fun _ kwds => Ok (length kwds))
    [PObject; PDataFrame sample_data; PFloat sample_extent]
    [("n_neighbors"%string, PBool true)]
  = Ok 1%nat.
Proof.
  apply (accepted_call_runs (fun _ kwds => Ok (length kwds)) init_types
           [PObject; PDataFrame sample_data; PFloat sample_extent]
           [("n_neighbors"%string, PBool true)]).
  - intros [|[|[|i]]] a t Ha Ht; try discriminate;
      injection Ha as <-; injection Ht as <-; reflexivity.
  - cbn. lia.
  - intros x v H. apply elem_of_cons in H as [[= -> ->]|H]; [|inversion H].
    exists Tint. split; reflexivity.
Defined.

Lemma returned_call_was_checked_witness :
  positional_ok [PObject; PNdarray sample_data] init_types /\
  exists t, option_type init_types "extent" = Some t /\
            isinstance (PFloat sample_extent) t = true.
Proof.
  destruct (returned_call_was_checked (fun _ _ => Ok tt) init_types
              [PObject; PNdarray sample_data]
              [("extent"%string, PFloat sample_extent)] tt)
    as (_ & Hp & Hk).
  - repeat constructor. intros H. inversion H.
  - reflexivity.
  - split; [exact Hp|]. apply (Hk "extent"%string (PFloat sample_extent)). left.
Defined.

Lemma set_order_reversed_ok : is_set_order set_order_reversed.
Proof.
  intros l. unfold set_order_reversed. split.
  - rewrite reverse_Permutation. apply NoDup_remove_dups.
  - intros x. rewrite elem_of_reverse. apply elem_of_remove_dups.
Qed.

Lemma np_ones_ok : is_np_empty np_ones.
Proof.
  intros n w. unfold np_ones. split; [apply length_replicate|].
  apply Forall_forall. intros row Hrow.
  apply elem_of_replicate in Hrow as [-> _]. apply length_replicate.
Qed.

Lemma sample_distinct_ids : distinct_ids (labels_of sample_self).
Proof.
  apply exact_distinct_ids.
  repeat constructor; unfold exact_label; cbn; lia.
Qed.

Lemma scores_independent_of_runtime_witness :
  exists v self',
    fit erf_model set_order_model np_zeros sample_self = Ok (v, self') /\
    fit erf_model set_order_reversed np_ones sample_self = Ok (v, self').
Proof.
  destruct (sample_fit erf_model set_order_model np_zeros set_order_model_ok
              np_zeros_ok erf_model_nonpos erf_model_pos) as (v & self' & H).
  exists v, self'. split; [exact H|].
  apply (scores_independent_of_runtime erf_model set_order_model set_order_reversed
           np_zeros np_ones set_order_model_ok set_order_reversed_ok np_zeros_ok
           np_ones_ok sample_self v self');
    [reflexivity|exact sample_distinct_ids|exact H].
Defined.

Lemma identical_observations_halt_witness :
  loop erf_model set_order_model np_zeros (replicate 3 [Fin 1; Fin 2])
    sample_extent 2 None = Exit.
Proof.
  apply (identical_observations_halt erf_model set_order_model np_zeros
           set_order_model_ok np_zeros_ok [Fin 1; Fin 2] 3 sample_extent 2 None 0%Z).
  - split; [lia|]. exists (997 / 1000). split; [reflexivity|lra].
  - lia.
  - lia.
  - repeat constructor; eexists; reflexivity.
  - discriminate.
  - left. reflexivity.
Defined.

Lemma erf_model_monotone x y : x <= y -> erf_model x <= erf_model y.
Proof.
  intros Hxy. unfold erf_model.
  assert (Hx : 0 < 1 + Rabs x) by (pose proof (Rabs_pos x); lra).
  assert (Hy : 0 < 1 + Rabs y) by (pose proof (Rabs_pos y); lra).
  apply Rmult_le_reg_r with ((1 + Rabs x) * (1 + Rabs y)); [nra|].
  replace (x / (1 + Rabs x) * ((1 + Rabs x) * (1 + Rabs y)))
    with (x * (1 + Rabs y)) by (field; lra).
  replace (y / (1 + Rabs y) * ((1 + Rabs x) * (1 + Rabs y)))
    with (y * (1 + Rabs x)) by (field; lra).
  destruct (Rle_dec 0 x) as [H0x|H0x], (Rle_dec 0 y) as [H0y|H0y].
  - rewrite !Rabs_pos_eq by lra. nra.
  - lra.
  - rewrite (Rabs_left1 x), (Rabs_pos_eq y) by lra. nra.
  - rewrite !Rabs_left1 by lra. nra.
Qed.

Lemma sample_distances :
  exists c0 c1 c2,
    distance_stage set_order_model np_zeros sample_self
    = Ok ([[Fin 0; Fin 0; c0]; [Fin 0; Fin (3 / 2); c1]; [Fin 0; Fin (5 / 2); c2]],
          sample_self).
Proof.
  unfold distance_stage, _store, _n_observations, _distances, _cluster_labels,
    mbind, M_bind, bind, get_self, sample_self, sample_data,
    set_order_model, np_zeros.
  cbn -[distances_loop np_where remove_dups].
  assert (remove_dups [0; 0; 0]%Z = [0]%Z) as -> by (vm_compute; reflexivity).
  cbn [distances_loop label_where].
  assert (Hw0 : np_where Z.eqb [0; 0; 0]%Z 0%Z = [0; 1; 2]%nat)
    by (vm_compute; reflexivity).
  rewrite Hw0.
  cbn -[fsqrt fpow2 neighborhood_distances]. unfold neighborhood_distances.
  cbn -[fsqrt fpow2]. rewrite !fsqrt_fpow2, fl_of_Z_0. Reval.
  eexists _, _, _. do 2 f_equal. fin_eq.
Qed.

Lemma sample_context_column :
  exists st self',
    pipeline erf_model set_order_model np_zeros sample_self = Ok (st, self') /\
    column 1 st !! 1%nat = Some (Fin (3 / 2)) /\
    column 1 st !! 2%nat = Some (Fin (5 / 2)).
Proof.
  destruct sample_pipeline as (st & self' & H). exists st, self'.
  split; [exact H|].
  pose proof (pipeline_Ok _ _ _ np_zeros_ok _ _ _ H) as (_ & _ & st3 & Hd & Hpre).
  destruct sample_distances as (c0 & c1 & c2 & Hs).
  rewrite Hs in Hd. injection Hd as <-. rewrite (Hpre 1%nat) by lia. done.
Qed.


Lemma three_in_a_row_distance o :
  neighborhood_dist [[Fin o]; [Fin (o + 1)]; [Fin (o + 3)]] 1 2 = Fin (3 / 2).
Proof.
  unfold neighborhood_dist, neighborhood_distances, cluster_d.
  cbn -[fsqrt fpow2]. rewrite !fsqrt_fpow2. Reval. fin_eq.
Qed.

Lemma sample_distance : neighborhood_dist sample_data 1 2 = Fin (3 / 2).
Proof.
  unfold neighborhood_dist, neighborhood_distances, cluster_d, sample_data.
  cbn -[fsqrt fpow2]. rewrite !fsqrt_fpow2. Reval. fin_eq.
Qed.

Lemma split_scorable o c :
  c ∈ two_cluster_labels -> scorable (split_data o) 2 two_cluster_labels c.
Proof.
  intros Hc.
  assert (c = 0 \/ c = 1)%Z as [->| ->].
  { unfold two_cluster_labels in Hc.
    repeat (apply elem_of_cons in Hc as [->|Hc]; [lia|]). inversion Hc. }
  - split; [vm_compute; lia|]. exists 1%nat. split; [vm_compute; lia|].
    change (cluster_points (split_data o) two_cluster_labels 0) with sample_data.
    rewrite sample_distance. split; [done|]. intros [= H]. lra.
  - split; [vm_compute; lia|]. exists 1%nat. split; [vm_compute; lia|].
    change (cluster_points (split_data o) two_cluster_labels 1)
      with [[Fin o]; [Fin (o + 1)]; [Fin (o + 3)]].
    rewrite three_in_a_row_distance. split; [done|]. intros [= H]. lra.
Qed.

Lemma split_fit o :
  exists v self',
    fit erf_model set_order_model np_zeros (split_self o) = Ok (v, self').
Proof.
  destruct (scorable_call_returns erf_model set_order_model np_zeros
              set_order_model_ok np_zeros_ok (split_data o) sample_extent 2
              (Some (LabelArray two_cluster_labels))) as [v H].
  - reflexivity.
  - apply sample_configuration. lia.
  - discriminate.
  - lia.
  - apply split_scorable.
  - apply loop_Ok_fit in H as [self' H]. eauto.
Qed.

Lemma clusters_are_scored_independently_witness :
  exists v1 v2 self1' self2',
    fit erf_model set_order_model np_zeros (split_self 10) = Ok (v1, self1') /\
    fit erf_model set_order_model np_zeros (split_self 20) = Ok (v2, self2') /\
    v1 !! 1%nat = v2 !! 1%nat.
Proof.
  destruct (split_fit 10) as (v1 & s1 & H1).
  destruct (split_fit 20) as (v2 & s2 & H2).
  exists v1, v2, s1, s2. split; [exact H1|]. split; [exact H2|].
  apply (clusters_are_scored_independently erf_model set_order_model set_order_model
           np_zeros np_zeros set_order_model_ok set_order_model_ok np_zeros_ok
           np_zeros_ok (split_self 10) (split_self 20) v1 v2 s1 s2 0%Z 1%nat
           eq_refl eq_refl eq_refl eq_refl eq_refl two_cluster_distinct_ids);
    [|exact H1|exact H2|reflexivity].
  intros [|[|[|[|[|[|i]]]]]] Hi; try reflexivity; discriminate.
Defined.

Lemma statistics_stages_never_raise_witness :
  (exists st self', statistics_stages erf_model [[Fin 0; Fin 1; Fin 2]] sample_self
                    = Ok (st, self')) /\
  cluster_ssd [[Fin 0; Fin 1; Fin 2]] (Fin 0) <> Fin 0.
Proof.
  destruct (statistics_stages_never_raise erf_model 1 [[Fin 0; Fin 1; Fin 2]]
              sample_self) as [[_ (cid & Hcid & Hz)]|[Hok Hnz]].
  - split; [reflexivity|]. repeat constructor.
  - lia.
  - exfalso. apply list_elem_of_singleton in Hcid as ->.
    unfold cluster_ssd, cluster_column, np_where in Hz. revert Hz.
    cbn. Reval. intros [= H]. lra.
  - split; [exact Hok|]. apply Hnz. left.
Defined.

Lemma fit_scores_witness :
  exists v self' st self1,
    fit erf_model set_order_model np_zeros sample_self = Ok (v, self') /\
    length v = 3%nat /\ Forall probability_or_nan v /\
    pipeline erf_model set_order_model np_zeros sample_self = Ok (st, self1) /\
    v = column 10 st.
Proof.
  destruct (sample_fit erf_model set_order_model np_zeros set_order_model_ok
              np_zeros_ok erf_model_nonpos erf_model_pos) as (v & self' & H).
  destruct (fit_scores erf_model set_order_model np_zeros sample_self v self'
              set_order_model_ok np_zeros_ok erf_model_range H)
    as (Hlen & Hrange & st & self1 & Hp & Hv & _).
  exists v, self', st, self1. split; [exact H|]. split; [exact Hlen|].
  split; [exact Hrange|]. split; [exact Hp|exact Hv].
Defined.

Lemma score_formula_witness :
  exists v self' st self1,
    fit erf_model set_order_model np_zeros sample_self = Ok (v, self') /\
    pipeline erf_model set_order_model np_zeros sample_self = Ok (st, self1) /\
    v = column 10 st /\ length v = 3%nat.
Proof.
  destruct (sample_fit erf_model set_order_model np_zeros set_order_model_ok
              np_zeros_ok erf_model_nonpos erf_model_pos) as (v & self' & H).
  destruct (score_formula erf_model set_order_model np_zeros sample_self v self'
              (997 / 1000) np_zeros_ok erf_model_nonpos eq_refl ltac:(lra) H)
    as (st & self1 & Hp & Hv & Hlen & _).
  exists v, self', st, self1. split; [exact H|]. split; [exact Hp|].
  split; [exact Hv|exact Hlen].
Defined.
